(** * Table monitors and order entry of the trader UI (vnpy/trader/ui)

    A shallow embedding of the cell classes ([BaseCell] and its
    subclasses), of [BaseMonitor] and [ActiveOrderMonitor], of the CSV
    export and of the order-entry handlers of [widget.py] and
    [assistant_widget.py], with the properties of the live table binding
    proved over it.

    Python objects that are shared between the table and the monitor's
    registry (the cells) live in an explicit store and are referred to by
    their index; exceptions are outcomes of the monadic operations, and the
    state reached when an exception is raised is kept, as in Python. *)

From Stdlib Require Import ZArith String Ascii DecimalString List Permutation Lia.
From stdpp Require Import base option list strings gmap fin_maps.

Declare Scope monitor_scope.
Local Open Scope Z_scope.
Local Open Scope string_scope.

(** ** What the module takes from outside

    Floating point numbers, the parsers [float()] and [int()], the local
    time zone, the rendering of dates and the enums of [..constant] are not
    code of this module.  They are gathered in one interface; every theorem
    holds for every implementation of it. *)

Record datetime := mk_datetime {
  epoch : Z;          (* whole seconds since the epoch, UTC *)
  microsecond : Z;    (* 0 .. 999999 *)
  utcoffset : Z       (* offset of the attached zone, in seconds *)
}.

Class Runtime := {
  Float : Type;
  float_str : Float -> string;               (* str(x) *)
  float_bool : Float -> bool;                (* bool(x) *)
  float_gt0 : Float -> bool;                 (* x > 0 *)
  float_le0 : Float -> bool;                 (* x <= 0 *)
  float_of_text : string -> option Float;    (* float(s); None: ValueError *)
  int_of_text : string -> option Z;          (* int(s); None: ValueError *)
  str_strip : string -> string;              (* s.strip() *)
  local_tz : Z -> Z;                         (* utcoffset of ZoneInfo(get_localzone_name()) at an instant *)
  datetime_str : datetime -> string;         (* str(d) *)
  strftime_date : datetime -> string;        (* d.strftime("%Y-%m-%d") *)
  enum_value : string -> string -> string;   (* the .value of member [name] of enum [cls] of ..constant *)
  enum_by_value : string -> string -> option string
                                             (* cls(text): the member with that value; None: ValueError *)
}.

(** Exceptions, and the outcome of a call that may raise one. *)
Inductive Exn := AttributeError | KeyError | ValueError | TypeError.

Inductive Outcome (A : Type) :=
| Return (a : A)
| Raise (e : Exn).
Arguments Return {A} a.
Arguments Raise {A} e.

Section Cells.
Context `{RT : Runtime}.

(** ** Python values carried by the records *)

Inductive Value :=
| VNone
| VBool (b : bool)
| VInt (z : Z)
| VFloat (x : Float)
| VStr (s : string)
| VEnum (cls name value : string)   (* member [cls.name] of an Enum, with its [.value] *)
| VDatetime (d : datetime).

(** A record (TickData, OrderData, LogData, ...) is its attributes. *)
Definition Data := gmap string Value.

Definition dec_str (z : Z) : string := NilZero.string_of_int (Z.to_int z).

(** [str(content)] *)
Definition py_str (v : Value) : string :=
  match v with
  | VNone => "None"
  | VBool true => "True"
  | VBool false => "False"
  | VInt z => dec_str z
  | VFloat x => float_str x
  | VStr s => s
  | VEnum cls name _ => cls +:+ "." +:+ name
  | VDatetime d => datetime_str d
  end.

(** [bool(content)], as in [if content:] *)
Definition truthy (v : Value) : bool :=
  match v with
  | VNone => false
  | VBool b => b
  | VInt z => negb (z =? 0)%Z
  | VFloat x => float_bool x
  | VStr s => negb (String.eqb s "")
  | VEnum _ _ _ => true
  | VDatetime _ => true
  end.

(** [content.value] *)
Definition get_value (v : Value) : Outcome Value :=
  match v with
  | VEnum _ _ value => Return (VStr value)
  | _ => Raise AttributeError
  end.

(** [content is Direction.SHORT]: enum members are singletons. *)
Definition is_Direction (name : string) (v : Value) : bool :=
  match v with
  | VEnum cls n _ => String.eqb cls "Direction" && String.eqb n name
  | _ => false
  end.

(** [data.__getattribute__(name)] *)
Definition getattr (data : Data) (name : string) : Outcome Value :=
  match data !! name with
  | Some v => Return v
  | None => Raise AttributeError
  end.

(** ** Cells *)

Inductive Color := COLOR_LONG | COLOR_SHORT | COLOR_BID | COLOR_ASK | COLOR_BLACK.

Inductive Alignment := AlignCenter | AlignLeftVCenter.

Inductive CellClass :=
| BaseCell | EnumCell | DirectionCell | BidCell | AskCell
| PnlCell | TimeCell | DateCell | MsgCell.

(** [_text] and [_data] are the Python attributes; [text], [foreground] and
    [textAlignment] are the state of the underlying QTableWidgetItem. *)
Record Cell := mk_Cell {
  cell_class : CellClass;
  _text : string;
  _data : option Data;
  text : string;
  foreground : option Color;
  textAlignment : Alignment
}.

Definition setText (s : string) (c : Cell) : Cell :=
  mk_Cell (cell_class c) (_text c) (_data c) s (foreground c) (textAlignment c).

Definition setForeground (col : Color) (c : Cell) : Cell :=
  mk_Cell (cell_class c) (_text c) (_data c) (text c) (Some col) (textAlignment c).

Definition setTextAlignment (a : Alignment) (c : Cell) : Cell :=
  mk_Cell (cell_class c) (_text c) (_data c) (text c) (foreground c) a.

Definition set__data (d : Data) (c : Cell) : Cell :=
  mk_Cell (cell_class c) (_text c) (Some d) (text c) (foreground c) (textAlignment c).

Definition set__text (s : string) (c : Cell) : Cell :=
  mk_Cell (cell_class c) s (_data c) (text c) (foreground c) (textAlignment c).

(** BaseCell.set_content *)
Definition BaseCell_set_content (content : Value) (data : Data) (c : Cell) : Cell :=
  let c := set__text (py_str content) c in
  let c := set__data data c in
  setText (_text c) c.

(** BaseCell.__lt__ *)
Definition BaseCell_lt (self other : Cell) : bool :=
  String.ltb (_text self) (_text other).

(** EnumCell.set_content *)
Definition EnumCell_set_content (content : Value) (data : Data) (c : Cell) : Outcome Cell :=
  if truthy content then
    match get_value content with
    | Return v => Return (BaseCell_set_content v data c)
    | Raise e => Raise e
    end
  else Return c.

(** DirectionCell.set_content *)
Definition DirectionCell_set_content (content : Value) (data : Data) (c : Cell) : Outcome Cell :=
  match EnumCell_set_content content data c with
  | Return c =>
      if is_Direction "SHORT" content
      then Return (setForeground COLOR_SHORT c)
      else Return (setForeground COLOR_LONG c)
  | Raise e => Raise e
  end.

(** PnlCell.set_content *)
Definition PnlCell_set_content (content : Value) (data : Data) (c : Cell) : Cell :=
  let c := BaseCell_set_content content data c in
  if String.prefix "-" (py_str content)
  then setForeground COLOR_SHORT c
  else setForeground COLOR_LONG c.

(** [content.astimezone(tz)] *)
Definition astimezone (tz : Z -> Z) (d : datetime) : datetime :=
  mk_datetime (epoch d) (microsecond d) (tz (epoch d)).

Definition wall_seconds (d : datetime) : Z := (epoch d + utcoffset d) mod 86400.

(** A [%H], [%M] or [%S] field: two digits, zero-padded. *)
Definition pad2 (z : Z) : string :=
  if (z <? 10)%Z then "0" +:+ dec_str z else dec_str z.

(** [content.strftime("%H:%M:%S")] *)
Definition strftime_HMS (d : datetime) : string :=
  let s := wall_seconds d in
  pad2 (s / 3600) +:+ ":" +:+ pad2 (s mod 3600 / 60) +:+ ":" +:+ pad2 (s mod 60).

(** TimeCell.set_content.  [int(content.microsecond / 1000)] truncates a
    quotient that is at least a thousandth away from the next integer, so
    it is the integer quotient. *)
Definition TimeCell_set_content (content : Value) (data : Data) (c : Cell) : Outcome Cell :=
  match content with
  | VNone => Return c
  | VDatetime d =>
      let content := astimezone local_tz d in
      let timestamp := strftime_HMS content in
      let millisecond := Z.quot (microsecond content) 1000 in
      let timestamp :=
        if negb (millisecond =? 0)%Z
        then timestamp +:+ "." +:+ dec_str millisecond
        else timestamp +:+ ".000" in
      Return (set__data data (setText timestamp c))
  | _ => Raise AttributeError
  end.

(** DateCell.set_content *)
Definition DateCell_set_content (content : Value) (data : Data) (c : Cell) : Outcome Cell :=
  match content with
  | VNone => Return c
  | VDatetime d => Return (set__data data (setText (strftime_date d) c))
  | _ => Raise AttributeError
  end.

(** [cell.set_content(content, data)], dispatched on the cell's class. *)
Definition set_content (content : Value) (data : Data) (c : Cell) : Outcome Cell :=
  match cell_class c with
  | BaseCell | BidCell | AskCell | MsgCell => Return (BaseCell_set_content content data c)
  | EnumCell => EnumCell_set_content content data c
  | DirectionCell => DirectionCell_set_content content data c
  | PnlCell => Return (PnlCell_set_content content data c)
  | TimeCell => TimeCell_set_content content data c
  | DateCell => DateCell_set_content content data c
  end.

(** [cls(content, data)]: BaseCell.__init__ runs first (empty text, no data,
    centred, then the class's own set_content); BidCell, AskCell and MsgCell
    then set their colour or alignment. *)
Definition new_cell (cls : CellClass) (content : Value) (data : Data) : Outcome Cell :=
  let c := mk_Cell cls "" None "" None AlignCenter in
  match set_content content data c with
  | Return c =>
      match cls with
      | BidCell => Return (setForeground COLOR_BID c)
      | AskCell => Return (setForeground COLOR_ASK c)
      | MsgCell => Return (setTextAlignment AlignLeftVCenter c)
      | _ => Return c
      end
  | Raise e => Raise e
  end.

(** The values a cell class renders without raising. *)
Definition accepts (cls : CellClass) (v : Value) : bool :=
  match cls with
  | BaseCell | BidCell | AskCell | MsgCell | PnlCell => true
  | EnumCell | DirectionCell =>
      negb (truthy v) || match v with VEnum _ _ _ => true | _ => false end
  | TimeCell | DateCell =>
      match v with VNone | VDatetime _ => true | _ => false end
  end.

End Cells.

(** ** The table, the registry and the monitor's operations *)

Section Monitors.
Context `{RT : Runtime}.

(** One entry of a monitor class's [headers] dict. *)
Record Setting := mk_Setting {
  display : string;
  cell : CellClass;
  update : bool
}.

(** The class attributes of a BaseMonitor subclass.  [headers] is a dict:
    the list is in insertion order and a well-formed class has no header
    twice. *)
Record MonitorClass := mk_MonitorClass {
  data_key : string;
  sorting : bool;
  headers : list (string * Setting)
}.

(** A table row: per column the item put there (a reference into the
    store) or nothing, and the row's hidden flag. *)
Record Row := mk_Row {
  items : list (option nat);
  hidden : bool
}.

(** The monitor object: the cell objects it has created, the rows of the
    QTableWidget in display order, the registry [self.cells] (key to
    [row_cells], itself a dict from header to cell, in insertion order) and
    whether the table currently sorts. *)
Record Monitor := mk_Monitor {
  store : list Cell;
  rows : list Row;
  cells : gmap string (list (string * nat));
  sortingEnabled : bool
}.

(** The toolkit's re-sort of the rows by the header's current sort
    indicator, and [OrderData.is_active] of the engine's objects.  Of the
    sort only this is used: it rearranges the rows. *)
Class Host := {
  sort_rows : list Cell -> list Row -> list Row;
  sort_rows_perm : forall st rs, Permutation (sort_rows st rs) rs;
  is_active : Data -> bool
}.

Context `{HT : Host}.

Record Event := mk_Event {
  ev_type : string;
  ev_data : Data
}.

(** A computation on the monitor that returns or raises; the state is kept
    in both cases. *)
Definition M (A : Type) : Type := Monitor -> Monitor * Outcome A.

Definition ret {A} (a : A) : M A := fun m => (m, Return a).

Definition raise {A} (e : Exn) : M A := fun m => (m, Raise e).

Definition bind {A B} (c : M A) (k : A -> M B) : M B :=
  fun m =>
    match c m with
    | (m', Return a) => k a m'
    | (m', Raise e) => (m', Raise e)
    end.

Definition lift {A} (o : Outcome A) : M A := fun m => (m, o).

Definition gets {A} (f : Monitor -> A) : M A := fun m => (m, Return (f m)).

Definition modify (f : Monitor -> Monitor) : M unit := fun m => (f m, Return tt).

Notation "x <- c1 ;; c2" := (bind c1 (fun x => c2))
  (at level 100, c1 at next level, c2 at level 200, right associativity) : monitor_scope.
Notation "c1 ;; c2" := (bind c1 (fun _ => c2))
  (at level 100, c2 at level 200, right associativity) : monitor_scope.
Local Open Scope monitor_scope.

Definition fresh_monitor (cls : MonitorClass) : Monitor :=
  mk_Monitor [] [] ∅ (sorting cls).

Definition set_rows (rs : list Row) (m : Monitor) : Monitor :=
  mk_Monitor (store m) rs (cells m) (sortingEnabled m).

Definition set_store (st : list Cell) (m : Monitor) : Monitor :=
  mk_Monitor st (rows m) (cells m) (sortingEnabled m).

Definition set_cells (cs : gmap string (list (string * nat))) (m : Monitor) : Monitor :=
  mk_Monitor (store m) (rows m) cs (sortingEnabled m).

(** [row_cells[header] = cell] on a dict kept in insertion order *)
Fixpoint dict_set (k : string) (v : nat) (d : list (string * nat)) : list (string * nat) :=
  match d with
  | [] => [(k, v)]
  | (k', v') :: d => if String.eqb k' k then (k', v) :: d else (k', v') :: dict_set k v d
  end.

(** [row_cells[header]] *)
Fixpoint dict_get (k : string) (d : list (string * nat)) : Outcome nat :=
  match d with
  | [] => Raise KeyError
  | (k', v) :: d => if String.eqb k' k then Return v else dict_get k d
  end.

(** [key: str = data.__getattribute__(self.data_key)]: the key field is a
    string, as annotated. *)
Definition get_key (data : Data) (name : string) : Outcome string :=
  match getattr data name with
  | Return (VStr k) => Return k
  | Return _ => Raise TypeError
  | Raise e => Raise e
  end.

(** [self.setSortingEnabled(b)]: switching sorting on sorts the table. *)
Definition setSortingEnabled (b : bool) : M unit :=
  modify (fun m =>
    if b then mk_Monitor (store m) (sort_rows (store m) (rows m)) (cells m) true
    else mk_Monitor (store m) (rows m) (cells m) false).

(** [self.insertRow(0)] on a table of [ncols] columns *)
Definition insertRow0 (ncols : nat) : M unit :=
  modify (fun m => set_rows (mk_Row (replicate ncols None) false :: rows m) m).

(** The creation of a cell object. *)
Definition alloc (c : Cell) : M nat :=
  fun m => (set_store (store m ++ [c]) m, Return (length (store m))).

(** [self.setItem(row, column, cell)]; nothing happens out of range. *)
Definition setItem (row column id : nat) : M unit :=
  modify (fun m =>
    set_rows (alter (fun r => mk_Row (<[column := Some id]> (items r)) (hidden r)) row (rows m)) m).

(** The loop of insert_new_row over [enumerate(self.headers.keys())]. *)
Fixpoint insert_cells (data : Data) (hs : list (string * Setting)) (column : nat)
    (row_cells : list (string * nat)) : M (list (string * nat)) :=
  match hs with
  | [] => ret row_cells
  | (header, setting) :: hs =>
      content <- lift (getattr data header) ;;
      c <- lift (new_cell (cell setting) content data) ;;
      id <- alloc c ;;
      setItem 0 column id ;;
      insert_cells data hs (S column)
        (if update setting then dict_set header id row_cells else row_cells)
  end.

(** BaseMonitor.insert_new_row *)
Definition insert_new_row (cls : MonitorClass) (data : Data) : M unit :=
  insertRow0 (length (headers cls)) ;;
  row_cells <- insert_cells data (headers cls) 0 [] ;;
  if negb (String.eqb (data_key cls) "") then
    key <- lift (get_key data (data_key cls)) ;;
    modify (fun m => set_cells (<[key := row_cells]> (cells m)) m)
  else ret tt.

(** [cell.set_content(content, data)] on the cell object [id] *)
Definition cell_set_content (id : nat) (content : Value) (data : Data) : M unit :=
  fun m =>
    match store m !! id with
    | Some c =>
        match set_content content data c with
        | Return c' => (set_store (<[id := c']> (store m)) m, Return tt)
        | Raise e => (m, Raise e)
        end
    | None => (m, Raise KeyError)   (* no such object: a reference never dangles *)
    end.

(** The loop of update_old_row over [row_cells.items()]. *)
Fixpoint update_cells (data : Data) (row_cells : list (string * nat)) : M unit :=
  match row_cells with
  | [] => ret tt
  | (header, id) :: row_cells =>
      content <- lift (getattr data header) ;;
      cell_set_content id content data ;;
      update_cells data row_cells
  end.

(** [self.cells[key]] *)
Definition cells_get (key : string) : M (list (string * nat)) :=
  fun m =>
    match cells m !! key with
    | Some row_cells => (m, Return row_cells)
    | None => (m, Raise KeyError)
    end.

(** BaseMonitor.update_old_row *)
Definition update_old_row (cls : MonitorClass) (data : Data) : M unit :=
  key <- lift (get_key data (data_key cls)) ;;
  row_cells <- cells_get key ;;
  update_cells data row_cells.

(** BaseMonitor.process_event *)
Definition process_event (cls : MonitorClass) (event : Event) : M unit :=
  (if sorting cls then setSortingEnabled false else ret tt) ;;
  let data := ev_data event in
  (if String.eqb (data_key cls) "" then insert_new_row cls data
   else
     key <- lift (get_key data (data_key cls)) ;;
     cs <- gets cells ;;
     if bool_decide (is_Some (cs !! key)) then update_old_row cls data
     else insert_new_row cls data) ;;
  (if sorting cls then setSortingEnabled true else ret tt).

(** The events delivered one after the other to the slot.  An exception
    ends the slot's call, not the application: the next event finds the
    monitor as the failed call left it.  The exceptions are collected. *)
Fixpoint process_events (cls : MonitorClass) (events : list Event) (m : Monitor)
    : Monitor * list Exn :=
  match events with
  | [] => (m, [])
  | event :: events =>
      match process_event cls event m with
      | (m', Return _) => process_events cls events m'
      | (m', Raise e) =>
          let (m'', es) := process_events cls events m' in (m'', e :: es)
      end
  end.

(** [self.row(item)]: the row the item is in, if any. *)
Fixpoint row_of (id : nat) (rs : list Row) : option nat :=
  match rs with
  | [] => None
  | r :: rs =>
      if bool_decide (Some id ∈ items r) then Some 0%nat
      else S <$> row_of id rs
  end.

(** [self.showRow(row)] and [self.hideRow(row)]; a row the table does not
    have is ignored. *)
Definition setRowHidden (row : option nat) (hide : bool) : M unit :=
  modify (fun m =>
    match row with
    | Some i => set_rows (alter (fun r => mk_Row (items r) hide) i (rows m)) m
    | None => m
    end).

(** [self.rowCount()], [self.isRowHidden(row)] and [self.item(row, column)];
    [self.columnCount()] is the number of headers, set by init_table. *)
Definition rowCount (m : Monitor) : nat := length (rows m).

Definition isRowHidden (m : Monitor) (row : nat) : bool :=
  match rows m !! row with
  | Some r => hidden r
  | None => false
  end.

Definition item (m : Monitor) (row column : nat) : option Cell :=
  match rows m !! row with
  | Some r =>
      match items r !! column with
      | Some (Some id) => store m !! id
      | _ => None
      end
  | None => None
  end.

(** The inner loop of save_csv over the columns of one row. *)
Definition csv_row_data (m : Monitor) (ncols row : nat) : list string :=
  fold_left
    (fun (row_data : list string) column =>
       match item m row column with
       | Some c => (row_data ++ [text c])%list
       | None => (row_data ++ [""])%list
       end)
    (seq 0 ncols) [].

(** BaseMonitor.save_csv, as the rows handed to [writer.writerow], in
    order; [None] when the file dialog gave no path and nothing is
    written. *)
Definition save_csv (cls : MonitorClass) (path : string) (m : Monitor)
    : option (list (list string)) :=
  if String.eqb path "" then None
  else
    let labels := (fun d => display (snd d)) <$> headers cls in
    Some (fold_left
            (fun (written : list (list string)) row =>
               if isRowHidden m row then written
               else (written ++ [csv_row_data m (length (headers cls)) row])%list)
            (seq 0 (rowCount m)) [labels]).

(** The export in the words of its description: the labels, then for each
    row that is not hidden, in display order, the text of each of its
    columns. *)
Definition rendered_texts (m : Monitor) (ncols : nat) (r : Row) : list string :=
  (fun column =>
     match items r !! column with
     | Some (Some id) => match store m !! id with Some c => text c | None => "" end
     | _ => ""
     end) <$> seq 0 ncols.

Definition visible_rows (m : Monitor) : list Row :=
  filter (fun r => hidden r = false) (rows m).

Definition csv_of_visible_rows (cls : MonitorClass) (m : Monitor) : list (list string) :=
  ((fun d => display (snd d)) <$> headers cls) ::
  (rendered_texts m (length (headers cls)) <$> visible_rows m).

(** The accumulated [row_cells] of insert_new_row, as a function of the
    headers and of the first of the consecutive cells created. *)
Fixpoint register_live (hs : list (string * Setting)) (first : nat)
    (row_cells : list (string * nat)) : list (string * nat) :=
  match hs with
  | [] => row_cells
  | (header, setting) :: hs =>
      register_live hs (S first)
        (if update setting then dict_set header first row_cells else row_cells)
  end.

(** The live-updated headers, each with the cell of its column. *)
Fixpoint live_entries (hs : list (string * Setting)) (first : nat) : list (string * nat) :=
  match hs with
  | [] => []
  | (header, setting) :: hs =>
      ((if update setting then [(header, first)] else []) ++ live_entries hs (S first))%list
  end.

(** A record the monitor class can show: every header is an attribute whose
    value the header's cell class renders, and the key field, when the class
    has one, is a string. *)
Definition renders (data : Data) (h : string * Setting) : bool :=
  match data !! fst h with
  | Some v => accepts (cell (snd h)) v
  | None => false
  end.

Definition has_key (cls : MonitorClass) (data : Data) : bool :=
  String.eqb (data_key cls) "" ||
  match data !! data_key cls with
  | Some (VStr _) => true
  | _ => false
  end.

Definition well_typed (cls : MonitorClass) (event : Event) : bool :=
  forallb (renders (ev_data event)) (headers cls) && has_key cls (ev_data event).

(** The headers of a class are the keys of a dict. *)
Definition well_formed (cls : MonitorClass) : bool :=
  bool_decide (NoDup (fst <$> headers cls)).

(** The items of the row created by the [i]-th insertion: its cells are
    consecutive in the store. *)
Definition block (n i : nat) : list (option nat) := Some <$> seq (i * n) n.

End Monitors.

Notation "x <- c1 ;; c2" := (bind c1 (fun x => c2))
  (at level 100, c1 at next level, c2 at level 200, right associativity) : monitor_scope.
Notation "c1 ;; c2" := (bind c1 (fun _ => c2))
  (at level 100, c2 at level 200, right associativity) : monitor_scope.

(** ** The monitor classes of widget.py *)

Section MonitorClasses.
Context `{RT : Runtime} {HT : Host}.
Local Open Scope monitor_scope.

Definition TickMonitor : MonitorClass :=
  mk_MonitorClass "vt_symbol" true
    [ ("symbol", mk_Setting "代码" BaseCell false);
      ("exchange", mk_Setting "交易所" EnumCell false);
      ("name", mk_Setting "名称" BaseCell true);
      ("last_price", mk_Setting "最新价" BaseCell true);
      ("volume", mk_Setting "成交量" BaseCell true);
      ("open_price", mk_Setting "开盘价" BaseCell true);
      ("high_price", mk_Setting "最高价" BaseCell true);
      ("low_price", mk_Setting "最低价" BaseCell true);
      ("bid_price_1", mk_Setting "买1价" BidCell true);
      ("bid_volume_1", mk_Setting "买1量" BidCell true);
      ("ask_price_1", mk_Setting "卖1价" AskCell true);
      ("ask_volume_1", mk_Setting "卖1量" AskCell true);
      ("datetime", mk_Setting "时间" TimeCell true);
      ("gateway_name", mk_Setting "接口" BaseCell false) ].

Definition LogMonitor : MonitorClass :=
  mk_MonitorClass "" false
    [ ("time", mk_Setting "时间" TimeCell false);
      ("msg", mk_Setting "信息" MsgCell false);
      ("gateway_name", mk_Setting "接口" BaseCell false) ].

Definition TradeMonitor : MonitorClass :=
  mk_MonitorClass "" true
    [ ("tradeid", mk_Setting "成交号" BaseCell false);
      ("orderid", mk_Setting "委托号" BaseCell false);
      ("symbol", mk_Setting "代码" BaseCell false);
      ("exchange", mk_Setting "交易所" EnumCell false);
      ("direction", mk_Setting "方向" DirectionCell false);
      ("offset", mk_Setting "开平" EnumCell false);
      ("price", mk_Setting "价格" BaseCell false);
      ("volume", mk_Setting "数量" BaseCell false);
      ("datetime", mk_Setting "时间" TimeCell false);
      ("gateway_name", mk_Setting "接口" BaseCell false) ].

Definition OrderMonitor : MonitorClass :=
  mk_MonitorClass "vt_orderid" true
    [ ("orderid", mk_Setting "委托号" BaseCell false);
      ("reference", mk_Setting "来源" BaseCell false);
      ("symbol", mk_Setting "代码" BaseCell false);
      ("exchange", mk_Setting "交易所" EnumCell false);
      ("type", mk_Setting "类型" EnumCell false);
      ("direction", mk_Setting "方向" DirectionCell false);
      ("offset", mk_Setting "开平" EnumCell false);
      ("price", mk_Setting "价格" BaseCell false);
      ("volume", mk_Setting "总数量" BaseCell true);
      ("traded", mk_Setting "已成交" BaseCell true);
      ("status", mk_Setting "状态" EnumCell true);
      ("datetime", mk_Setting "时间" TimeCell true);
      ("gateway_name", mk_Setting "接口" BaseCell false) ].

Definition PositionMonitor : MonitorClass :=
  mk_MonitorClass "vt_positionid" true
    [ ("symbol", mk_Setting "代码" BaseCell false);
      ("exchange", mk_Setting "交易所" EnumCell false);
      ("direction", mk_Setting "方向" DirectionCell false);
      ("volume", mk_Setting "数量" BaseCell true);
      ("yd_volume", mk_Setting "昨仓" BaseCell true);
      ("frozen", mk_Setting "冻结" BaseCell true);
      ("price", mk_Setting "均价" BaseCell true);
      ("pnl", mk_Setting "盈亏" PnlCell true);
      ("gateway_name", mk_Setting "接口" BaseCell false) ].

Definition AccountMonitor : MonitorClass :=
  mk_MonitorClass "vt_accountid" true
    [ ("accountid", mk_Setting "账号" BaseCell false);
      ("balance", mk_Setting "余额" BaseCell true);
      ("frozen", mk_Setting "冻结" BaseCell true);
      ("available", mk_Setting "可用" BaseCell true);
      ("gateway_name", mk_Setting "接口" BaseCell false) ].

(** ActiveOrderMonitor.process_event; the class inherits OrderMonitor's
    attributes. *)
Definition ActiveOrderMonitor_process_event (event : Event) : M unit :=
  process_event OrderMonitor event ;;
  let order := ev_data event in
  key <- lift (get_key order "vt_orderid") ;;
  row_cells <- cells_get key ;;
  c <- lift (dict_get "volume" row_cells) ;;
  row <- gets (fun m => row_of c (rows m)) ;;
  if is_active order then setRowHidden row false else setRowHidden row true.

(** The order events delivered one after the other to the active-order
    monitor's slot, with the exceptions collected. *)
Fixpoint ActiveOrderMonitor_process_events (events : list Event) (m : Monitor)
    : Monitor * list Exn :=
  match events with
  | [] => (m, [])
  | event :: events =>
      match ActiveOrderMonitor_process_event event m with
      | (m', Return _) => ActiveOrderMonitor_process_events events m'
      | (m', Raise e) =>
          let (m'', es) := ActiveOrderMonitor_process_events events m' in (m'', e :: es)
      end
  end.

End MonitorClasses.

(** ** Order entry: TradingWidget.send_order and the assistant's handlers *)

Section OrderEntry.
Context `{RT : Runtime}.

Record OrderRequest := mk_OrderRequest {
  req_symbol : string;
  req_exchange : Value;
  req_direction : Value;
  req_type : Value;
  req_volume : Value;
  req_price : Value;
  req_offset : Value;
  req_reference : string
}.

Inductive BoxKind := critical | warning | information.

(** What a handler does to the outside, in order: the modal message boxes
    it opens and the orders it hands to [main_engine.send_order]. *)
Inductive Effect :=
| MessageBox (kind : BoxKind) (title body : string)
| SendOrder (req : OrderRequest) (gateway_name : string).

(** The engine, as the handlers see it. *)
Record MainEngine := mk_MainEngine {
  get_all_gateway_names : list string;
  send_order_result : OrderRequest -> string -> string   (* the vt_orderid returned *)
}.

(** A member of an enum of ..constant, and [cls(text)]. *)
Definition enum_member (cls name : string) : Value :=
  VEnum cls name (enum_value cls name).

Definition enum_of (cls text : string) : Outcome Value :=
  match enum_by_value cls text with
  | Some name => Return (enum_member cls name)
  | None => Raise ValueError
  end.

(** [float(text)] *)
Definition py_float (s : string) : Outcome Float :=
  match float_of_text s with
  | Some x => Return x
  | None => Raise ValueError
  end.

(** [int(text)] *)
Definition py_int (s : string) : Outcome Z :=
  match int_of_text s with
  | Some z => Return z
  | None => Raise ValueError
  end.

(** The line edits and combo boxes TradingWidget.send_order reads. *)
Record TradingWidget := mk_TradingWidget {
  symbol_line : string;
  volume_line : string;
  price_line : string;
  exchange_combo : string;
  direction_combo : string;
  order_type_combo : string;
  offset_combo : string;
  gateway_combo : string
}.

(** TradingWidget.send_order: the effects up to the return or the
    exception, and the outcome. *)
Definition TradingWidget_send_order (w : TradingWidget) : list Effect * Outcome unit :=
  let symbol := symbol_line w in
  if String.eqb symbol "" then
    ([MessageBox critical "委托失败" "请输入合约代码"], Return tt)
  else
  let volume_text := volume_line w in
  if String.eqb volume_text "" then
    ([MessageBox critical "委托失败" "请输入委托数量"], Return tt)
  else
  match py_float volume_text with
  | Raise e => ([], Raise e)
  | Return volume =>
  let price_text := price_line w in
  match (if String.eqb price_text "" then Return (VInt 0)
         else match py_float price_text with
              | Return x => Return (VFloat x)
              | Raise e => Raise e
              end) with
  | Raise e => ([], Raise e)
  | Return price =>
  match enum_of "Exchange" (exchange_combo w) with
  | Raise e => ([], Raise e)
  | Return exchange =>
  match enum_of "Direction" (direction_combo w) with
  | Raise e => ([], Raise e)
  | Return direction =>
  match enum_of "OrderType" (order_type_combo w) with
  | Raise e => ([], Raise e)
  | Return type =>
  match enum_of "Offset" (offset_combo w) with
  | Raise e => ([], Raise e)
  | Return offset =>
      let req := mk_OrderRequest symbol exchange direction type
                   (VFloat volume) price offset "ManualTrading" in
      ([SendOrder req (gateway_combo w)], Return tt)
  end end end end end end.

Definition nl : string := String (ascii_of_nat 10) EmptyString.

(** TradingAssistantWidget.send_order *)
Definition Assistant_send_order (engine : MainEngine)
    (symbol : string) (price : Float) (quantity : Z) (direction : Value) : list Effect :=
  if String.eqb symbol "" || float_le0 price || (quantity <=? 0)%Z then
    [MessageBox warning "错误" "请输入有效的交易参数"]
  else
    let req := mk_OrderRequest symbol (enum_member "Exchange" "SSE") direction
                 (enum_member "OrderType" "LIMIT") (VInt quantity) (VFloat price)
                 (enum_member "Offset" "NONE") "TradingAssistant" in
    match get_all_gateway_names engine with
    | gateway :: _ =>
        let vt_orderid := send_order_result engine req gateway in
        SendOrder req gateway ::
        (if negb (String.eqb vt_orderid "") then
           let direction_text :=
             if is_Direction "LONG" direction then "买入" else "卖出" in
           [MessageBox information "委托成功"
              (direction_text +:+ "订单已提交" +:+ nl +:+
               "股票: " +:+ symbol +:+ nl +:+
               "价格: " +:+ float_str price +:+ nl +:+
               "数量: " +:+ dec_str quantity +:+ nl +:+
               "订单号: " +:+ vt_orderid)]
         else [])
    | [] => [MessageBox warning "错误" "没有可用的交易接口"]
    end.

(** One row of the assistant's order form. *)
Record FormRow := mk_FormRow {
  symbol_edit : string;
  price_edit : string;
  qty_edit : string
}.

(** [text or "0"] *)
Definition or_0 (s : string) : string := if String.eqb s "" then "0" else s.

(** One [try: ... except ValueError: ...] block of the handlers. *)
Definition submit_row (engine : MainEngine) (r : FormRow) (direction : Value)
    (error_text : string) : list Effect :=
  let symbol := str_strip (symbol_edit r) in
  match py_float (or_0 (price_edit r)) with
  | Raise _ => [MessageBox warning "错误" error_text]
  | Return price =>
  match py_int (or_0 (qty_edit r)) with
  | Raise _ => [MessageBox warning "错误" error_text]
  | Return quantity =>
      if negb (String.eqb symbol "") && float_gt0 price && (0 <? quantity)%Z
      then Assistant_send_order engine symbol price quantity direction
      else []
  end end.

(** The part of the assistant's form a handler reads: the spin box and the
    two rows of its side. *)
Record OrderForm := mk_OrderForm {
  spinBox : Z;
  row_1 : FormRow;
  row_2 : FormRow
}.

(** TradingAssistantWidget.on_buy_order_clicked *)
Definition on_buy_order_clicked (engine : MainEngine) (f : OrderForm) : list Effect :=
  (if (1 <=? spinBox f)%Z
   then submit_row engine (row_1 f) (enum_member "Direction" "LONG") "第一行买入参数格式错误"
   else []) ++
  (if (2 <=? spinBox f)%Z
   then submit_row engine (row_2 f) (enum_member "Direction" "LONG") "第二行买入参数格式错误"
   else []).

(** TradingAssistantWidget.on_sell_order_clicked *)
Definition on_sell_order_clicked (engine : MainEngine) (f : OrderForm) : list Effect :=
  (if (1 <=? spinBox f)%Z
   then submit_row engine (row_1 f) (enum_member "Direction" "SHORT") "第一行卖出参数格式错误"
   else []) ++
  (if (2 <=? spinBox f)%Z
   then submit_row engine (row_2 f) (enum_member "Direction" "SHORT") "第二行卖出参数格式错误"
   else []).

Definition is_SendOrder (e : Effect) : bool :=
  match e with SendOrder _ _ => true | MessageBox _ _ _ => false end.

Definition is_MessageBox (e : Effect) : bool :=
  match e with MessageBox _ _ _ => true | SendOrder _ _ => false end.

End OrderEntry.

(** ** Vocabulary of the properties *)

Section Vocabulary.
Context `{RT : Runtime} {HT : Host}.
Local Open Scope monitor_scope.
Local Open Scope nat_scope.
Local Open Scope list_scope.

(** Python's [<] on strings is the lexicographic order; [String.ltb]
    decides it. *)
Inductive lex_lt : string -> string -> Prop :=
| lex_lt_nil a s : lex_lt EmptyString (String a s)
| lex_lt_head a b s t : (N_of_ascii a < N_of_ascii b)%N -> lex_lt (String a s) (String b t)
| lex_lt_tail a s t : lex_lt s t -> lex_lt (String a s) (String a t).

(** The text a time cell shows for a datetime. *)
Definition time_text (d : datetime) : string :=
  let content := astimezone local_tz d in
  strftime_HMS content +:+ "." +:+
  (if (Z.quot (microsecond d) 1000 =? 0)%Z then "000"
   else dec_str (Z.quot (microsecond d) 1000)).



(** The registry key a record has for a class, if the class has a key
    field. *)
Definition key_of (cls : MonitorClass) (data : Data) : option string :=
  if String.eqb (data_key cls) "" then None
  else match data !! data_key cls with
       | Some (VStr k) => Some k
       | _ => None
       end.


(** What one pass of the insertion loop creates for a header. *)
Definition created (data : Data) (h : string * Setting) (c : Cell) : Prop :=
  cell_class c = cell (snd h) /\
  exists v, data !! fst h = Some v /\ new_cell (cell (snd h)) v data = Return c.

(** The classes of the cells of a store. *)
Definition classes (st : list Cell) : list CellClass := cell_class <$> st.

(** An entry of [row_cells] that update_old_row can render from a record. *)
Definition updatable (data : Data) (st : list Cell) (e : string * nat) : Prop :=
  exists v c, data !! fst e = Some v /\ st !! snd e = Some c /\
              accepts (cell_class c) v = true.

(** The monitor after [setSortingEnabled(False)] and after
    [setSortingEnabled(True)], for a class that sorts. *)
Definition sorting_off (cls : MonitorClass) (m : Monitor) : Monitor :=
  if sorting cls then mk_Monitor (store m) (rows m) (cells m) false else m.

Definition sorting_on (cls : MonitorClass) (m : Monitor) : Monitor :=
  if sorting cls then mk_Monitor (store m) (sort_rows (store m) (rows m)) (cells m) true
  else m.

(** The body of process_event between the two sorting switches. *)
Definition dispatch (cls : MonitorClass) (data : Data) : M unit :=
  if String.eqb (data_key cls) "" then insert_new_row cls data
  else
    key <- lift (get_key data (data_key cls)) ;;
    cs <- gets cells ;;
    if bool_decide (is_Some (cs !! key)) then update_old_row cls data
    else insert_new_row cls data.

(** The invariant of a monitor fed with records of its class.
    Every insertion creates one cell per header, so the cells of the [i]-th
    row inserted are the [i]-th block of the store, and the cell of column
    [j] has the class of the [j]-th header.  The registry maps each key seen
    to the live cells of one such block. *)
Record Inv (cls : MonitorClass) (m : Monitor) : Prop := mk_Inv {
  inv_store : length (store m) = length (rows m) * length (headers cls);
  inv_class : forall id c, store m !! id = Some c ->
    exists h, headers cls !! (id mod length (headers cls)) = Some h /\
              cell_class c = cell (snd h);
  inv_rows : exists bs, Permutation bs (seq 0 (length (rows m))) /\
    items <$> rows m = block (length (headers cls)) <$> bs;
  inv_cells : forall k rc, cells m !! k = Some rc ->
    exists i, i < length (rows m) /\
              rc = register_live (headers cls) (i * length (headers cls)) [];
  inv_size : size (cells m) =
    if String.eqb (data_key cls) "" then 0 else length (rows m)
}.

End Vocabulary.

(** ** More of the monitors *)

Section MoreVocabulary.
Context `{RT : Runtime} {HT : Host}.
Local Open Scope monitor_scope.
Local Open Scope nat_scope.
Local Open Scope list_scope.

(** The keys of the records of a list of events. *)
Definition keys_of (cls : MonitorClass) (events : list Event) : gset string :=
  list_to_set (omap (fun e => key_of cls (ev_data e)) events).

(** BaseCell.get_data *)
Definition get_data (c : Cell) : option Data := _data c.

(** An entry of [row_cells] whose cell already shows the record. *)
Definition rendered (data : Data) (st : list Cell) (e : string * nat) : Prop :=
  exists v c, data !! fst e = Some v /\ st !! snd e = Some c /\
              set_content v data c = Return c.

(** Every row of the active-order table is hidden exactly when the order
    last shown in it, the record its volume cell carries, is not active. *)
Definition hidden_iff_inactive (m : Monitor) : Prop :=
  forall row i, row ∈ rows m -> items row = block 13 i ->
    exists c d, store m !! (i * 13 + 8) = Some c /\ get_data c = Some d /\
                hidden row = negb (is_active d).

(** The order a row of the order table shows in its volume column, and
    whether it is active. *)
Definition row_order (m : Monitor) (row : Row) : option Data :=
  match items row !! 8 with
  | Some (Some id) => match store m !! id with Some c => get_data c | None => None end
  | _ => None
  end.

Definition row_active (m : Monitor) (row : Row) : bool :=
  match row_order m row with
  | Some d => is_active d
  | None => false
  end.

(** A cell given one content after the other. *)
Fixpoint set_contents (updates : list (Value * Data)) (c : Cell) : Outcome Cell :=
  match updates with
  | [] => Return c
  | (content, data) :: updates =>
      match set_content content data c with
      | Return c' => set_contents updates c'
      | Raise e => Raise e
      end
  end.

End MoreVocabulary.

(** ** The connect dialog and the global settings dialog

    Settings are what a JSON file holds besides null: strings, integers,
    floats and booleans, and, in a gateway's default setting, lists of
    strings to choose from. *)

(** What else the dialogs and the stock widget take from outside. *)
Inductive Truncation :=
| Truncated (z : Z)        (* int(x) *)
| NotANumber                (* int(nan): ValueError *)
| Infinite.                 (* int(inf): OverflowError *)

Class Conversions `{RT : Runtime} := {
  float_zero : Float;                              (* float() *)
  int_of_float : Float -> Truncation;              (* int(x) *)
  int_times_float : Z -> Float -> option Float;    (* n * x; None: OverflowError *)
  first_word : string -> option string             (* s.split()[0]; None: IndexError *)
}.

Section Dialogs.
Context `{RT : Runtime} {CV : Conversions}.
Local Open Scope list_scope.

Inductive Scalar :=
| SStr (s : string)
| SInt (z : Z)
| SFloat (x : Float)
| SBool (b : bool).

Inductive ScalarType := TStr | TInt | TFloat | TBool.

(** [type(field_value)] *)
Definition type_of (v : Scalar) : ScalarType :=
  match v with
  | SStr _ => TStr
  | SInt _ => TInt
  | SFloat _ => TFloat
  | SBool _ => TBool
  end.

Definition to_value (v : Scalar) : Value :=
  match v with
  | SStr s => VStr s
  | SInt z => VInt z
  | SFloat x => VFloat x
  | SBool b => VBool b
  end.

(** [str(field_value)] *)
Definition scalar_str (v : Scalar) : string := py_str (to_value v).

(** [field_type(text)] *)
Definition convert (t : ScalarType) (text : string) : Outcome Scalar :=
  match t with
  | TStr => Return (SStr text)
  | TInt => match py_int text with Return z => Return (SInt z) | Raise e => Raise e end
  | TFloat => match py_float text with Return x => Return (SFloat x) | Raise e => Raise e end
  | TBool => Return (SBool (negb (String.eqb text "")))
  end.

(** [field_type()] *)
Definition default_of (t : ScalarType) : Scalar :=
  match t with
  | TStr => SStr ""
  | TInt => SInt 0
  | TFloat => SFloat float_zero
  | TBool => SBool false
  end.

(** A value of a gateway's default setting. *)
Inductive Default :=
| DScalar (v : Scalar)
| DList (choices : list string).

(** A widget of the form with the type kept beside it: a combo box, with
    its items and current index, for a list, a line edit with its text for
    anything else. *)
Inductive Field :=
| ComboField (items : list string) (current : option nat)
| LineField (text : string) (t : ScalarType).

(** [combo.findText(text)]: the first item equal to the text, or -1. *)
Fixpoint findText (text : string) (items : list string) : option nat :=
  match items with
  | [] => None
  | s :: items => if String.eqb s text then Some 0%nat else S <$> findText text items
  end.

(** [combo.currentText()] *)
Definition currentText (items : list string) (current : option nat) : string :=
  match current with
  | Some i => match items !! i with Some s => s | None => "" end
  | None => ""
  end.

(** A combo box after [addItems]: the first item, if any, is current. *)
Definition addItems (items : list string) : option nat :=
  match items with [] => None | _ :: _ => Some 0%nat end.

(** The loop of ConnectDialog.init_ui over the default setting, given the
    setting saved last time; the result is [self.widgets], in order. *)
Fixpoint ConnectDialog_init_ui (default_setting : list (string * Default))
    (loaded_setting : gmap string Scalar) : Outcome (list (string * Field)) :=
  match default_setting with
  | [] => Return []
  | (field_name, field_value) :: default_setting =>
      let widget :=
        match field_value with
        | DList choices =>
            match loaded_setting !! field_name with
            | Some (SStr saved_value) =>
                Return (ComboField choices (findText saved_value choices))
            | Some _ => Raise TypeError     (* findText takes a string *)
            | None => Return (ComboField choices (addItems choices))
            end
        | DScalar v =>
            match loaded_setting !! field_name with
            | Some saved_value => Return (LineField (scalar_str saved_value) (type_of v))
            | None => Return (LineField (scalar_str v) (type_of v))
            end
        end in
      match widget with
      | Return w =>
          match ConnectDialog_init_ui default_setting loaded_setting with
          | Return widgets => Return ((field_name, w) :: widgets)
          | Raise e => Raise e
          end
      | Raise e => Raise e
      end
  end.

(** The loop of ConnectDialog.connect_gateway: the setting it saves and
    connects with. *)
Definition field_value (w : Field) : Scalar :=
  match w with
  | ComboField items current => SStr (currentText items current)
  | LineField text t =>
      match convert t text with
      | Return v => v
      | Raise _ => default_of t     (* a ValueError, the only exception there is *)
      end
  end.

Definition connect_gateway (widgets : list (string * Field)) : list (string * Scalar) :=
  (fun w => (fst w, field_value (snd w))) <$> widgets.

(** GlobalDialog.init_ui: one line edit per setting. *)
Definition GlobalDialog_init_ui (settings : list (string * Scalar))
    : list (string * (string * ScalarType)) :=
  (fun s => (fst s, (scalar_str (snd s), type_of (snd s)))) <$> settings.

(** What GlobalDialog.update_setting does to the outside. *)
Inductive DialogEffect :=
| InformationBox (title body : string)
| SaveJson (settings : list (string * Scalar))
| Accept.

(** The loop of GlobalDialog.update_setting. *)
Fixpoint read_settings (widgets : list (string * (string * ScalarType)))
    : Outcome (list (string * Scalar)) :=
  match widgets with
  | [] => Return []
  | (field_name, (value_text, field_type)) :: widgets =>
      let value :=
        match field_type with
        | TBool => Return (SBool (String.eqb value_text "True"))
        | _ => convert field_type value_text
        end in
      match value with
      | Return v =>
          match read_settings widgets with
          | Return settings => Return ((field_name, v) :: settings)
          | Raise e => Raise e
          end
      | Raise e => Raise e
      end
  end.

(** GlobalDialog.update_setting *)
Definition update_setting (widgets : list (string * (string * ScalarType)))
    : list DialogEffect * Outcome unit :=
  match read_settings widgets with
  | Return settings =>
      ([InformationBox "注意" "全局配置的修改需要重启后才会生效！";
        SaveJson settings; Accept], Return tt)
  | Raise e => ([], Raise e)
  end.

(** What the connect dialog saves for a field when it is opened and
    confirmed without an edit, from the field's default and the value saved
    last time. *)
Definition reopened (d : Default) (saved : option Scalar) : Scalar :=
  match d with
  | DList choices =>
      match saved with
      | Some (SStr s) => SStr (if bool_decide (s ∈ choices) then s else "")
      | Some _ => SStr ""
      | None => SStr (match choices with s :: _ => s | [] => "" end)
      end
  | DScalar v =>
      let text := scalar_str (match saved with Some s => s | None => v end) in
      match type_of v with
      | TStr => SStr text
      | TBool => SBool (negb (String.eqb text ""))
      | t => match convert t text with Return x => x | Raise _ => default_of t end
      end
  end.

(** A number that reads back from its own text. *)
Definition reads_back (v : Scalar) : Prop :=
  match v with
  | SInt z => int_of_text (scalar_str v) = Some z
  | SFloat x => float_of_text (scalar_str v) = Some x
  | _ => True
  end.

(** A line edit whose text its type cannot read. *)
Definition unreadable (w : string * (string * ScalarType)) : Prop :=
  match snd (snd w) with
  | TInt => int_of_text (fst (snd w)) = None
  | TFloat => float_of_text (fst (snd w)) = None
  | _ => False
  end.

End Dialogs.

(** ** The contract table *)

Section Contracts.
Context `{RT : Runtime}.
Local Open Scope list_scope.

(** [flt in s] on strings *)
Fixpoint contains (flt s : string) : bool :=
  String.prefix flt s ||
  match s with
  | EmptyString => false
  | String _ s' => contains flt s'
  end.

(** [flt in contract.vt_symbol] *)
Definition flt_in (flt : string) (v : Value) : Outcome bool :=
  match v with
  | VStr s => Return (contains flt s)
  | _ => Raise TypeError
  end.

(** [[contract for contract in all_contracts if flt in contract.vt_symbol]] *)
Fixpoint select_contracts (flt : string) (all_contracts : list Data)
    : Outcome (list Data) :=
  match all_contracts with
  | [] => Return []
  | contract :: all_contracts =>
      match getattr contract "vt_symbol" with
      | Raise e => Raise e
      | Return vt_symbol =>
          match flt_in flt vt_symbol with
          | Raise e => Raise e
          | Return keep =>
              match select_contracts flt all_contracts with
              | Raise e => Raise e
              | Return contracts =>
                  Return (if keep then contract :: contracts else contracts)
              end
          end
      end
  end.

(** [value in {None, 0}]: None and whatever equals 0. *)
Definition blanked (value : Value) : bool :=
  match value with
  | VNone => true
  | VInt z => (z =? 0)%Z
  | VFloat x => negb (float_bool x)
  | VBool b => negb b
  | _ => false
  end.

(** The cell built for one attribute of a contract. *)
Definition contract_cell (value : Value) (contract : Data) : Outcome Cell :=
  let value := if blanked value then VStr "" else value in
  match value with
  | VEnum _ _ _ => new_cell EnumCell value contract
  | VDatetime _ => new_cell DateCell value contract
  | _ => new_cell BaseCell value contract
  end.

(** The inner loop of show_contracts: the cells of one row. *)
Fixpoint contract_row (names : list string) (contract : Data) : Outcome (list Cell) :=
  match names with
  | [] => Return []
  | name :: names =>
      match getattr contract name with
      | Raise e => Raise e
      | Return value =>
          match contract_cell value contract with
          | Raise e => Raise e
          | Return cell =>
              match contract_row names contract with
              | Raise e => Raise e
              | Return cells => Return (cell :: cells)
              end
          end
      end
  end.

(** The outer loop. *)
Fixpoint contract_rows (names : list string) (contracts : list Data)
    : Outcome (list (list Cell)) :=
  match contracts with
  | [] => Return []
  | contract :: contracts =>
      match contract_row names contract with
      | Raise e => Raise e
      | Return row =>
          match contract_rows names contracts with
          | Raise e => Raise e
          | Return table => Return (row :: table)
          end
      end
  end.

(** ContractManager.show_contracts, from the names of the headers, the text
    of the filter line and the engine's contracts: the items of the table
    once both loops have run (an exception leaves the table partly
    filled). *)
Definition show_contracts (names : list string) (flt : string)
    (all_contracts : list Data) : Outcome (list (list Cell)) :=
  match (if negb (String.eqb flt "") then select_contracts flt all_contracts
         else Return all_contracts) with
  | Raise e => Raise e
  | Return contracts => contract_rows names contracts
  end.

(** A contract whose vt_symbol is a string that holds the filter text. *)
Definition matches (flt : string) (contract : Data) : bool :=
  match contract !! "vt_symbol" with
  | Some (VStr s) => contains flt s
  | _ => false
  end.

(** A contract record: a string vt_symbol and every attribute the table
    shows. *)
Definition complete (names : list string) (contract : Data) : Prop :=
  (exists s, contract !! "vt_symbol" = Some (VStr s)) /\
  Forall (fun name => is_Some (contract !! name)) names.

End Contracts.

(** ** The level-2 window *)

Section Level2.
Context `{RT : Runtime}.
Local Open Scope list_scope.

Record SubscribeRequest := mk_SubscribeRequest {
  sub_symbol : string;
  sub_exchange : Value
}.

(** [s.split('.')]: the first piece and the others. *)
Fixpoint split_dot (s : string) : string * list string :=
  match s with
  | EmptyString => (EmptyString, [])
  | String a s' =>
      let '(piece, pieces) := split_dot s' in
      if Ascii.eqb a "." then (EmptyString, piece :: pieces)
      else (String a piece, pieces)
  end.

(** ['.' in s] *)
Fixpoint has_dot (s : string) : bool :=
  match s with
  | EmptyString => false
  | String a s' => Ascii.eqb a "." || has_dot s'
  end.

(** What set_symbol assigns. *)
Record Level2Widget := mk_Level2Widget {
  l2_vt_symbol : string;
  l2_symbol_name : string;
  l2_windowTitle : string
}.

(** Level2Widget.set_symbol: the widget after the call and the
    subscriptions handed to the engine; [None] stands for the IndexError of
    [vt_symbol.split('.')[1]]. *)
Definition set_symbol (gateway_names : list string) (vt_symbol symbol_name : string)
    : option (Level2Widget * list (SubscribeRequest * string)) :=
  let title :=
    if negb (String.eqb symbol_name "")
    then "Level-2 十档行情 - " +:+ symbol_name +:+ " - " +:+ vt_symbol
    else "Level-2 十档行情 - " +:+ vt_symbol in
  let w := mk_Level2Widget vt_symbol symbol_name title in
  let symbol := fst (split_dot vt_symbol) in
  match (if has_dot vt_symbol then snd (split_dot vt_symbol) !! 0%nat
         else Some "SSE") with
  | None => None
  | Some exchange_str =>
      let exchange :=
        match enum_of "Exchange" exchange_str with
        | Return exchange => exchange
        | Raise _ => enum_member "Exchange" "SSE"
        end in
      let req := mk_SubscribeRequest symbol exchange in
      match gateway_names with
      | gateway :: _ => Some (w, [(req, gateway)])
      | [] => Some (w, [])
      end
  end.

End Level2.

(** ** Ticks on the assistant's form *)

Section AssistantTicks.
Context `{RT : Runtime}.
Local Open Scope list_scope.

(** The two sides of the assistant's form. *)
Record AssistantForm := mk_AssistantForm {
  buy_side : OrderForm;
  sell_side : OrderForm
}.

(** [lineEdit_price.setText(text)] *)
Definition set_price (price_text : string) (r : FormRow) : FormRow :=
  mk_FormRow (symbol_edit r) price_text (qty_edit r).

(** [tick.symbol == line.text()] *)
Definition eq_text (v : Value) (line_text : string) : bool :=
  match v with
  | VStr s => String.eqb s line_text
  | _ => false
  end.

(** One [if ... elif ...] of process_tick_event. *)
Definition update_side (tick : Data) (symbol : Value) (f : OrderForm) : Outcome OrderForm :=
  if eq_text symbol (symbol_edit (row_1 f)) then
    match getattr tick "last_price" with
    | Raise e => Raise e
    | Return last_price =>
        Return (mk_OrderForm (spinBox f) (set_price (py_str last_price) (row_1 f)) (row_2 f))
    end
  else if eq_text symbol (symbol_edit (row_2 f)) then
    match getattr tick "last_price" with
    | Raise e => Raise e
    | Return last_price =>
        Return (mk_OrderForm (spinBox f) (row_1 f) (set_price (py_str last_price) (row_2 f)))
    end
  else Return f.

(** TradingAssistantWidget.process_tick_event; an exception can only come
    before the first setText, so it leaves the form as it was. *)
Definition Assistant_process_tick_event (tick : Data) (f : AssistantForm)
    : Outcome AssistantForm :=
  match getattr tick "symbol" with
  | Raise e => Raise e
  | Return symbol =>
      match update_side tick symbol (buy_side f) with
      | Raise e => Raise e
      | Return buy =>
          match update_side tick symbol (sell_side f) with
          | Raise e => Raise e
          | Return sell => Return (mk_AssistantForm buy sell)
          end
      end
  end.

End AssistantTicks.

(** ** The stock trading widget *)

(** The exceptions of this widget that the others do not meet. *)
Inductive Escape := OverflowError | IndexError | Other (e : Exn).

Inductive Result (A : Type) :=
| Done (a : A)
| Escapes (e : Escape).
Arguments Done {A} a.
Arguments Escapes {A} e.

Section StockTrading.
Context `{RT : Runtime} {CV : Conversions}.
Local Open Scope list_scope.

(** StockTradingWidget.on_fraction_selected: the text of the volume combo
    after the call. *)
Definition on_fraction_selected (position_volume : Z) (fraction : Float)
    (volume_combo : string) : Result string :=
  if (0 <? position_volume)%Z then
    match int_times_float position_volume fraction with
    | None => Escapes OverflowError
    | Some x =>
        match int_of_float x with
        | Truncated volume =>
            let volume := (volume / 100 * 100)%Z in
            Done (dec_str volume)
        | NotANumber => Escapes (Other ValueError)
        | Infinite => Escapes OverflowError
        end
    end
  else Done volume_combo.

(** StockTradingWidget.get_order_volume *)
Definition get_order_volume (volume_combo : string) : Result Z :=
  let volume_text := str_strip volume_combo in
  if String.eqb volume_text "" then Done 0%Z
  else
    match py_float volume_text with
    | Raise _ => Done 0%Z                  (* except ValueError *)
    | Return x =>
        match int_of_float x with
        | Truncated z => Done z
        | NotANumber => Done 0%Z           (* except ValueError *)
        | Infinite => Escapes OverflowError
        end
    end.

(** The inputs StockTradingWidget.send_order reads. *)
Record StockForm := mk_StockForm {
  stock_symbol_edit : string;
  stock_volume_combo : string;
  price_spinbox : Float
}.

(** StockTradingWidget.send_order: the effects up to the return or the
    exception, and the exception if one escapes. *)
Definition Stock_send_order (engine : MainEngine) (f : StockForm) (direction : Value)
    : list Effect * option Escape :=
  let symbol_text := str_strip (stock_symbol_edit f) in
  if String.eqb symbol_text "" then
    ([MessageBox warning "错误" "请输入股票代码"], None)
  else
  match first_word symbol_text with
  | None => ([], Some IndexError)
  | Some symbol =>
  match get_order_volume (stock_volume_combo f) with
  | Escapes e => ([], Some e)
  | Done volume =>
  if (volume <=? 0)%Z then
    ([MessageBox warning "错误" "请输入有效的交易数量"], None)
  else
  let price := price_spinbox f in
  if float_le0 price then
    ([MessageBox warning "错误" "请输入有效的价格"], None)
  else
    let req := mk_OrderRequest symbol (enum_member "Exchange" "SSE") direction
                 (enum_member "OrderType" "LIMIT") (VInt volume) (VFloat price)
                 (enum_member "Offset" "NONE") "StockTrading" in
    match get_all_gateway_names engine with
    | gateway :: _ =>
        let vt_orderid := send_order_result engine req gateway in
        (SendOrder req gateway ::
         (if negb (String.eqb vt_orderid "") then
            [MessageBox information "委托成功" ("订单已提交: " +:+ vt_orderid)]
          else []), None)
    | [] => ([MessageBox warning "错误" "没有可用的交易接口"], None)
    end
  end end.

End StockTrading.

(** ** A small runtime and host

    An implementation of the two interfaces, for running the model on
    concrete inputs: floats are the integral ones, the local zone is a fixed
    UTC+8, dates follow the proleptic Gregorian calendar, the enums are a
    table of the members the UI names, and the toolkit sorts by the text of
    the first column. *)

Module Demo.

Definition parse_integer (s : string) : option Z :=
  Z.of_int <$> NilZero.int_of_string s.

Fixpoint lstrip (s : string) : string :=
  match s with
  | String " " s' => lstrip s'
  | _ => s
  end.

Fixpoint rstrip (s : string) : string :=
  match s with
  | EmptyString => EmptyString
  | String a s' =>
      match rstrip s' with
      | EmptyString => if Ascii.eqb a " " then EmptyString else String a EmptyString
      | t => String a t
      end
  end.

(** Year, month and day of a day number counted from 1970-01-01. *)
Definition civil_from_days (days : Z) : Z * Z * Z :=
  let z := (days + 719468)%Z in
  let era := (z / 146097)%Z in
  let doe := (z - era * 146097)%Z in
  let yoe := ((doe - doe / 1460 + doe / 36524 - doe / 146096) / 365)%Z in
  let doy := (doe - (365 * yoe + yoe / 4 - yoe / 100))%Z in
  let mp := ((5 * doy + 2) / 153)%Z in
  let d := (doy - (153 * mp + 2) / 5 + 1)%Z in
  let m := (if (mp <? 10)%Z then mp + 3 else mp - 9)%Z in
  let y := (yoe + era * 400 + (if (m <=? 2)%Z then 1 else 0))%Z in
  (y, m, d).

Definition pad_to (n : nat) (z : Z) : string :=
  let s := NilZero.string_of_int (Z.to_int z) in
  string_of_list_ascii (replicate (n - String.length s) "0"%char) +:+ s.

Definition date_text (d : datetime) : string :=
  let '(y, m, dd) := civil_from_days ((epoch d + utcoffset d) / 86400) in
  pad_to 4 y +:+ "-" +:+ pad_to 2 m +:+ "-" +:+ pad_to 2 dd.

Definition clock_text (d : datetime) : string :=
  let s := ((epoch d + utcoffset d) mod 86400)%Z in
  pad_to 2 (s / 3600) +:+ ":" +:+ pad_to 2 (s mod 3600 / 60) +:+ ":" +:+ pad_to 2 (s mod 60).

Definition offset_text (d : datetime) : string :=
  let o := Z.abs (utcoffset d) in
  (if (utcoffset d <? 0)%Z then "-" else "+") +:+
  pad_to 2 (o / 3600) +:+ ":" +:+ pad_to 2 (o mod 3600 / 60).

Definition dateclock_text (d : datetime) : string :=
  date_text d +:+ " " +:+ clock_text d +:+
  (if (microsecond d =? 0)%Z then "" else "." +:+ pad_to 6 (microsecond d)) +:+
  offset_text d.

(** Enum class, member name, value. *)
Definition enum_table : list (string * string * string) :=
  [ ("Direction", "LONG", "多"); ("Direction", "SHORT", "空"); ("Direction", "NET", "净");
    ("Offset", "NONE", ""); ("Offset", "OPEN", "开"); ("Offset", "CLOSE", "平");
    ("OrderType", "LIMIT", "限价"); ("OrderType", "MARKET", "市价");
    ("Exchange", "SSE", "SSE"); ("Exchange", "SZSE", "SZSE");
    ("Status", "SUBMITTING", "提交中"); ("Status", "NOTTRADED", "未成交");
    ("Status", "PARTTRADED", "部分成交"); ("Status", "ALLTRADED", "全部成交");
    ("Status", "CANCELLED", "已撤销"); ("Status", "REJECTED", "拒单") ].

Definition member_value (cls name : string) : string :=
  match List.find (fun e => String.eqb (fst (fst e)) cls && String.eqb (snd (fst e)) name)
          enum_table with
  | Some e => snd e
  | None => name
  end.

Definition member_by_value (cls value : string) : option string :=
  (fun e => snd (fst e)) <$>
  List.find (fun e => String.eqb (fst (fst e)) cls && String.eqb (snd e) value) enum_table.

Definition runtime : Runtime := {|
  Float := Z;
  float_str := fun x => NilZero.string_of_int (Z.to_int x) +:+ ".0";
  float_bool := fun x => negb (x =? 0)%Z;
  float_gt0 := fun x => (0 <? x)%Z;
  float_le0 := fun x => (x <=? 0)%Z;
  float_of_text := parse_integer;
  int_of_text := parse_integer;
  str_strip := fun s => rstrip (lstrip s);
  local_tz := fun _ => 28800%Z;
  datetime_str := dateclock_text;
  strftime_date := date_text;
  enum_value := member_value;
  enum_by_value := member_by_value
|}.

#[local] Existing Instance runtime.

(** The text of the row's item in the first column. *)
Definition sort_key (st : list Cell) (r : Row) : string :=
  match mjoin (items r !! 0%nat) with
  | Some id => match st !! id with Some c => _text c | None => "" end
  | None => ""
  end.

Fixpoint insert_sorted (st : list Cell) (r : Row) (rs : list Row) : list Row :=
  match rs with
  | [] => [r]
  | r' :: rs' =>
      if String.ltb (sort_key st r) (sort_key st r') then r :: rs
      else r' :: insert_sorted st r rs'
  end.

Definition sort_by_first_column (st : list Cell) (rs : list Row) : list Row :=
  foldr (insert_sorted st) [] rs.

(** OrderData.is_active: the status is one of the active ones. *)
Definition order_is_active (d : Data) : bool :=
  match d !! "status" with
  | Some (VEnum "Status" name _) =>
      bool_decide (name ∈ ["SUBMITTING"; "NOTTRADED"; "PARTTRADED"])
  | _ => false
  end.

(** Records and forms to run the model on. *)
Definition order (id status : string) (volume : Z) : Event :=
  mk_Event "eOrder."
    (list_to_map
       [ ("orderid", VStr id); ("reference", VStr "ManualTrading");
         ("symbol", VStr "600000");
         ("exchange", enum_member "Exchange" "SSE");
         ("type", enum_member "OrderType" "LIMIT");
         ("direction", enum_member "Direction" "LONG");
         ("offset", enum_member "Offset" "NONE");
         ("price", VFloat 10%Z); ("volume", VInt volume); ("traded", VInt 0);
         ("status", enum_member "Status" status);
         ("datetime", VDatetime (mk_datetime 5400 250000 0));
         ("gateway_name", VStr "CTP"); ("vt_orderid", VStr ("CTP." +:+ id)) ]).

Definition account (balance : Z) : Event :=
  mk_Event "eAccount."
    (list_to_map
       [ ("accountid", VStr "88"); ("balance", VInt balance); ("frozen", VInt 0);
         ("available", VInt balance); ("gateway_name", VStr "CTP");
         ("vt_accountid", VStr "CTP.88") ]).

Definition log_line (msg : string) : Event :=
  mk_Event "eLog"
    (list_to_map
       [ ("time", VDatetime (mk_datetime 5400 0 0)); ("msg", VStr msg);
         ("gateway_name", VStr "CTP") ]).

Definition engine : MainEngine :=
  mk_MainEngine ["CTP"] (fun _ _ => "CTP.1").

Definition typo_form : OrderForm :=
  mk_OrderForm 2 (mk_FormRow "600000" "abc" "100") (mk_FormRow "600036" "10" "100").

Definition typo_widget : TradingWidget :=
  mk_TradingWidget "600000" "abc" "10" "SSE" "多" "限价" "" "CTP".

Lemma insert_sorted_perm st r rs : Permutation (insert_sorted st r rs) (r :: rs).
Proof.
  induction rs as [|r' rs IH]; simpl; [reflexivity|].
  destruct (String.ltb _ _); [reflexivity|].
  rewrite IH. apply perm_swap.
Qed.

Lemma sort_by_first_column_perm st rs : Permutation (sort_by_first_column st rs) rs.
Proof.
  induction rs as [|r rs IH]; simpl; [reflexivity|].
  rewrite insert_sorted_perm. by constructor.
Qed.

Definition host : Host := {|
  sort_rows := sort_by_first_column;
  sort_rows_perm := sort_by_first_column_perm;
  is_active := order_is_active
|}.









(** The text up to the first blank. *)
Fixpoint until_blank (s : string) : string :=
  match s with
  | EmptyString => EmptyString
  | String a s' => if Ascii.eqb a " " then EmptyString else String a (until_blank s')
  end.

Definition conversions : Conversions := {|
  float_zero := 0%Z;
  int_of_float := fun x => Truncated x;
  int_times_float := fun n x => Some (n * x)%Z;
  first_word := fun s =>
    match until_blank (lstrip s) with
    | EmptyString => None
    | w => Some w
    end
|}.

(** An order record that lacks its status. *)
Definition order_without_status (id : string) : Event :=
  mk_Event "eOrder." (delete "status" (ev_data (order id "NOTTRADED" 5))).

Definition contract (symbol : string) (size : Z) : Data :=
  list_to_map
    [ ("vt_symbol", VStr (symbol +:+ ".SSE")); ("symbol", VStr symbol);
      ("exchange", enum_member "Exchange" "SSE"); ("size", VInt size);
      ("option_expiry", VNone) ].

Definition tick (symbol : string) (last_price : Z) : Data :=
  list_to_map [ ("symbol", VStr symbol); ("last_price", VFloat last_price) ].

Definition assistant_form : AssistantForm :=
  mk_AssistantForm
    (mk_OrderForm 1 (mk_FormRow "600000" "" "100") (mk_FormRow "600000" "9" "200"))
    (mk_OrderForm 1 (mk_FormRow "600036" "11" "100") (mk_FormRow "" "" "")).

Definition gateway_default : list (string * Default) :=
  [ ("用户名", DScalar (SStr "")); ("端口", DScalar (SInt 0));
    ("授权", DScalar (SBool false)); ("环境", DList ["实盘"; "测试"]) ].

Definition gateway_loaded : gmap string Scalar :=
  list_to_map [ ("用户名", SStr "trader"); ("环境", SStr "测试") ].

Definition global_settings : list (string * Scalar) :=
  [ ("font.family", SStr "微软雅黑"); ("font.size", SInt 12);
    ("log.active", SBool true); ("log.console", SBool false) ].



Definition valid_widget : TradingWidget :=
  mk_TradingWidget "600000" "100" "10" "SSE" "多" "限价" "" "CTP".

End Demo.

(** * Properties of the cells *)

Section CellProperties.
Context `{RT : Runtime}.

Lemma BaseCell_set_content_text content data c :
  text (BaseCell_set_content content data c) = py_str content /\
  _text (BaseCell_set_content content data c) = py_str content /\
  _data (BaseCell_set_content content data c) = Some data /\
  foreground (BaseCell_set_content content data c) = foreground c.
Proof. unfold BaseCell_set_content. simpl. auto. Qed.

Lemma String_ltb_lex s t : String.ltb s t = true <-> lex_lt s t.
Proof.
  unfold String.ltb. revert t.
  induction s as [|a s IH]; intros [|b t]; simpl.
  - split; [discriminate | inversion 1].
  - split; [constructor | reflexivity].
  - split; [discriminate | inversion 1].
  - unfold Ascii.compare.
    destruct (N.compare_spec (N_of_ascii a) (N_of_ascii b)) as [E|L|G].
    + assert (a = b) as ->.
      { rewrite <- (ascii_N_embedding a), <- (ascii_N_embedding b). by rewrite E. }
      rewrite IH. split; [by constructor|].
      inversion 1; subst; [lia | done].
    + split; [by constructor | reflexivity].
    + split; [discriminate|].
      inversion 1; subst; [lia|]. lia.
Qed.

(** Cells whose class renders through BaseCell.set_content carry their
    rendered text in [_text]: on them [__lt__] is the lexicographic order of
    the rendered texts. *)
Lemma BaseCell_lt_rendered content1 content2 data1 data2 c1 c2 :
  let a := BaseCell_set_content content1 data1 c1 in
  let b := BaseCell_set_content content2 data2 c2 in
  BaseCell_lt a b = true <-> lex_lt (text a) (text b).
Proof.
  simpl. unfold BaseCell_lt. simpl. apply String_ltb_lex.
Qed.

Lemma BaseCell_lt_100_20 data c1 c2 :
  BaseCell_lt (BaseCell_set_content (VStr "100") data c1)
              (BaseCell_set_content (VStr "20") data c2) = true /\
  BaseCell_lt (BaseCell_set_content (VStr "20") data c2)
              (BaseCell_set_content (VStr "100") data c1) = false /\
  BaseCell_lt (BaseCell_set_content (VInt 100) data c1)
              (BaseCell_set_content (VInt 20) data c2) = true /\
  (20 < 100)%Z.
Proof. repeat split. Qed.

(** A cell of class TimeCell never writes [_text]: it is the empty string
    BaseCell.__init__ put there. *)
Lemma TimeCell_keeps__text content data c c' :
  TimeCell_set_content content data c = Return c' -> _text c' = _text c.
Proof.
  destruct content; simpl; try discriminate; by intros [= <-].
Qed.

Lemma new_TimeCell__text content data c :
  new_cell TimeCell content data = Return c -> _text c = "".
Proof.
  unfold new_cell, set_content. simpl.
  destruct (TimeCell_set_content _ _ _) as [c'|] eqn:E; [|discriminate].
  intros [= <-]. by rewrite (TimeCell_keeps__text _ _ _ _ E).
Qed.

(** Two time cells never compare as smaller, whatever they show. *)
Lemma TimeCell_lt_false content1 content2 data1 data2 a b :
  new_cell TimeCell content1 data1 = Return a ->
  new_cell TimeCell content2 data2 = Return b ->
  BaseCell_lt a b = false.
Proof.
  intros Ha Hb. unfold BaseCell_lt.
  by rewrite (new_TimeCell__text _ _ _ Ha), (new_TimeCell__text _ _ _ Hb).
Qed.

Lemma TimeCell_set_content_text d data c :
  TimeCell_set_content (VDatetime d) data c =
    Return (set__data data (setText (time_text d) c)).
Proof.
  unfold TimeCell_set_content, time_text. simpl.
  by destruct (Z.quot (microsecond d) 1000 =? 0)%Z.
Qed.

(** Without sub-second part the text ends in [.000]; with a quarter of a
    second it ends in [.250]. *)
Lemma time_text_zero d :
  microsecond d = 0%Z -> time_text d = strftime_HMS (astimezone local_tz d) +:+ ".000".
Proof. unfold time_text. by intros ->. Qed.

Lemma time_text_250000 d :
  microsecond d = 250000%Z -> time_text d = strftime_HMS (astimezone local_tz d) +:+ ".250".
Proof. unfold time_text. by intros ->. Qed.

(** From 100 milliseconds on the fraction has its three digits. *)
Lemma dec_str_3_digits ms :
  (100 <= ms < 1000)%Z -> String.length (dec_str ms) = 3%nat.
Proof.
  intros H.
  assert (forallb (fun n => Nat.eqb (String.length (dec_str (Z.of_nat n))) 3)
            (seq 100 900) = true) as Hall by (vm_compute; reflexivity).
  rewrite forallb_forall in Hall.
  specialize (Hall (Z.to_nat ms)).
  rewrite Z2Nat.id in Hall by lia.
  apply Nat.eqb_eq, Hall, in_seq. lia.
Qed.

(** Below 100 milliseconds, when the millisecond part is not zero, the
    fraction is printed with one or two digits. *)
Lemma dec_str_short ms :
  (1 <= ms < 100)%Z -> (String.length (dec_str ms) < 3)%nat.
Proof.
  intros H.
  assert (forallb (fun n => Nat.ltb (String.length (dec_str (Z.of_nat n))) 3)
            (seq 1 99) = true) as Hall by (vm_compute; reflexivity).
  rewrite forallb_forall in Hall.
  specialize (Hall (Z.to_nat ms)).
  rewrite Z2Nat.id in Hall by lia.
  apply Nat.ltb_lt, Hall, in_seq. lia.
Qed.

Lemma time_text_short_fraction d :
  (1000 <= microsecond d < 100000)%Z ->
  time_text d =
    strftime_HMS (astimezone local_tz d) +:+ "." +:+ dec_str (Z.quot (microsecond d) 1000) /\
  (String.length (dec_str (Z.quot (microsecond d) 1000)) < 3)%nat.
Proof.
  intros H.
  assert (1 <= Z.quot (microsecond d) 1000 < 100)%Z as Hms.
  { rewrite Z.quot_div_nonneg by lia. split.
    - apply Z.div_le_lower_bound; lia.
    - apply Z.div_lt_upper_bound; lia. }
  split; [|by apply dec_str_short].
  unfold time_text.
  destruct (Z.eqb_spec (Z.quot (microsecond d) 1000) 0); [lia|done].
Qed.

End CellProperties.

Section CellClaims.
Context `{RT : Runtime}.


(** C7, as the code has it.  DirectionCell.set_content shows the label of
    an enum member and colours the cell with the short colour exactly when
    the value is Direction.SHORT; every other value, the long direction, the
    net direction and an absent value alike, gets the long colour.  An absent
    value leaves the text as it was. *)
Theorem DirectionCell_set_content_text_and_color :
  forall (data : Data) (c : Cell),
    (forall cls name value,
        exists c',
          DirectionCell_set_content (VEnum cls name value) data c = Return c' /\
          text c' = value /\
          foreground c' =
            Some (if is_Direction "SHORT" (VEnum cls name value)
                  then COLOR_SHORT else COLOR_LONG)) /\
    DirectionCell_set_content VNone data c = Return (setForeground COLOR_LONG c) /\
    (forall value,
        DirectionCell_set_content (VEnum "Direction" "NET" value) data c =
          Return (setForeground COLOR_LONG (BaseCell_set_content (VStr value) data c))).
Proof.
  intros data c. split; [|split].
  - intros cls name value.
    unfold DirectionCell_set_content, EnumCell_set_content. simpl.
    destruct (String.eqb cls "Direction" && String.eqb name "SHORT");
      eexists; split; try reflexivity; simpl; auto.
  - reflexivity.
  - intros value. reflexivity.
Qed.

End CellClaims.

Section MonitorProperties.
Context `{RT : Runtime} {HT : Host}.
Local Open Scope monitor_scope.
Local Open Scope nat_scope.
Local Open Scope list_scope.

Lemma set_content_class v data c c' :
  set_content v data c = Return c' -> cell_class c' = cell_class c.
Proof.
  unfold set_content.
  destruct (cell_class c) eqn:E; simpl.
  all: try (intros [= <-]; simpl; done).
  - unfold EnumCell_set_content.
    destruct (truthy v); [destruct (get_value v)|]; intros [= <-]; done.
  - unfold DirectionCell_set_content, EnumCell_set_content.
    destruct (truthy v); [destruct (get_value v)|]; try discriminate;
      destruct (is_Direction "SHORT" v); intros [= <-]; done.
  - unfold PnlCell_set_content.
    destruct (String.prefix _ _); intros [= <-]; done.
  - destruct v; simpl; try discriminate; intros [= <-]; done.
  - destruct v; simpl; try discriminate; intros [= <-]; done.
Qed.

Lemma set_content_accepts v data c :
  accepts (cell_class c) v = true -> exists c', set_content v data c = Return c'.
Proof.
  unfold set_content, accepts.
  destruct (cell_class c); simpl; eauto.
  - unfold EnumCell_set_content. destruct (truthy v); simpl; eauto.
    destruct v; try discriminate; simpl; eauto.
  - unfold DirectionCell_set_content, EnumCell_set_content.
    destruct (truthy v); simpl.
    + destruct v; try discriminate; simpl.
      destruct (_ && _); eauto.
    + destruct (is_Direction _ _); eauto.
  - destruct v; try discriminate; simpl; eauto.
  - destruct v; try discriminate; simpl; eauto.
Qed.

Lemma new_cell_accepts cls v data :
  accepts cls v = true ->
  exists c, new_cell cls v data = Return c /\ cell_class c = cls.
Proof.
  intros Ha. unfold new_cell.
  destruct (set_content_accepts v data (mk_Cell cls "" None "" None AlignCenter) Ha)
    as [c' Hc'].
  rewrite Hc'. apply set_content_class in Hc'. simpl in Hc'.
  destruct cls; eexists; split; try reflexivity; simpl; done.
Qed.

Lemma insert_cells_spec data hs :
  forall column rc m r rs pre,
    rows m = r :: rs ->
    items r = (pre ++ replicate (length hs) None)%list ->
    length pre = column ->
    forallb (renders data) hs = true ->
    exists new,
      Forall2 (created data) hs new /\
      insert_cells data hs column rc m =
        (mk_Monitor (store m ++ new)
           (mk_Row (pre ++ (Some <$> seq (length (store m)) (length hs))) (hidden r) :: rs)
           (cells m) (sortingEnabled m),
         Return (register_live hs (length (store m)) rc)).
Proof.
  induction hs as [|[header setting] hs IH]; intros column rc m r rs pre Hrows Hitems Hlen Hty.
  - exists []. split; [constructor|].
    simpl. unfold ret. rewrite !app_nil_r. simpl in Hitems. rewrite app_nil_r in Hitems.
    destruct m as [st rws cs se]; simpl in *. subst. by destruct r.
  - simpl in Hty. apply andb_true_iff in Hty as [Hh Hty].
    unfold renders in Hh. simpl in Hh.
    destruct (data !! header) as [v|] eqn:Hv; [|discriminate].
    destruct (new_cell_accepts _ _ data Hh) as (c & Hc & Hcls).
    specialize (IH (S column)
                  (if update setting then dict_set header (length (store m)) rc else rc)
                  (mk_Monitor (store m ++ [c])
                     (mk_Row (<[column := Some (length (store m))]> (items r)) (hidden r) :: rs)
                     (cells m) (sortingEnabled m))
                  (mk_Row (<[column := Some (length (store m))]> (items r)) (hidden r))
                  rs (pre ++ [Some (length (store m))])).
    destruct IH as (new & Hnew & Hrun); simpl.
    + reflexivity.
    + rewrite Hitems. simpl. subst column.
      rewrite insert_app_r_alt by lia. rewrite Nat.sub_diag. simpl.
      by rewrite <- app_assoc.
    + rewrite length_app. simpl. lia.
    + done.
    + exists (c :: new). split.
      * constructor; [|done]. split; [done|]. exists v. done.
      * simpl. unfold bind at 1. unfold lift at 1. unfold getattr. rewrite Hv.
        unfold bind at 1. unfold lift at 1. rewrite Hc.
        unfold bind at 1. unfold alloc at 1.
        unfold bind at 1. unfold setItem at 1, modify at 1.
        unfold set_store, set_rows. simpl. rewrite Hrows. simpl.
        rewrite Hrun. simpl. rewrite length_app. simpl.
        rewrite <- !app_assoc. simpl.
        replace (length (store m) + 1) with (S (length (store m))) by lia.
        done.
Qed.


Lemma insert_new_row_spec cls data m :
  forallb (renders data) (headers cls) = true ->
  exists new,
    Forall2 (created data) (headers cls) new /\
    let row := mk_Row (Some <$> seq (length (store m)) (length (headers cls))) false in
    (data_key cls = "" ->
     insert_new_row cls data m =
       (mk_Monitor (store m ++ new) (row :: rows m) (cells m) (sortingEnabled m),
        Return tt)) /\
    (forall k, data_key cls <> "" -> data !! data_key cls = Some (VStr k) ->
     insert_new_row cls data m =
       (mk_Monitor (store m ++ new) (row :: rows m)
          (<[k := register_live (headers cls) (length (store m)) []]> (cells m))
          (sortingEnabled m),
        Return tt)).
Proof.
  intros Hty.
  destruct (insert_cells_spec data (headers cls) 0 []
              (set_rows (mk_Row (replicate (length (headers cls)) None) false :: rows m) m)
              (mk_Row (replicate (length (headers cls)) None) false) (rows m) [])
    as (new & Hnew & Hrun); try done.
  exists new. split; [done|]. simpl in *.
  split.
  - intros Hk. unfold insert_new_row.
    unfold bind at 1. unfold insertRow0, modify.
    unfold bind at 1. rewrite Hrun. rewrite Hk. simpl. done.
  - intros k Hk Hd. unfold insert_new_row.
    unfold bind at 1. unfold insertRow0, modify.
    unfold bind at 1. rewrite Hrun.
    apply String.eqb_neq in Hk. rewrite Hk. simpl.
    unfold bind, lift, get_key, getattr. rewrite Hd. simpl. done.
Qed.

Lemma updatable_classes data st st' e :
  classes st' = classes st -> updatable data st e -> updatable data st' e.
Proof.
  intros Hc (v & c & Hv & Hs & Ha).
  assert (classes st' !! snd e = Some (cell_class c)) as H.
  { rewrite Hc. unfold classes. by rewrite list_lookup_fmap, Hs. }
  unfold classes in H. rewrite list_lookup_fmap in H.
  destruct (st' !! snd e) as [c'|] eqn:E; [|discriminate].
  simpl in H. injection H as H.
  exists v, c'. rewrite H. done.
Qed.

Lemma update_cells_spec data rc :
  forall m,
    Forall (updatable data (store m)) rc ->
    exists st',
      update_cells data rc m = (set_store st' m, Return tt) /\
      classes st' = classes (store m) /\
      (forall id, id ∉ snd <$> rc -> st' !! id = store m !! id) /\
      (NoDup (snd <$> rc) ->
       forall h id, (h, id) ∈ rc ->
         exists v c c', data !! h = Some v /\ store m !! id = Some c /\
                        set_content v data c = Return c' /\ st' !! id = Some c').
Proof.
  induction rc as [|[h id] rc IH]; intros m Hall.
  - exists (store m). simpl. unfold ret. destruct m; simpl.
    repeat split; try done. intros _ h id Hin. by apply elem_of_nil in Hin.
  - apply Forall_cons in Hall as [(v & c & Hv & Hs & Ha) Hall]. simpl in *.
    destruct (set_content_accepts v data c Ha) as [c' Hc'].
    assert (classes (<[id := c']> (store m)) = classes (store m)) as Hcl.
    { unfold classes. rewrite list_fmap_insert.
      rewrite (set_content_class _ _ _ _ Hc').
      apply list_insert_id. by rewrite list_lookup_fmap, Hs. }
    destruct (IH (set_store (<[id := c']> (store m)) m)) as (st' & Hrun & Hcls & Hframe & Hupd).
    { eapply Forall_impl; [exact Hall|]. intros e He. simpl.
      eapply updatable_classes; [exact Hcl | exact He]. }
    exists st'. simpl in *. split; [|split; [|split]].
    + unfold bind at 1. unfold lift, getattr. rewrite Hv.
      unfold bind at 1. unfold cell_set_content. rewrite Hs, Hc'.
      rewrite Hrun. unfold set_store. simpl. done.
    + by rewrite Hcls.
    + intros id' Hnin. apply not_elem_of_cons in Hnin as [Hne Hnin].
      rewrite Hframe by done. by rewrite list_lookup_insert_ne.
    + intros Hnd h' id' Hin. apply NoDup_cons in Hnd as [Hfresh Hnd].
      apply elem_of_cons in Hin as [[= -> ->]|Hin].
      * exists v, c, c'. repeat split; try done.
        rewrite Hframe by done. apply list_lookup_insert_eq.
        by eapply lookup_lt_Some.
      * destruct (Hupd Hnd h' id' Hin) as (v' & c0 & c0' & Hv' & Hs' & Hset & Hst').
        exists v', c0, c0'. repeat split; try done.
        rewrite list_lookup_insert_ne in Hs'; [done|].
        intros ->. apply Hfresh. apply list_elem_of_fmap. by exists (h', id').
Qed.


Lemma elem_of_dict_set k v d e :
  e ∈ dict_set k v d -> e = (k, v) \/ e ∈ d.
Proof.
  induction d as [|[k' v'] d IH]; simpl.
  - intros H. apply list_elem_of_singleton in H. by left.
  - destruct (String.eqb_spec k' k) as [->|Hne].
    + intros H. apply elem_of_cons in H as [->|H]; [by left|].
      right. by apply elem_of_cons; right.
    + intros H. apply elem_of_cons in H as [->|H].
      * right. by apply elem_of_cons; left.
      * destruct (IH H) as [->|H']; [by left|].
        right. by apply elem_of_cons; right.
Qed.

Lemma dict_set_fresh k v d :
  k ∉ fst <$> d -> dict_set k v d = d ++ [(k, v)].
Proof.
  induction d as [|[k' v'] d IH]; simpl; [done|].
  intros H. apply not_elem_of_cons in H as [Hne H].
  destruct (String.eqb_spec k' k) as [->|_]; [done|].
  by rewrite IH.
Qed.

Lemma register_live_entries hs :
  forall first rc h id,
    (h, id) ∈ register_live hs first rc ->
    (h, id) ∈ rc \/
    exists j s, hs !! j = Some (h, s) /\ update s = true /\ id = first + j.
Proof.
  induction hs as [|[header setting] hs IH]; intros first rc h id Hin; simpl in *.
  - by left.
  - destruct (IH _ _ _ _ Hin) as [Hrc|(j & s & Hj & Hu & ->)].
    + destruct (update setting) eqn:Hu; [|by left].
      apply elem_of_dict_set in Hrc as [[= -> ->]|Hrc]; [|by left].
      right. exists 0, setting. simpl. split; [done|]. split; [done|lia].
    + right. exists (S j), s. simpl. split; [done|]. split; [done|lia].
Qed.

Lemma register_live_fresh hs :
  forall first rc,
    NoDup ((fst <$> rc) ++ (fst <$> hs)) ->
    register_live hs first rc = rc ++ live_entries hs first.
Proof.
  induction hs as [|[header setting] hs IH]; intros first rc Hnd; simpl.
  - by rewrite app_nil_r.
  - simpl in Hnd.
    assert (header ∉ fst <$> rc) as Hfresh.
    { apply NoDup_app in Hnd as (_ & Hdisj & _).
      intros Hin. apply (Hdisj _ Hin). by apply elem_of_cons; left. }
    destruct (update setting).
    + rewrite IH.
      * rewrite dict_set_fresh by done. by rewrite <- app_assoc.
      * rewrite dict_set_fresh by done. rewrite fmap_app. simpl.
        rewrite <- app_assoc. simpl. done.
    + rewrite IH; [done|].
      apply NoDup_app in Hnd as (H1 & H2 & H3).
      apply NoDup_cons in H3 as [H3 H4].
      apply NoDup_app. split; [done|]. split; [|done].
      intros x Hx Hx'. apply (H2 x Hx). by apply elem_of_cons; right.
Qed.

Lemma live_entries_spec hs :
  forall first h id,
    (h, id) ∈ live_entries hs first <->
    exists j s, hs !! j = Some (h, s) /\ update s = true /\ id = first + j.
Proof.
  induction hs as [|[header setting] hs IH]; intros first h id; simpl.
  - split; [intros H; by apply elem_of_nil in H|].
    intros (j & s & Hj & _). by rewrite lookup_nil in Hj.
  - rewrite elem_of_app, IH. split.
    + intros [H|(j & s & Hj & Hu & ->)].
      * destruct (update setting) eqn:Hu; [|by apply elem_of_nil in H].
        apply list_elem_of_singleton in H as [= -> ->].
        exists 0, setting. simpl. split; [done|]. split; [done|lia].
      * exists (S j), s. simpl. split; [done|]. split; [done|lia].
    + intros (j & s & Hj & Hu & ->).
      destruct j as [|j]; simpl in Hj.
      * injection Hj as -> ->. left. rewrite Hu.
        apply list_elem_of_singleton. f_equal. lia.
      * right. exists j, s. split; [done|]. split; [done|lia].
Qed.

Lemma Inv_fresh cls : Inv cls (fresh_monitor cls).
Proof.
  split; simpl.
  - done.
  - intros id c H. by rewrite lookup_nil in H.
  - exists []. split; done.
  - intros k rc H. by rewrite lookup_empty in H.
  - rewrite map_size_empty. by destruct (String.eqb _ _).
Qed.

Lemma Inv_rows_perm cls m rs :
  Inv cls m -> Permutation rs (rows m) ->
  forall se, Inv cls (mk_Monitor (store m) rs (cells m) se).
Proof.
  intros [H1 H2 (bs & Hbs & Hit) H4 H5] Hp se.
  assert (length rs = length (rows m)) as Hlen by by apply Permutation_length.
  split; simpl; rewrite ?Hlen; try done.
  assert (Permutation (items <$> rs) (block (length (headers cls)) <$> bs)) as Hp'.
  { rewrite <- Hit. by apply fmap_Permutation. }
  apply Permutation_map_inv in Hp' as (bs' & Heq & Hp').
  exists bs'. split; [|done]. by rewrite <- Hp'.
Qed.

Lemma Inv_hidden cls m i b :
  Inv cls m ->
  Inv cls (set_rows (alter (fun r => mk_Row (items r) b) i (rows m)) m).
Proof.
  intros [H1 H2 (bs & Hbs & Hit) H4 H5].
  split; simpl; rewrite ?length_alter; try done.
  exists bs. split; [done|]. rewrite <- Hit.
  apply list_eq. intros j. rewrite !list_lookup_fmap.
  destruct (decide (i = j)) as [->|Hne].
  - rewrite list_lookup_alter_eq. by destruct (rows m !! j).
  - by rewrite list_lookup_alter_ne.
Qed.


Lemma Forall2_created_length data hs new :
  Forall2 (created data) hs new -> length new = length hs.
Proof. intros H. symmetry. by eapply Forall2_length. Qed.


Lemma Inv_insert cls data m new cs se :
  Inv cls m ->
  Forall2 (created data) (headers cls) new ->
  (forall k rc, cs !! k = Some rc ->
     cells m !! k = Some rc \/
     rc = register_live (headers cls) (length (store m)) []) ->
  size cs = (if String.eqb (data_key cls) "" then 0 else S (length (rows m))) ->
  Inv cls (mk_Monitor (store m ++ new)
             (mk_Row (Some <$> seq (length (store m)) (length (headers cls))) false :: rows m)
             cs se).
Proof.
  intros [H1 H2 (bs & Hbs & Hit) H4 H5] Hnew Hcs Hsize.
  pose proof (Forall2_created_length _ _ _ Hnew) as Hlen.
  split; cbn [store rows cells sortingEnabled length].
  - rewrite length_app, Hlen, H1. lia.
  - intros id c Hid.
    destruct (decide (id < length (store m))) as [Hlt|Hge].
    + rewrite lookup_app_l in Hid by done. by apply H2.
    + rewrite lookup_app_r in Hid by lia.
      pose proof (lookup_lt_Some _ _ _ Hid) as Hj. rewrite Hlen in Hj.
      destruct (lookup_lt_is_Some_2 (headers cls) (id - length (store m)) Hj) as [h Hh].
      pose proof (Forall2_lookup_lr _ _ _ _ _ _ Hnew Hh Hid) as [Hcl _].
      exists h. split; [|done].
      replace id with ((id - length (store m)) + length (rows m) * length (headers cls))
        by lia.
      rewrite Nat.Div0.mod_add. rewrite Nat.mod_small by lia.
      replace (id - length (store m) + length (rows m) * length (headers cls)
               - length (store m)) with (id - length (store m)) in Hh by lia.
      done.
  - exists (length (rows m) :: bs). split.
    + rewrite seq_S. simpl. rewrite Hbs.
      apply Permutation_cons_append.
    + rewrite !fmap_cons, Hit. cbn [items]. unfold block at 1. by rewrite H1.
  - intros k rc Hk. destruct (Hcs k rc Hk) as [Hold| ->].
    + destruct (H4 k rc Hold) as (i & Hi & ->). exists i. split; [lia|done].
    + exists (length (rows m)). split; [lia|]. by rewrite H1.
  - done.
Qed.

Lemma Inv_store cls m st' :
  Inv cls m -> classes st' = classes (store m) -> Inv cls (set_store st' m).
Proof.
  intros [H1 H2 H3 H4 H5] Hcl.
  split; simpl; try done.
  - rewrite <- H1. unfold classes in Hcl.
    by rewrite <- (length_fmap cell_class st'), Hcl, length_fmap.
  - intros id c' Hid.
    assert (classes st' !! id = Some (cell_class c')) as H
      by (unfold classes; by rewrite list_lookup_fmap, Hid).
    rewrite Hcl in H. unfold classes in H. rewrite list_lookup_fmap in H.
    destruct (store m !! id) as [c|] eqn:E; [|discriminate].
    simpl in H. injection H as H. rewrite <- H. by apply H2.
Qed.

Lemma process_event_dispatch cls event m :
  process_event cls event m =
    match dispatch cls (ev_data event) (sorting_off cls m) with
    | (m1, Return _) => (sorting_on cls m1, Return tt)
    | (m1, Raise e) => (m1, Raise e)
    end.
Proof.
  unfold process_event, dispatch, sorting_off, sorting_on.
  unfold bind at 1. destruct (sorting cls); simpl.
  - unfold bind at 1.
    match goal with |- context [match ?x with _ => _ end] =>
      destruct x as [m1 [[]|e]] end; reflexivity.
  - unfold bind at 1.
    match goal with |- context [match ?x with _ => _ end] =>
      destruct x as [m1 [[]|e]] end; reflexivity.
Qed.

Lemma Inv_sorting_off cls m : Inv cls m -> Inv cls (sorting_off cls m).
Proof.
  intros H. unfold sorting_off. destruct (sorting cls); [|done].
  by apply (Inv_rows_perm cls m (rows m) H).
Qed.

Lemma Inv_sorting_on cls m : Inv cls m -> Inv cls (sorting_on cls m).
Proof.
  intros H. unfold sorting_on. destruct (sorting cls); [|done].
  apply (Inv_rows_perm cls m _ H). apply sort_rows_perm.
Qed.

Lemma sorting_on_rows cls m :
  Permutation (rows (sorting_on cls m)) (rows m) /\
  (sorting cls = false -> rows (sorting_on cls m) = rows m) /\
  store (sorting_on cls m) = store m /\ cells (sorting_on cls m) = cells m.
Proof.
  unfold sorting_on. destruct (sorting cls); simpl; repeat split; try done.
  apply sort_rows_perm.
Qed.

Lemma sorting_off_fields cls m :
  rows (sorting_off cls m) = rows m /\
  store (sorting_off cls m) = store m /\ cells (sorting_off cls m) = cells m.
Proof. unfold sorting_off. by destruct (sorting cls). Qed.

Lemma well_typed_renders cls event :
  well_typed cls event = true -> forallb (renders (ev_data event)) (headers cls) = true.
Proof. unfold well_typed. by intros [H _]%andb_true_iff. Qed.

Lemma well_typed_key cls event :
  well_typed cls event = true ->
  (data_key cls = "" /\ key_of cls (ev_data event) = None) \/
  (exists k, data_key cls <> "" /\ ev_data event !! data_key cls = Some (VStr k) /\
             key_of cls (ev_data event) = Some k).
Proof.
  unfold well_typed, has_key, key_of. intros [_ H]%andb_true_iff.
  destruct (String.eqb_spec (data_key cls) "") as [E|E]; [by left|].
  simpl in H. right.
  destruct (ev_data event !! data_key cls) as [[]|]; try discriminate.
  by eexists.
Qed.

Lemma step_insert cls event m :
  Inv cls m ->
  well_typed cls event = true ->
  (forall k, key_of cls (ev_data event) = Some k -> cells m !! k = None) ->
  exists m' new,
    process_event cls event m = (m', Return tt) /\
    Inv cls m' /\
    Forall2 (created (ev_data event)) (headers cls) new /\
    store m' = store m ++ new /\
    Permutation (rows m')
      (mk_Row (block (length (headers cls)) (length (rows m))) false :: rows m) /\
    (sorting cls = false ->
     rows m' = mk_Row (block (length (headers cls)) (length (rows m))) false :: rows m) /\
    cells m' =
      match key_of cls (ev_data event) with
      | Some k => <[k := register_live (headers cls) (length (store m)) []]> (cells m)
      | None => cells m
      end.
Proof.
  intros HI Hty Hnew.
  pose proof (well_typed_renders _ _ Hty) as Hr.
  pose proof (Inv_sorting_off cls m HI) as HI0.
  destruct (sorting_off_fields cls m) as (Er & Es & Ec).
  destruct (insert_new_row_spec cls (ev_data event) (sorting_off cls m) Hr)
    as (new & Hcr & Hun & Hke).
  rewrite Es, Er, Ec in Hun, Hke.
  assert (block (length (headers cls)) (length (rows m)) =
          Some <$> seq (length (store m)) (length (headers cls))) as Hb.
  { unfold block. by rewrite (inv_store _ _ HI). }
  rewrite process_event_dispatch.
  destruct (well_typed_key _ _ Hty) as [[Hk Hko]|(k & Hk & Hd & Hko)].
  - unfold dispatch. rewrite Hk. simpl. rewrite (Hun Hk).
    eexists _, new. split; [reflexivity|].
    match goal with |- Inv _ (sorting_on _ ?m1) /\ _ =>
      destruct (sorting_on_rows cls m1) as (P1 & P2 & P3 & P4) end.
    simpl in *. rewrite Hko, Hb.
    split; [|repeat split; try done].
    apply Inv_sorting_on.
    apply (Inv_insert cls (ev_data event) m); try done.
    + intros k' rc' H. by left.
    + rewrite (inv_size _ _ HI). by rewrite Hk.
  - specialize (Hnew k Hko).
    unfold dispatch. apply String.eqb_neq in Hk as Hk'. rewrite Hk'.
    unfold bind at 1. unfold lift, get_key, getattr. rewrite Hd.
    unfold bind at 1. unfold gets. rewrite Ec.
    rewrite bool_decide_eq_false_2 by (rewrite Hnew; by intros [? ?]).
    rewrite (Hke k Hk Hd).
    eexists _, new. split; [reflexivity|].
    match goal with |- Inv _ (sorting_on _ ?m1) /\ _ =>
      destruct (sorting_on_rows cls m1) as (P1 & P2 & P3 & P4) end.
    simpl in *. rewrite Hko, Hb.
    split; [|repeat split; try done].
    apply Inv_sorting_on.
    apply (Inv_insert cls (ev_data event) m); try done.
    + intros k' rc' H. destruct (decide (k = k')) as [<-|Hne].
      * rewrite lookup_insert_eq in H. injection H as <-. by right.
      * rewrite lookup_insert_ne in H by done. by left.
    + rewrite map_size_insert_None by done.
      rewrite (inv_size _ _ HI). by rewrite Hk'.
Qed.


Lemma forallb_lookup {A} (f : A -> bool) (l : list A) i x :
  forallb f l = true -> l !! i = Some x -> f x = true.
Proof.
  intros H Hi. rewrite forallb_forall in H. apply H.
  apply list_elem_of_In. by eapply list_elem_of_lookup_2.
Qed.

Lemma registry_updatable cls event m k rc :
  Inv cls m ->
  well_typed cls event = true ->
  cells m !! k = Some rc ->
  Forall (updatable (ev_data event) (store m)) rc.
Proof.
  intros HI Hty Hk.
  destruct (inv_cells _ _ HI k rc Hk) as (i & Hi & ->).
  apply Forall_forall. intros [h id] Hin.
  apply register_live_entries in Hin as [Hin|(j & s & Hj & _ & ->)];
    [by apply elem_of_nil in Hin|].
  pose proof (lookup_lt_Some _ _ _ Hj) as Hjn.
  assert (i * length (headers cls) + j < length (store m)) as Hlt.
  { rewrite (inv_store _ _ HI). nia. }
  destruct (lookup_lt_is_Some_2 _ _ Hlt) as [c Hc].
  destruct (inv_class _ _ HI _ _ Hc) as (h' & Hh' & Hcl).
  rewrite Nat.add_comm, Nat.Div0.mod_add, Nat.mod_small in Hh' by done.
  rewrite Hj in Hh'. injection Hh' as <-.
  pose proof (forallb_lookup _ _ _ _ (well_typed_renders _ _ Hty) Hj) as Hr.
  unfold renders in Hr. simpl in Hr.
  destruct (ev_data event !! h) as [v|] eqn:Hv; [|discriminate].
  exists v, c. simpl. rewrite Hcl. done.
Qed.

Lemma step_update cls event m k rc :
  Inv cls m ->
  well_typed cls event = true ->
  key_of cls (ev_data event) = Some k ->
  cells m !! k = Some rc ->
  exists m',
    process_event cls event m = (m', Return tt) /\
    Inv cls m' /\
    Permutation (rows m') (rows m) /\
    (sorting cls = false -> rows m' = rows m) /\
    cells m' = cells m /\
    classes (store m') = classes (store m) /\
    (forall id, id ∉ snd <$> rc -> store m' !! id = store m !! id) /\
    (NoDup (snd <$> rc) ->
     forall h id, (h, id) ∈ rc ->
       exists v c c', ev_data event !! h = Some v /\ store m !! id = Some c /\
                      set_content v (ev_data event) c = Return c' /\
                      store m' !! id = Some c').
Proof.
  intros HI Hty Hko Hk.
  pose proof (registry_updatable _ _ _ _ _ HI Hty Hk) as Hupd.
  destruct (sorting_off_fields cls m) as (Er & Es & Ec).
  destruct (update_cells_spec (ev_data event) rc (sorting_off cls m))
    as (st' & Hrun & Hcl & Hframe & Hset); [by rewrite Es|].
  rewrite Es in Hcl, Hframe, Hset.
  destruct (well_typed_key _ _ Hty) as [[_ Hn]|(k' & Hne & Hd & Hk')];
    [congruence|].
  assert (k' = k) as -> by congruence.
  rewrite process_event_dispatch.
  unfold dispatch. apply String.eqb_neq in Hne as Hne'. rewrite Hne'.
  unfold bind at 1. unfold lift, get_key, getattr. rewrite Hd.
  unfold bind at 1. unfold gets. rewrite Ec.
  rewrite bool_decide_eq_true_2 by (rewrite Hk; by eexists).
  unfold update_old_row.
  unfold bind at 1. unfold lift, get_key, getattr. rewrite Hd.
  unfold bind at 1. unfold cells_get. rewrite Ec, Hk.
  rewrite Hrun.
  eexists. split; [reflexivity|].
  match goal with |- Inv _ (sorting_on _ ?m1) /\ _ =>
    destruct (sorting_on_rows cls m1) as (P1 & P2 & P3 & P4) end.
  unfold set_store in *. simpl in *.
  rewrite P3, P4, Er, Ec in *.
  split; [|repeat split; try done].
  - apply Inv_sorting_on.
    apply (Inv_rows_perm cls (set_store st' m) (rows m)); [|done].
    by apply Inv_store.
Qed.


Lemma process_events_snoc cls events event m :
  process_events cls (events ++ [event]) m =
    let (m1, es) := process_events cls events m in
    match process_event cls event m1 with
    | (m2, Return _) => (m2, es)
    | (m2, Raise e) => (m2, es ++ [e])
    end.
Proof.
  revert m. induction events as [|e0 events IH]; intros m; simpl.
  - destruct (process_event cls event m) as [m2 [[]|e]]; reflexivity.
  - destruct (process_event cls e0 m) as [m1 [[]|e]].
    + apply IH.
    + rewrite IH. destruct (process_events cls events m1) as [m1' es].
      destruct (process_event cls event m1') as [m2 [[]|e']]; reflexivity.
Qed.

(** Any record of the class is processed without an exception, keeps the
    invariant and adds a row exactly when its key is not registered. *)
Lemma step_any cls event m :
  Inv cls m ->
  well_typed cls event = true ->
  exists m',
    process_event cls event m = (m', Return tt) /\
    Inv cls m' /\
    length (rows m') =
      match key_of cls (ev_data event) with
      | Some k =>
          match cells m !! k with
          | Some _ => length (rows m)
          | None => S (length (rows m))
          end
      | None => S (length (rows m))
      end.
Proof.
  intros HI Hty.
  destruct (key_of cls (ev_data event)) as [k|] eqn:Hk.
  - destruct (cells m !! k) as [rc|] eqn:Hc.
    + destruct (step_update _ _ _ _ _ HI Hty Hk Hc) as (m' & Hrun & HI' & Hp & _).
      exists m'. split; [done|]. split; [done|]. by apply Permutation_length.
    + destruct (step_insert cls event m HI Hty) as (m' & new & Hrun & HI' & _ & _ & Hp & _).
      { intros k' Hk'. congruence. }
      exists m'. split; [done|]. split; [done|]. by rewrite (Permutation_length Hp).
  - destruct (step_insert cls event m HI Hty) as (m' & new & Hrun & HI' & _ & _ & Hp & _).
    { intros k' Hk'. congruence. }
    exists m'. split; [done|]. split; [done|]. by rewrite (Permutation_length Hp).
Qed.

Lemma process_events_ok cls events :
  forall m,
    Inv cls m ->
    forallb (well_typed cls) events = true ->
    exists m', process_events cls events m = (m', []) /\ Inv cls m'.
Proof.
  induction events as [|event events IH]; intros m HI Hty; simpl.
  - by exists m.
  - simpl in Hty. apply andb_true_iff in Hty as [Hty Htys].
    destruct (step_any _ _ _ HI Hty) as (m1 & Hrun & HI1 & _).
    rewrite Hrun. by apply IH.
Qed.

End MonitorProperties.

Section ExportClaims.
Context `{RT : Runtime} {HT : Host}.
Local Open Scope monitor_scope.
Local Open Scope nat_scope.
Local Open Scope list_scope.

Lemma csv_columns_loop m row r :
  rows m !! row = Some r ->
  forall cols acc,
    fold_left
      (fun (row_data : list string) column =>
         match item m row column with
         | Some c => row_data ++ [text c]
         | None => row_data ++ [""%string]
         end) cols acc =
    acc ++
    ((fun column =>
        match items r !! column with
        | Some (Some id) => match store m !! id with Some c => text c | None => ""%string end
        | _ => ""%string
        end) <$> cols).
Proof.
  intros Hr. induction cols as [|column cols IH]; intros acc; simpl.
  - by rewrite app_nil_r.
  - rewrite IH. unfold item. rewrite Hr.
    destruct (items r !! column) as [[id|]|]; simpl;
      [destruct (store m !! id)|..]; by rewrite <- app_assoc.
Qed.

Lemma csv_row_data_rendered m ncols row r :
  rows m !! row = Some r ->
  csv_row_data m ncols row = rendered_texts m ncols r.
Proof.
  intros Hr. unfold csv_row_data, rendered_texts.
  by rewrite (csv_columns_loop m row r Hr).
Qed.

Lemma csv_rows_loop cls m :
  forall rs pre acc,
    rows m = pre ++ rs ->
    fold_left
      (fun (written : list (list string)) row =>
         if isRowHidden m row then written
         else written ++ [csv_row_data m (length (headers cls)) row])
      (seq (length pre) (length rs)) acc =
    acc ++ (rendered_texts m (length (headers cls)) <$>
              filter (fun r => hidden r = false) rs).
Proof.
  induction rs as [|r rs IH]; intros pre acc Hrows; simpl.
  - by rewrite app_nil_r.
  - assert (rows m !! length pre = Some r) as Hr.
    { rewrite Hrows. by rewrite list_lookup_middle. }
    specialize (IH (pre ++ [r])). rewrite length_app in IH. simpl in IH.
    replace (length pre + 1) with (S (length pre)) in IH by lia.
    rewrite IH by (by rewrite <- app_assoc).
    unfold isRowHidden. rewrite Hr.
    rewrite filter_cons.
    destruct (hidden r) eqn:Hh.
    + by rewrite decide_False by done.
    + rewrite decide_True by done. rewrite fmap_cons.
      rewrite (csv_row_data_rendered _ _ _ _ Hr). by rewrite <- app_assoc.
Qed.

(** C6. When the file dialog gives a path, save_csv writes the line of the
    column display labels first and then, in the table's display order, one
    line per row that is not hidden, made of the text of the row's cells;
    a hidden row contributes nothing, so the export has one line more than
    the table has visible rows. *)
Theorem save_csv_exports_visible_rows :
  forall (cls : MonitorClass) (path : string) (m : Monitor),
    path <> ""%string ->
    save_csv cls path m = Some (csv_of_visible_rows cls m) /\
    length (csv_of_visible_rows cls m) = S (length (visible_rows m)) /\
    head (csv_of_visible_rows cls m) = Some ((fun d => display (snd d)) <$> headers cls) /\
    (forall i r, visible_rows m !! i = Some r ->
       hidden r = false /\
       csv_of_visible_rows cls m !! S i = Some (rendered_texts m (length (headers cls)) r)).
Proof.
  intros cls path m Hpath. split; [|split; [|split]].
  - unfold save_csv. apply String.eqb_neq in Hpath. rewrite Hpath.
    unfold rowCount, csv_of_visible_rows, visible_rows.
    by rewrite (csv_rows_loop cls m (rows m) [] _ eq_refl).
  - unfold csv_of_visible_rows. simpl. by rewrite length_fmap.
  - reflexivity.
  - intros i r Hi. split.
    + apply list_elem_of_lookup_2 in Hi. unfold visible_rows in Hi.
      by apply list_elem_of_filter in Hi as [? _].
    + unfold csv_of_visible_rows. simpl. by rewrite list_lookup_fmap, Hi.
Qed.

End ExportClaims.

Section TableClaims.
Context `{RT : Runtime} {HT : Host}.
Local Open Scope monitor_scope.
Local Open Scope nat_scope.
Local Open Scope list_scope.

Lemma same_key_run cls k r :
  forall events m,
    Inv cls m ->
    rows m = [r] ->
    is_Some (cells m !! k) ->
    forallb (well_typed cls) events = true ->
    forallb (fun e => bool_decide (key_of cls (ev_data e) = Some k)) events = true ->
    exists m',
      process_events cls events m = (m', []) /\
      rows m' = [r] /\ cells m' = cells m.
Proof.
  induction events as [|event events IH]; intros m HI Hr [rc Hk] Hty Hkeys; simpl.
  - by exists m.
  - simpl in Hty, Hkeys.
    apply andb_true_iff in Hty as [Hty Htys].
    apply andb_true_iff in Hkeys as [Hkey Hkeys].
    apply bool_decide_eq_true in Hkey.
    destruct (step_update _ _ _ _ _ HI Hty Hkey Hk)
      as (m1 & Hrun & HI1 & Hp & _ & Hc & _).
    rewrite Hrun. rewrite Hr in Hp. apply Permutation_singleton_r in Hp.
    destruct (IH m1 HI1 Hp) as (m' & Hrun' & Hr' & Hc'); try done.
    { rewrite Hc. by exists rc. }
    exists m'. split; [done|]. split; [done|]. by rewrite Hc'.
Qed.

Lemma dict_set_ids k v d :
  NoDup (snd <$> d) -> v ∉ snd <$> d ->
  NoDup (snd <$> dict_set k v d) /\
  (forall id, id ∈ snd <$> dict_set k v d -> id = v \/ id ∈ snd <$> d).
Proof.
  induction d as [|[k' v'] d IH]; intros Hnd Hv.
  - split; [repeat constructor; by inversion 1|].
    intros id H. apply list_elem_of_singleton in H. by left.
  - rewrite fmap_cons in Hnd, Hv. cbn [snd] in Hnd, Hv.
    apply NoDup_cons in Hnd as [Hv' Hnd].
    apply not_elem_of_cons in Hv as [Hne Hv].
    cbn [dict_set]. destruct (String.eqb k' k).
    + rewrite !fmap_cons. cbn [snd]. split; [by apply NoDup_cons|].
      intros id H. apply elem_of_cons in H as [->|H]; [by left|].
      right. by apply elem_of_cons; right.
    + destruct (IH Hnd Hv) as [IH1 IH2].
      rewrite !fmap_cons. cbn [snd]. split.
      * apply NoDup_cons. split; [|done].
        intros H. apply IH2 in H as [->|H]; [done|]. by apply Hv'.
      * intros id H. apply elem_of_cons in H as [->|H].
        -- right. by apply elem_of_cons; left.
        -- apply IH2 in H as [->|H]; [by left|]. right. by apply elem_of_cons; right.
Qed.

Lemma register_live_ids hs :
  forall first rc,
    NoDup (snd <$> rc) ->
    (forall id, id ∈ snd <$> rc -> id < first) ->
    NoDup (snd <$> register_live hs first rc).
Proof.
  induction hs as [|[header setting] hs IH]; intros first rc Hnd Hlt; simpl; [done|].
  destruct (update setting).
  - assert (first ∉ snd <$> rc) as Hfresh.
    { intros H. apply Hlt in H. lia. }
    destruct (dict_set_ids header first rc Hnd Hfresh) as [H1 H2].
    apply IH; [done|]. intros id H. apply H2 in H as [->|H]; [lia|].
    apply Hlt in H. lia.
  - apply IH; [done|]. intros id H. apply Hlt in H. lia.
Qed.

(** Every event of a run of events that carry a registered key re-renders
    the registered cells of the one row and leaves the rest of the table as
    it is. *)
Lemma same_key_steps cls k r rc :
  forall events m,
    Inv cls m ->
    rows m = [r] ->
    cells m !! k = Some rc ->
    forallb (well_typed cls) events = true ->
    forallb (fun e => bool_decide (key_of cls (ev_data e) = Some k)) events = true ->
    forall before e after,
      events = before ++ e :: after ->
      exists m0 m2,
        process_events cls before m = (m0, []) /\
        process_event cls e m0 = (m2, Return tt) /\
        rows m0 = [r] /\ rows m2 = [r] /\
        cells m0 = cells m /\ cells m2 = cells m /\
        (forall h id, (h, id) ∈ rc ->
           exists v c c',
             ev_data e !! h = Some v /\ store m0 !! id = Some c /\
             set_content v (ev_data e) c = Return c' /\
             store m2 !! id = Some c') /\
        (forall id, id ∉ snd <$> rc -> store m2 !! id = store m0 !! id).
Proof.
  intros events m HI Hr Hk Hty Hkeys before e after ->.
  rewrite forallb_app in Hty, Hkeys.
  apply andb_true_iff in Hty as [Htyb Hty].
  apply andb_true_iff in Hkeys as [Hkeysb Hkeys].
  simpl in Hty, Hkeys.
  apply andb_true_iff in Hty as [Hty _].
  apply andb_true_iff in Hkeys as [Hkey _].
  apply bool_decide_eq_true in Hkey.
  destruct (same_key_run cls k r before m HI Hr (ex_intro _ rc Hk) Htyb Hkeysb)
    as (m0 & Hrun & Hr0 & Hc0).
  destruct (process_events_ok cls before m HI Htyb) as (m0' & Hrun' & HI0).
  assert (m0' = m0) as -> by congruence.
  assert (cells m0 !! k = Some rc) as Hk0 by (by rewrite Hc0).
  destruct (step_update _ _ _ _ _ HI0 Hty Hkey Hk0)
    as (m2 & Hstep & _ & Hp & _ & Hc & _ & Hframe & Hupd).
  rewrite Hr0 in Hp. apply Permutation_singleton_r in Hp.
  exists m0, m2. split; [done|]. split; [done|]. split; [done|]. split; [done|].
  split; [done|]. split; [by rewrite Hc|]. split; [|done].
  apply Hupd.
  destruct (inv_cells _ _ HI k rc Hk) as (i & _ & ->).
  apply register_live_ids; [constructor|].
  intros id H. by apply elem_of_nil in H.
Qed.

(** C1. On a table whose class has a row-key field, a sequence of events
    that all carry the same key leaves exactly one row: the first event
    inserts it and registers the cells of its live-updated headers under the
    key; every later one is processed without an exception, re-renders each
    of those registered cells of the row, in place, with set_content from
    its own record, changes no other cell, adds no row and leaves the
    registry as it is.  The row stays the only row of the table and the
    registry holds that key and no other. *)
Theorem same_key_events_keep_one_row :
  forall (cls : MonitorClass) (k : string) (event : Event) (events : list Event),
    forallb (well_typed cls) (event :: events) = true ->
    forallb (fun e => bool_decide (key_of cls (ev_data e) = Some k)) (event :: events) = true ->
    exists m1 m' row rc,
      process_event cls event (fresh_monitor cls) = (m1, Return tt) /\
      process_events cls (event :: events) (fresh_monitor cls) = (m', []) /\
      rows m1 = [row] /\
      rows m' = [row] /\
      rowCount m' = 1 /\
      items row = block (length (headers cls)) 0 /\
      dom (cells m') = {[ k ]} /\
      cells m1 !! k = Some rc /\
      (well_formed cls = true -> rc = live_entries (headers cls) 0) /\
      (forall h id, (h, id) ∈ rc -> Some id ∈ items row) /\
      (forall before e after,
         events = before ++ e :: after ->
         exists m m2,
           process_events cls (event :: before) (fresh_monitor cls) = (m, []) /\
           process_event cls e m = (m2, Return tt) /\
           rows m = [row] /\ rows m2 = [row] /\
           cells m = cells m1 /\ cells m2 = cells m1 /\
           (forall h id, (h, id) ∈ rc ->
              exists v c c',
                ev_data e !! h = Some v /\ store m !! id = Some c /\
                set_content v (ev_data e) c = Return c' /\
                store m2 !! id = Some c') /\
           (forall id, id ∉ snd <$> rc -> store m2 !! id = store m !! id)).
Proof.
  intros cls k event events Hty Hkeys.
  simpl in Hty, Hkeys.
  apply andb_true_iff in Hty as [Hty Htys].
  apply andb_true_iff in Hkeys as [Hkey Hkeys].
  apply bool_decide_eq_true in Hkey.
  destruct (step_insert cls event (fresh_monitor cls) (Inv_fresh cls) Hty)
    as (m1 & new & Hrun & HI1 & _ & _ & Hp & _ & Hc).
  { intros k' _. apply lookup_empty. }
  simpl in Hp. apply Permutation_singleton_r in Hp.
  rewrite Hkey in Hc. simpl in Hc.
  assert (cells m1 !! k = Some (register_live (headers cls) 0 [])) as Hk1.
  { rewrite Hc. by rewrite lookup_insert_eq. }
  destruct (same_key_run cls k _ events m1 HI1 Hp (ex_intro _ _ Hk1) Htys Hkeys)
    as (m' & Hrun' & Hr' & Hc').
  exists m1, m', (mk_Row (block (length (headers cls)) 0) false),
    (register_live (headers cls) 0 []).
  split; [done|]. split; [by simpl; rewrite Hrun|].
  split; [done|]. split; [done|]. split; [by unfold rowCount; rewrite Hr'|].
  split; [done|].
  split; [rewrite Hc', Hc; by rewrite dom_insert_L, dom_empty_L, union_empty_r_L|].
  split; [done|].
  split; [intros Hwf; apply bool_decide_eq_true in Hwf;
          by rewrite register_live_fresh|].
  split.
  - intros h id Hin.
    apply register_live_entries in Hin as [Hin|(j & s & Hj & _ & ->)];
      [by apply elem_of_nil in Hin|].
    apply lookup_lt_Some in Hj. cbn [items]. unfold block.
    apply list_elem_of_fmap. exists j. split; [done|].
    apply list_elem_of_In, in_seq. lia.
  - intros before e after Hsplit.
    destruct (same_key_steps cls k _ _ events m1 HI1 Hp Hk1 Htys Hkeys
                before e after Hsplit)
      as (m & m2 & Hb & Hstep & Hrm & Hrm2 & Hcm & Hcm2 & Hupd & Hframe).
    exists m, m2. split; [by simpl; rewrite Hrun|]. done.
Qed.

Lemma keyless_run cls :
  data_key cls = ""%string ->
  forall events m,
    Inv cls m ->
    forallb (well_typed cls) events = true ->
    exists m',
      process_events cls events m = (m', []) /\
      Inv cls m' /\
      length (rows m') = length (rows m) + length events /\
      cells m' = cells m.
Proof.
  intros Hk. induction events as [|event events IH]; intros m HI Hty; simpl.
  - exists m. split; [done|]. split; [done|]. split; [lia|done].
  - simpl in Hty. apply andb_true_iff in Hty as [Hty Htys].
    destruct (step_insert cls event m HI Hty)
      as (m1 & new & Hrun & HI1 & _ & _ & Hp & _ & Hc).
    { intros k' Hk'. unfold key_of in Hk'. by rewrite Hk in Hk'. }
    rewrite Hrun.
    destruct (IH m1 HI1 Htys) as (m' & Hrun' & HI' & Hlen & Hc').
    exists m'. split; [done|]. split; [done|].
    apply Permutation_length in Hp. simpl in Hp.
    split; [lia|].
    rewrite Hc', Hc. unfold key_of. by rewrite Hk.
Qed.

(** C2. On a table whose class has no row-key field, every event is
    inserted: insert_new_row puts the new row at index 0, above the rows
    already there, and after N events the table has N rows.  A class that
    does not sort keeps the new row at index 0; a class that sorts has its
    rows rearranged by the toolkit when sorting is switched back on. *)
Theorem keyless_events_append_rows :
  forall (cls : MonitorClass) (events : list Event) (event : Event),
    data_key cls = ""%string ->
    forallb (well_typed cls) (events ++ [event]) = true ->
    exists m m1 m',
      let row := mk_Row (block (length (headers cls)) (length events)) false in
      process_events cls events (fresh_monitor cls) = (m, []) /\
      rowCount m = length events /\
      insert_new_row cls (ev_data event) (sorting_off cls m) = (m1, Return tt) /\
      rows m1 = row :: rows m /\
      rows m1 !! 0 = Some row /\
      process_event cls event m = (m', Return tt) /\
      process_events cls (events ++ [event]) (fresh_monitor cls) = (m', []) /\
      m' = sorting_on cls m1 /\
      Permutation (rows m') (row :: rows m) /\
      (sorting cls = false -> rows m' = row :: rows m) /\
      rowCount m' = length (events ++ [event]) /\
      cells m' = ∅.
Proof.
  intros cls events event Hk Hty.
  rewrite forallb_app in Hty. apply andb_true_iff in Hty as [Htys Hty].
  simpl in Hty. rewrite andb_true_r in Hty.
  destruct (keyless_run cls Hk events (fresh_monitor cls) (Inv_fresh cls) Htys)
    as (m & Hrun & HI & Hlen & Hc).
  simpl in Hlen, Hc.
  destruct (insert_new_row_spec cls (ev_data event) (sorting_off cls m)
              (well_typed_renders _ _ Hty)) as (new & Hnew & Hun & _).
  destruct (sorting_off_fields cls m) as (Er & Es & Ec).
  rewrite Er, Es, Ec in Hun. specialize (Hun Hk).
  assert (Some <$> seq (length (store m)) (length (headers cls)) =
          block (length (headers cls)) (length events)) as Hb.
  { unfold block. by rewrite (inv_store _ _ HI), Hlen. }
  rewrite Hb in Hun.
  eexists m, _, _. cbn zeta.
  split; [done|]. split; [done|]. split; [exact Hun|].
  split; [reflexivity|]. split; [reflexivity|].
  assert (process_event cls event m =
          (sorting_on cls
             (mk_Monitor (store m ++ new)
                (mk_Row (block (length (headers cls)) (length events)) false :: rows m)
                (cells m) (sortingEnabled (sorting_off cls m))), Return tt)) as Hstep.
  { rewrite process_event_dispatch. unfold dispatch. rewrite Hk. simpl. by rewrite Hun. }
  split; [exact Hstep|].
  split; [by rewrite process_events_snoc, Hrun, Hstep|].
  split; [reflexivity|].
  match goal with |- context [sorting_on cls ?m1] =>
    destruct (sorting_on_rows cls m1) as (P1 & P2 & P3 & P4) end.
  simpl in P1, P2, P4.
  split; [done|]. split; [done|].
  split.
  - unfold rowCount. rewrite (Permutation_length P1). simpl.
    rewrite length_app. simpl. lia.
  - by rewrite P4.
Qed.

End TableClaims.

Section UpdateClaims.
Context `{RT : Runtime} {HT : Host}.
Local Open Scope monitor_scope.
Local Open Scope nat_scope.
Local Open Scope list_scope.

Lemma live_entries_ids hs :
  forall first,
    NoDup (snd <$> live_entries hs first) /\
    (forall id, id ∈ snd <$> live_entries hs first -> first <= id).
Proof.
  induction hs as [|[header setting] hs IH]; intros first; simpl.
  - split; [constructor|]. intros id H. by apply elem_of_nil in H.
  - destruct (IH (S first)) as [Hnd Hge].
    destruct (update setting); simpl.
    + split.
      * constructor; [|done]. intros H. apply Hge in H. lia.
      * intros id H. apply elem_of_cons in H as [->|H]; [lia|].
        apply Hge in H. lia.
    + split; [done|]. intros id H. apply Hge in H. lia.
Qed.

Lemma Inv_block_row cls m i :
  Inv cls m -> i < length (rows m) ->
  exists r, r ∈ rows m /\ items r = block (length (headers cls)) i.
Proof.
  intros HI Hi. destruct (inv_rows _ _ HI) as (bs & Hbs & Hit).
  assert (i ∈ bs) as Hin.
  { rewrite Hbs. apply list_elem_of_In, in_seq. lia. }
  assert (block (length (headers cls)) i ∈ items <$> rows m) as Hb.
  { rewrite Hit. apply list_elem_of_fmap. by exists i. }
  apply list_elem_of_fmap in Hb as (r & Hr & Hrin). by exists r.
Qed.

(** C8. An event whose key is already registered takes the UPDATE path.
    The registry entry made when the row was inserted holds exactly the
    cells of the live-updated headers of that row; the event re-renders each
    of them with set_content from the new record, and leaves every other
    cell of the store, the static cells of the row among them, as it was.
    No row is added and the registry is unchanged. *)
Theorem update_rerenders_live_cells_only :
  forall (cls : MonitorClass) (events : list Event) (event : Event) (k : string),
    well_formed cls = true ->
    forallb (well_typed cls) (events ++ [event]) = true ->
    key_of cls (ev_data event) = Some k ->
    is_Some (cells (fst (process_events cls events (fresh_monitor cls))) !! k) ->
    exists m m' i r,
      let n := length (headers cls) in
      process_events cls events (fresh_monitor cls) = (m, []) /\
      process_event cls event m = (m', Return tt) /\
      cells m !! k = Some (live_entries (headers cls) (i * n)) /\
      r ∈ rows m /\ items r = block n i /\
      cells m' = cells m /\
      Permutation (rows m') (rows m) /\
      (forall j h s, headers cls !! j = Some (h, s) ->
         if update s
         then exists v c c',
                ev_data event !! h = Some v /\
                store m !! (i * n + j) = Some c /\
                set_content v (ev_data event) c = Return c' /\
                store m' !! (i * n + j) = Some c'
         else store m' !! (i * n + j) = store m !! (i * n + j)) /\
      (forall id, id ∉ snd <$> live_entries (headers cls) (i * n) ->
         store m' !! id = store m !! id).
Proof.
  intros cls events event k Hwf Hty Hkey Hreg.
  rewrite forallb_app in Hty. apply andb_true_iff in Hty as [Htys Hty].
  simpl in Hty. rewrite andb_true_r in Hty.
  destruct (process_events_ok cls events (fresh_monitor cls) (Inv_fresh cls) Htys)
    as (m & Hrun & HI).
  rewrite Hrun in Hreg. simpl in Hreg. destruct Hreg as [rc Hrc].
  destruct (inv_cells _ _ HI k rc Hrc) as (i & Hi & Hrc').
  apply bool_decide_eq_true in Hwf.
  rewrite register_live_fresh in Hrc' by done. simpl in Hrc'. subst rc.
  destruct (step_update _ _ _ _ _ HI Hty Hkey Hrc)
    as (m' & Hstep & _ & Hp & _ & Hc & _ & Hframe & Hupd).
  destruct (Inv_block_row cls m i HI Hi) as (r & Hr & Hitems).
  destruct (live_entries_ids (headers cls) (i * length (headers cls))) as [Hnd _].
  exists m, m', i, r. cbn zeta.
  split; [done|]. split; [done|]. split; [done|]. split; [done|].
  split; [done|]. split; [done|]. split; [done|]. split; [|done].
  intros j h s Hj. destruct (update s) eqn:Hu.
  - apply (Hupd Hnd h). apply live_entries_spec. by exists j, s.
  - apply Hframe. intros Hin.
    apply list_elem_of_fmap in Hin as ([h' id] & Hid & Hin). simpl in Hid. subst id.
    apply live_entries_spec in Hin as (j' & s' & Hj' & Hu' & Heq).
    assert (j' = j) as -> by lia. congruence.
Qed.

End UpdateClaims.

Section ActiveOrderClaims.
Context `{RT : Runtime} {HT : Host}.
Local Open Scope monitor_scope.
Local Open Scope nat_scope.
Local Open Scope list_scope.

Lemma row_of_Some id rs :
  forall r, row_of id rs = Some r ->
    exists row, rs !! r = Some row /\ Some id ∈ items row.
Proof.
  induction rs as [|r0 rs IH]; intros r; simpl; [discriminate|].
  case_bool_decide as Hin.
  - intros [= <-]. by exists r0.
  - destruct (row_of id rs) as [r'|]; simpl; [|discriminate].
    intros [= <-]. destruct (IH r' eq_refl) as (row & Hr & Hrow).
    by exists row.
Qed.

Lemma row_of_exists id rs row :
  row ∈ rs -> Some id ∈ items row -> is_Some (row_of id rs).
Proof.
  induction rs as [|r0 rs IH]; intros Hin Hid; simpl.
  - by apply elem_of_nil in Hin.
  - case_bool_decide as H0; [by eexists|].
    apply elem_of_cons in Hin as [->|Hin]; [done|].
    destruct (IH Hin Hid) as [r Hr]. rewrite Hr. by eexists.
Qed.

Lemma row_of_alter_hidden id b i rs :
  row_of id (alter (fun r => mk_Row (items r) b) i rs) = row_of id rs.
Proof.
  revert i. induction rs as [|r0 rs IH]; intros i; simpl; [done|].
  destruct i as [|i]; simpl.
  - done.
  - case_bool_decide; [done|]. f_equal. apply IH.
Qed.

Lemma elem_of_block n i id :
  Some id ∈ block n i <-> i * n <= id < i * n + n.
Proof.
  unfold block. rewrite list_elem_of_fmap. split.
  - intros (x & [= ->] & Hx). apply list_elem_of_In, in_seq in Hx. lia.
  - intros H. exists id. split; [done|]. apply list_elem_of_In, in_seq. lia.
Qed.

(** A cell is an item of one row only. *)
Lemma Inv_row_unique cls m id r1 r2 row1 row2 :
  Inv cls m ->
  rows m !! r1 = Some row1 -> Some id ∈ items row1 ->
  rows m !! r2 = Some row2 -> Some id ∈ items row2 ->
  r1 = r2.
Proof.
  intros HI H1 Hi1 H2 Hi2.
  destruct (inv_rows _ _ HI) as (bs & Hbs & Hit).
  assert (forall r row, rows m !! r = Some row -> Some id ∈ items row ->
            exists b, bs !! r = Some b /\ b * length (headers cls) <= id
                      < b * length (headers cls) + length (headers cls)) as Hb.
  { intros r row Hr Hin.
    assert ((items <$> rows m) !! r = Some (items row)) as H
      by (by rewrite list_lookup_fmap, Hr).
    rewrite Hit, list_lookup_fmap in H.
    destruct (bs !! r) as [b|] eqn:Eb; [|discriminate].
    simpl in H. injection H as H. exists b. split; [done|].
    apply elem_of_block. by rewrite H. }
  destruct (Hb _ _ H1 Hi1) as (b1 & Hb1 & Hr1).
  destruct (Hb _ _ H2 Hi2) as (b2 & Hb2 & Hr2).
  assert (b1 = b2) as -> by nia.
  assert (NoDup bs) as Hnd by (rewrite Hbs; apply NoDup_ListNoDup, seq_NoDup).
  by eapply NoDup_lookup.
Qed.

Lemma OrderMonitor_registry first :
  register_live (headers OrderMonitor) first [] =
    [("volume"%string, first + 8); ("traded"%string, first + 9);
     ("status"%string, first + 10); ("datetime"%string, first + 11)].
Proof.
  cbn. repeat f_equal; lia.
Qed.

Lemma OrderMonitor_key_of data k :
  key_of OrderMonitor data = Some k <-> data !! "vt_orderid"%string = Some (VStr k).
Proof.
  unfold key_of. simpl. split.
  - destruct (data !! "vt_orderid"%string) as [[]|]; try discriminate. by intros [= ->].
  - by intros ->.
Qed.


Lemma BaseCell_new_data v data c :
  new_cell BaseCell v data = Return c -> _data c = Some data.
Proof. unfold new_cell, set_content. simpl. by intros [= <-]. Qed.

Lemma BaseCell_set_data v data c c' :
  cell_class c = BaseCell -> set_content v data c = Return c' -> _data c' = Some data.
Proof. unfold set_content. intros ->. by intros [= <-]. Qed.

Lemma NoDup_volume_cells a : NoDup [a + 8; a + 9; a + 10; a + 11].
Proof.
  repeat (apply NoDup_cons; split; [rewrite ?elem_of_cons, elem_of_nil; lia|]).
  apply NoDup_nil_2.
Qed.

(** The base class's process_event on an order: the order's key is
    registered afterwards, with the live cells of one row, and the volume
    cell of that row carries the order. *)
Lemma order_step event m k :
  Inv OrderMonitor m ->
  well_typed OrderMonitor event = true ->
  ev_data event !! "vt_orderid"%string = Some (VStr k) ->
  exists m1 i c,
    process_event OrderMonitor event m = (m1, Return tt) /\
    Inv OrderMonitor m1 /\
    i < length (rows m1) /\
    cells m1 !! k = Some (register_live (headers OrderMonitor) (i * 13) []) /\
    store m1 !! (i * 13 + 8) = Some c /\
    _data c = Some (ev_data event).
Proof.
  intros HI Hty Hd.
  pose proof (proj2 (OrderMonitor_key_of _ _) Hd) as Hkey.
  pose proof (inv_store _ _ HI) as Hst.
  change (length (headers OrderMonitor)) with 13 in Hst.
  destruct (cells m !! k) as [rc|] eqn:Hc.
  - destruct (inv_cells _ _ HI k rc Hc) as (i & Hi & Hrc).
    change (length (headers OrderMonitor)) with 13 in Hrc.
    destruct (step_update _ _ _ _ _ HI Hty Hkey Hc)
      as (m1 & Hrun & HI1 & Hp & _ & Hcs & _ & _ & Hupd).
    rewrite Hrc, OrderMonitor_registry in Hupd. simpl in Hupd.
    destruct (Hupd (NoDup_volume_cells _) "volume"%string (i * 13 + 8))
      as (v & c & c' & Hv & Hsc & Hset & Hsc'); [by apply elem_of_cons; left|].
    destruct (inv_class _ _ HI _ _ Hsc) as (h & Hh & Hcl).
    change (length (headers OrderMonitor)) with 13 in Hh.
    rewrite Nat.add_comm, Nat.Div0.mod_add in Hh. simpl in Hh.
    injection Hh as <-. simpl in Hcl.
    exists m1, i, c'. split; [done|]. split; [done|].
    split; [by rewrite (Permutation_length Hp)|].
    split; [by rewrite Hcs, Hc, Hrc|].
    split; [done|]. by eapply BaseCell_set_data.
  - destruct (step_insert OrderMonitor event m HI Hty)
      as (m1 & new & Hrun & HI1 & Hnew & Hs & Hp & _ & Hcs).
    { intros k' Hk'. congruence. }
    rewrite Hkey in Hcs.
    assert (headers OrderMonitor !! 8 =
            Some ("volume"%string, mk_Setting "总数量" BaseCell true)) as H8 by reflexivity.
    destruct (Forall2_lookup_l _ _ _ _ _ Hnew H8) as (c & Hc8 & _ & v & _ & Hnc).
    simpl in Hnc.
    exists m1, (length (rows m)), c. split; [done|]. split; [done|].
    split; [rewrite (Permutation_length Hp); simpl; lia|].
    split; [by rewrite Hcs, lookup_insert_eq, Hst|].
    split; [|by eapply BaseCell_new_data].
    rewrite Hs, <- Hst. rewrite lookup_app_r by lia.
    by replace (length (store m) + 8 - length (store m)) with 8 by lia.
Qed.

Lemma active_step event m k :
  Inv OrderMonitor m ->
  well_typed OrderMonitor event = true ->
  ev_data event !! "vt_orderid"%string = Some (VStr k) ->
  exists m' rc c r row cell,
    ActiveOrderMonitor_process_event event m = (m', Return tt) /\
    Inv OrderMonitor m' /\
    cells m' !! k = Some rc /\
    dict_get "volume" rc = Return c /\
    row_of c (rows m') = Some r /\
    rows m' !! r = Some row /\
    Some c ∈ items row /\
    store m' !! c = Some cell /\
    _data cell = Some (ev_data event) /\
    hidden row = negb (is_active (ev_data event)).
Proof.
  intros HI Hty Hd.
  destruct (order_step event m k HI Hty Hd) as (m1 & i & cell & Hrun & HI1 & Hi & Hc & Hs & Hdata).
  destruct (Inv_block_row _ _ i HI1 Hi) as (r0 & Hr0 & Hit0).
  change (length (headers OrderMonitor)) with 13 in Hit0.
  assert (Some (i * 13 + 8) ∈ items r0) as Hin0.
  { rewrite Hit0. apply elem_of_block. lia. }
  destruct (row_of_exists _ _ _ Hr0 Hin0) as [r Hr].
  destruct (row_of_Some _ _ _ Hr) as (row & Hrow & Hin).
  set (b := negb (is_active (ev_data event))).
  rewrite OrderMonitor_registry in Hc.
  eexists (set_rows (alter (fun r => mk_Row (items r) b) r (rows m1)) m1),
    _, (i * 13 + 8), r, (mk_Row (items row) b), cell.
  split.
  - unfold ActiveOrderMonitor_process_event.
    unfold bind at 1. rewrite Hrun.
    unfold bind at 1. unfold lift, get_key, getattr. rewrite Hd.
    unfold bind at 1. unfold cells_get. rewrite Hc.
    unfold bind at 1. simpl.
    unfold bind at 1. unfold gets. rewrite Hr.
    subst b. destruct (is_active (ev_data event)); reflexivity.
  - split; [by apply Inv_hidden|]. simpl.
    split; [exact Hc|].
    split; [reflexivity|].
    split; [by rewrite row_of_alter_hidden|].
    split; [by rewrite list_lookup_alter_eq, Hrow|].
    done.
Qed.

Lemma active_run :
  forall events m,
    Inv OrderMonitor m ->
    forallb (well_typed OrderMonitor) events = true ->
    exists m', ActiveOrderMonitor_process_events events m = (m', []) /\
               Inv OrderMonitor m'.
Proof.
  induction events as [|event events IH]; intros m HI Hty; simpl.
  - by exists m.
  - simpl in Hty. apply andb_true_iff in Hty as [Hty Htys].
    destruct (well_typed_key _ _ Hty) as [[Hk _]|(k & _ & Hd & _)]; [done|].
    destruct (active_step event m k HI Hty Hd) as (m1 & ? & ? & ? & ? & ? & Hrun & HI1 & _).
    rewrite Hrun. by apply IH.
Qed.

(** C10. Every order event the active-order monitor processes, after any
    sequence of earlier order events on a fresh monitor, returns without an
    exception: the registry then has an entry for the order's vt_orderid,
    the entry has the volume cell, that cell carries the order and sits in
    exactly one row of the table, and this row is shown when the order is
    active and hidden when it is not. *)
Theorem active_order_row_follows_is_active :
  forall (events : list Event) (event : Event),
    forallb (well_typed OrderMonitor) (events ++ [event]) = true ->
    exists m m' k rc c r row cell,
      ActiveOrderMonitor_process_events events (fresh_monitor OrderMonitor) = (m, []) /\
      ActiveOrderMonitor_process_event event m = (m', Return tt) /\
      ev_data event !! "vt_orderid"%string = Some (VStr k) /\
      cells m' !! k = Some rc /\
      dict_get "volume" rc = Return c /\
      row_of c (rows m') = Some r /\
      rows m' !! r = Some row /\
      Some c ∈ items row /\
      (forall r' row', rows m' !! r' = Some row' -> Some c ∈ items row' -> r' = r) /\
      store m' !! c = Some cell /\
      _data cell = Some (ev_data event) /\
      hidden row = negb (is_active (ev_data event)).
Proof.
  intros events event Hty.
  rewrite forallb_app in Hty. apply andb_true_iff in Hty as [Htys Hty].
  simpl in Hty. rewrite andb_true_r in Hty.
  destruct (active_run events (fresh_monitor OrderMonitor) (Inv_fresh _) Htys)
    as (m & Hrun & HI).
  destruct (well_typed_key _ _ Hty) as [[Hk _]|(k & _ & Hd & _)]; [done|].
  destruct (active_step event m k HI Hty Hd)
    as (m' & rc & c & r & row & cell & Hstep & HI' & Hc & Hv & Hr & Hrow & Hin & Hs & Hdata & Hh).
  exists m, m', k, rc, c, r, row, cell.
  repeat (split; [done|]). split; [|done].
  intros r' row' Hr' Hin'. by eapply (Inv_row_unique OrderMonitor m').
Qed.

End ActiveOrderClaims.

Section OrderEntryClaims.
Context `{RT : Runtime}.
Local Open Scope list_scope.

Lemma submit_row_parse_error engine r direction error_text :
  py_float (or_0 (price_edit r)) = Raise ValueError \/
  py_int (or_0 (qty_edit r)) = Raise ValueError ->
  submit_row engine r direction error_text = [MessageBox warning "错误" error_text].
Proof.
  unfold submit_row. intros [H|H].
  - by rewrite H.
  - rewrite H. by destruct (py_float _).
Qed.

(** C9, as the code has it.  In the assistant's buy and sell handlers each
    row of the form has its own try block: when the price or the quantity of
    a row does not parse, the row's block opens one blocking warning box and
    sends no order for that row; with the spin box at two, the handler goes
    on to the second row, which is submitted on its own.
    TradingWidget.send_order sends no order when the volume or the price
    does not parse. *)
Theorem parse_error_sends_no_order :
  (forall engine r direction error_text,
      py_float (or_0 (price_edit r)) = Raise ValueError \/
      py_int (or_0 (qty_edit r)) = Raise ValueError ->
      submit_row engine r direction error_text =
        [MessageBox warning "错误" error_text]) /\
  (forall engine f,
      (2 <= spinBox f)%Z ->
      py_float (or_0 (price_edit (row_1 f))) = Raise ValueError \/
      py_int (or_0 (qty_edit (row_1 f))) = Raise ValueError ->
      on_buy_order_clicked engine f =
        MessageBox warning "错误" "第一行买入参数格式错误" ::
        submit_row engine (row_2 f) (enum_member "Direction" "LONG")
          "第二行买入参数格式错误" /\
      on_sell_order_clicked engine f =
        MessageBox warning "错误" "第一行卖出参数格式错误" ::
        submit_row engine (row_2 f) (enum_member "Direction" "SHORT")
          "第二行卖出参数格式错误") /\
  (forall w,
      py_float (volume_line w) = Raise ValueError \/
      (price_line w <> ""%string /\ py_float (price_line w) = Raise ValueError) ->
      forallb (fun e => negb (is_SendOrder e)) (fst (TradingWidget_send_order w)) = true).
Proof.
  split; [|split].
  - intros. by apply submit_row_parse_error.
  - intros engine f Hspin Herr.
    unfold on_buy_order_clicked, on_sell_order_clicked.
    assert ((1 <=? spinBox f)%Z = true) as -> by lia.
    assert ((2 <=? spinBox f)%Z = true) as -> by lia.
    by rewrite !(submit_row_parse_error _ _ _ _ Herr).
  - intros w H. unfold TradingWidget_send_order.
    destruct (String.eqb (symbol_line w) ""); [reflexivity|].
    destruct (String.eqb (volume_line w) ""); [reflexivity|].
    destruct H as [H|[Hne H]].
    + by rewrite H.
    + apply String.eqb_neq in Hne. rewrite Hne, H.
      by destruct (py_float (volume_line w)).
Qed.

End OrderEntryClaims.

(** * The model run on concrete inputs *)

#[local] Existing Instance Demo.runtime.
#[local] Existing Instance Demo.host.

(** C3. TimeCell.set_content pads the fraction only when the millisecond
    part is zero.  For 09:30:00 and 5000 microseconds it shows "09:30:00.5"
    where three zero-padded digits would give "09:30:00.005"; the fraction
    has one digit, not three. *)
Theorem TimeCell_millisecond_not_padded :
  new_cell TimeCell (VDatetime (mk_datetime 5400 5000 0)) ∅ =
    Return (mk_Cell TimeCell "" (Some ∅) "09:30:00.5" None AlignCenter) /\
  time_text (mk_datetime 5400 5000 0) = "09:30:00.5" /\
  time_text (mk_datetime 5400 5000 0) <> "09:30:00.005" /\
  time_text (mk_datetime 5400 50000 0) = "09:30:00.50" /\
  time_text (mk_datetime 5400 0 0) = "09:30:00.000" /\
  time_text (mk_datetime 5400 250000 0) = "09:30:00.250".
Proof. repeat split. discriminate. Qed.

(** C5. A time cell shows its text without storing it in [_text], which
    __lt__ compares: of the cells for 09:00:00 and 10:00:00, whose texts are
    in lexicographic order, neither is smaller than the other. *)
Theorem TimeCell_lt_ignores_rendered_text :
  exists a b,
    new_cell TimeCell (VDatetime (mk_datetime 3600 0 0)) ∅ = Return a /\
    new_cell TimeCell (VDatetime (mk_datetime 7200 0 0)) ∅ = Return b /\
    text a = "09:00:00.000" /\ text b = "10:00:00.000" /\
    lex_lt (text a) (text b) /\
    BaseCell_lt a b = false /\ BaseCell_lt b a = false.
Proof.
  eexists _, _. split; [reflexivity|]. split; [reflexivity|].
  split; [reflexivity|]. split; [reflexivity|].
  split; [|split; reflexivity].
  by apply String_ltb_lex.
Qed.

(** C7 as claimed fails: the net direction is not the long one, and its
    cell gets the long colour, not the short one. *)
Lemma DirectionCell_NET_gets_long_color :
  ~ (forall content data c c',
       DirectionCell_set_content content data c = Return c' ->
       foreground c' =
         Some (if is_Direction "LONG" content then COLOR_LONG else COLOR_SHORT)).
Proof.
  intros H.
  specialize (H (enum_member "Direction" "NET") ∅
                (mk_Cell DirectionCell "" None "" None AlignCenter) _ eq_refl).
  discriminate H.
Qed.


(** C9 as claimed fails twice.  TradingWidget.send_order with the volume
    text "abc" raises the ValueError of float() to its caller and opens no
    message box.  The assistant's buy handler, with the spin box at two, an
    unparsable price in the first row and a valid second row, opens the
    warning and then sends the order of the second row. *)
Lemma parse_error_not_always_caught :
  ~ (forall w,
       symbol_line w <> "" -> volume_line w <> "" ->
       py_float (volume_line w) = Raise ValueError ->
       snd (TradingWidget_send_order w) = Return tt /\
       existsb is_MessageBox (fst (TradingWidget_send_order w)) = true) /\
  ~ (forall engine f,
       py_float (or_0 (price_edit (row_1 f))) = Raise ValueError ->
       existsb is_SendOrder (on_buy_order_clicked engine f) = false).
Proof.
  split.
  - intros H. destruct (H Demo.typo_widget) as [H1 _]; try done.
  - intros H. specialize (H Demo.engine Demo.typo_form eq_refl). discriminate H.
Qed.

Lemma same_key_events_keep_one_row_witness :
  forallb (well_typed AccountMonitor)
    [Demo.account 100; Demo.account 90; Demo.account 95] = true /\
  forallb (fun e => bool_decide (key_of AccountMonitor (ev_data e) = Some "CTP.88"))
    [Demo.account 100; Demo.account 90; Demo.account 95] = true /\
  exists m',
    process_events AccountMonitor [Demo.account 100; Demo.account 90; Demo.account 95]
      (fresh_monitor AccountMonitor) = (m', []) /\
    rowCount m' = 1%nat /\
    exists m m2,
      process_events AccountMonitor [Demo.account 100; Demo.account 90]
        (fresh_monitor AccountMonitor) = (m, []) /\
      process_event AccountMonitor (Demo.account 95) m = (m2, Return tt) /\
      rows m2 = rows m.
Proof.
  split; [vm_compute; reflexivity|]. split; [vm_compute; reflexivity|].
  destruct (same_key_events_keep_one_row AccountMonitor "CTP.88"
              (Demo.account 100) [Demo.account 90; Demo.account 95])
    as (m1 & m' & row & rc & _ & Hrun & _ & _ & Hcount & _ & _ & _ & _ & _ & Hsteps).
  - vm_compute; reflexivity.
  - vm_compute; reflexivity.
  - exists m'. split; [exact Hrun|]. split; [exact Hcount|].
    destruct (Hsteps [Demo.account 90] (Demo.account 95) [] eq_refl)
      as (m & m2 & Hbefore & Hstep & Hrm & Hrm2 & _).
    exists m, m2. split; [exact Hbefore|]. split; [exact Hstep|].
    rewrite Hrm, Hrm2. reflexivity.
Defined.

(** An account shown with balance 100 and then with balance 90: one row,
    whose live columns show the second record. *)
Example same_key_events_show_latest_record :
  (fun m => rendered_texts m 5 <$> rows m)
    (fst (process_events AccountMonitor [Demo.account 100; Demo.account 90]
            (fresh_monitor AccountMonitor))) =
  [["88"; "90"; "0"; "90"; "CTP"]].
Proof. reflexivity. Qed.

Lemma keyless_events_append_rows_witness :
  data_key LogMonitor = "" /\
  forallb (well_typed LogMonitor)
    ([Demo.log_line "connected"; Demo.log_line "login"] ++ [Demo.log_line "ready"]) = true /\
  exists m',
    process_events LogMonitor
      ([Demo.log_line "connected"; Demo.log_line "login"] ++ [Demo.log_line "ready"])
      (fresh_monitor LogMonitor) = (m', []) /\
    rowCount m' = 3%nat.
Proof.
  split; [reflexivity|]. split; [vm_compute; reflexivity|].
  destruct (keyless_events_append_rows LogMonitor
              [Demo.log_line "connected"; Demo.log_line "login"] (Demo.log_line "ready"))
    as (m & m1 & m' & _ & _ & _ & _ & _ & _ & Hrun & _ & _ & _ & Hcount & _).
  - reflexivity.
  - vm_compute; reflexivity.
  - exists m'. split; [exact Hrun | exact Hcount].
Defined.

Lemma save_csv_exports_visible_rows_witness :
  "orders.csv" <> "" /\
  save_csv OrderMonitor "orders.csv"
    (fst (ActiveOrderMonitor_process_events
            [Demo.order "1" "NOTTRADED" 5; Demo.order "2" "NOTTRADED" 7;
             Demo.order "1" "ALLTRADED" 5]
            (fresh_monitor OrderMonitor))) =
  Some (csv_of_visible_rows OrderMonitor
          (fst (ActiveOrderMonitor_process_events
                  [Demo.order "1" "NOTTRADED" 5; Demo.order "2" "NOTTRADED" 7;
                   Demo.order "1" "ALLTRADED" 5]
                  (fresh_monitor OrderMonitor)))).
Proof.
  split; [discriminate|].
  apply (save_csv_exports_visible_rows OrderMonitor "orders.csv"). discriminate.
Defined.

(** A table with one hidden and one visible row exports the labels and one
    line. *)
Example save_csv_one_hidden_one_visible :
  save_csv OrderMonitor "orders.csv"
    (fst (ActiveOrderMonitor_process_events
            [Demo.order "1" "NOTTRADED" 5; Demo.order "2" "NOTTRADED" 7;
             Demo.order "1" "ALLTRADED" 5]
            (fresh_monitor OrderMonitor))) =
  Some [ ["委托号"; "来源"; "代码"; "交易所"; "类型"; "方向"; "开平"; "价格";
          "总数量"; "已成交"; "状态"; "时间"; "接口"];
         ["2"; "ManualTrading"; "600000"; "SSE"; "限价"; "多"; ""; "10.0";
          "7"; "0"; "未成交"; "09:30:00.250"; "CTP"] ].
Proof. vm_compute. reflexivity. Qed.

Lemma update_rerenders_live_cells_only_witness :
  well_formed AccountMonitor = true /\
  forallb (well_typed AccountMonitor) ([Demo.account 100] ++ [Demo.account 90]) = true /\
  key_of AccountMonitor (ev_data (Demo.account 90)) = Some "CTP.88" /\
  is_Some (cells (fst (process_events AccountMonitor [Demo.account 100]
                         (fresh_monitor AccountMonitor))) !! "CTP.88") /\
  exists m m',
    process_event AccountMonitor (Demo.account 90) m = (m', Return tt) /\
    cells m' = cells m.
Proof.
  split; [vm_compute; reflexivity|]. split; [vm_compute; reflexivity|].
  split; [vm_compute; reflexivity|].
  split; [vm_compute; eexists; reflexivity|].
  destruct (update_rerenders_live_cells_only AccountMonitor
              [Demo.account 100] (Demo.account 90) "CTP.88")
    as (m & m' & i & r & _ & Hstep & _ & _ & _ & Hc & _).
  - vm_compute; reflexivity.
  - vm_compute; reflexivity.
  - vm_compute; reflexivity.
  - vm_compute; eexists; reflexivity.
  - exists m, m'. split; [exact Hstep | exact Hc].
Defined.

Lemma active_order_row_follows_is_active_witness :
  forallb (well_typed OrderMonitor)
    ([Demo.order "1" "NOTTRADED" 5; Demo.order "2" "NOTTRADED" 7] ++
     [Demo.order "1" "ALLTRADED" 5]) = true /\
  exists m m' r row,
    ActiveOrderMonitor_process_event (Demo.order "1" "ALLTRADED" 5) m = (m', Return tt) /\
    rows m' !! r = Some row /\
    hidden row = negb (is_active (ev_data (Demo.order "1" "ALLTRADED" 5))).
Proof.
  split; [vm_compute; reflexivity|].
  destruct (active_order_row_follows_is_active
              [Demo.order "1" "NOTTRADED" 5; Demo.order "2" "NOTTRADED" 7]
              (Demo.order "1" "ALLTRADED" 5))
    as (m & m' & k & rc & c & r & row & cell & _ & Hstep & _ & _ & _ & _ & Hrow & _ & _ & _ & _ & Hh).
  - vm_compute; reflexivity.
  - exists m, m', r, row. split; [exact Hstep|]. split; [exact Hrow | exact Hh].
Defined.

Lemma parse_error_sends_no_order_witness :
  py_float (or_0 (price_edit (row_1 Demo.typo_form))) = Raise ValueError /\
  submit_row Demo.engine (row_1 Demo.typo_form) (enum_member "Direction" "LONG")
    "第一行买入参数格式错误" =
    [MessageBox warning "错误" "第一行买入参数格式错误"] /\
  py_float (volume_line Demo.typo_widget) = Raise ValueError /\
  forallb (fun e => negb (is_SendOrder e))
    (fst (TradingWidget_send_order Demo.typo_widget)) = true.
Proof.
  split; [reflexivity|].
  split.
  - apply (proj1 parse_error_sends_no_order). left. reflexivity.
  - split; [reflexivity|].
    apply (proj2 (proj2 parse_error_sends_no_order)). left. reflexivity.
Defined.

Section MoreTableProperties.
Context `{RT : Runtime} {HT : Host}.
Local Open Scope monitor_scope.
Local Open Scope nat_scope.
Local Open Scope list_scope.

Lemma step_dom cls event m :
  Inv cls m ->
  well_typed cls event = true ->
  exists m',
    process_event cls event m = (m', Return tt) /\
    Inv cls m' /\
    dom (cells m') =
      dom (cells m) ∪ (match key_of cls (ev_data event) with
                       | Some k => {[ k ]}
                       | None => ∅
                       end).
Proof.
  intros HI Hty.
  destruct (key_of cls (ev_data event)) as [k|] eqn:Hk.
  - destruct (cells m !! k) as [rc|] eqn:Hc.
    + destruct (step_update _ _ _ _ _ HI Hty Hk Hc) as (m' & Hrun & HI' & _ & _ & Hcs & _).
      exists m'. split; [done|]. split; [done|].
      rewrite Hcs. apply (elem_of_dom_2 (cells m)) in Hc. set_solver.
    + destruct (step_insert cls event m HI Hty) as (m' & new & Hrun & HI' & _ & _ & _ & _ & Hcs).
      { intros k' Hk'. congruence. }
      exists m'. split; [done|]. split; [done|].
      rewrite Hcs, Hk, dom_insert_L. set_solver.
  - destruct (step_insert cls event m HI Hty) as (m' & new & Hrun & HI' & _ & _ & _ & _ & Hcs).
    { intros k' Hk'. congruence. }
    exists m'. split; [done|]. split; [done|].
    rewrite Hcs, Hk. set_solver.
Qed.

Lemma run_dom cls :
  forall events m,
    Inv cls m ->
    forallb (well_typed cls) events = true ->
    exists m',
      process_events cls events m = (m', []) /\
      Inv cls m' /\
      dom (cells m') = dom (cells m) ∪ keys_of cls events.
Proof.
  induction events as [|event events IH]; intros m HI Hty; simpl.
  - exists m. split; [done|]. split; [done|]. unfold keys_of. simpl. set_solver.
  - simpl in Hty. apply andb_true_iff in Hty as [Hty Htys].
    destruct (step_dom _ _ _ HI Hty) as (m1 & Hrun & HI1 & Hd1).
    rewrite Hrun.
    destruct (IH m1 HI1 Htys) as (m' & Hrun' & HI' & Hd').
    exists m'. split; [done|]. split; [done|].
    rewrite Hd', Hd1. unfold keys_of. simpl.
    destruct (key_of cls (ev_data event)); simpl; set_solver.
Qed.

(** X1. On a table with a row-key field, after any sequence of events,
    whatever their keys and their order, the registry holds exactly the keys
    that occurred and the table has one row per distinct key. *)
Theorem rows_are_distinct_keys :
  forall (cls : MonitorClass) (events : list Event),
    data_key cls <> ""%string ->
    forallb (well_typed cls) events = true ->
    exists m,
      process_events cls events (fresh_monitor cls) = (m, []) /\
      dom (cells m) = keys_of cls events /\
      rowCount m = size (keys_of cls events).
Proof.
  intros cls events Hk Hty.
  destruct (run_dom cls events (fresh_monitor cls) (Inv_fresh cls) Hty)
    as (m & Hrun & HI & Hd).
  simpl in Hd. rewrite dom_empty_L, union_empty_l_L in Hd.
  exists m. split; [done|]. split; [done|].
  unfold rowCount. rewrite <- Hd, size_dom.
  rewrite (inv_size _ _ HI). apply String.eqb_neq in Hk. by rewrite Hk.
Qed.

End MoreTableProperties.
Section FailedInsert.
Context `{RT : Runtime} {HT : Host}.
Local Open Scope monitor_scope.
Local Open Scope nat_scope.
Local Open Scope list_scope.

Lemma set_content_rejects v data c :
  accepts (cell_class c) v = false -> set_content v data c = Raise AttributeError.
Proof.
  unfold set_content, accepts.
  destruct (cell_class c); simpl; try discriminate.
  - unfold EnumCell_set_content. destruct (truthy v); simpl; [|discriminate].
    by destruct v.
  - unfold DirectionCell_set_content, EnumCell_set_content.
    destruct (truthy v); simpl; [|discriminate]. by destruct v.
  - by destruct v.
  - by destruct v.
Qed.

Lemma new_cell_rejects cls v data :
  accepts cls v = false -> new_cell cls v data = Raise AttributeError.
Proof.
  intros H. unfold new_cell.
  by rewrite (set_content_rejects v data (mk_Cell cls "" None "" None AlignCenter) H).
Qed.

Lemma insert_cells_fails data h s post :
  renders data (h, s) = false ->
  forall pre column rc m r rs pre_items,
    rows m = r :: rs ->
    items r = pre_items ++ replicate (length pre + S (length post)) None ->
    length pre_items = column ->
    forallb (renders data) pre = true ->
    exists new,
      length new = length pre /\
      insert_cells data (pre ++ (h, s) :: post) column rc m =
        (mk_Monitor (store m ++ new)
           (mk_Row (pre_items ++ (Some <$> seq (length (store m)) (length pre)) ++
                    replicate (S (length post)) None) (hidden r) :: rs)
           (cells m) (sortingEnabled m),
         Raise AttributeError).
Proof.
  intros Hbad.
  induction pre as [|[header setting] pre IH];
    intros column rc m r rs pre_items Hrows Hitems Hlen Hty.
  - exists []. split; [done|]. simpl in *.
    unfold bind at 1. unfold lift, getattr.
    unfold renders in Hbad. simpl in Hbad.
    rewrite app_nil_r.
    assert (m = mk_Monitor (store m)
                  (mk_Row (pre_items ++ None :: replicate (length post) None) (hidden r) :: rs)
                  (cells m) (sortingEnabled m)) as Em.
    { destruct m as [st rws cs se]. simpl in *. subst rws. destruct r; simpl in *.
      by subst. }
    rewrite <- Em.
    destruct (data !! h) as [v|]; [|done].
    unfold bind at 1. by rewrite (new_cell_rejects _ _ data Hbad).
  - simpl in Hty. apply andb_true_iff in Hty as [Hh Hty].
    unfold renders in Hh. simpl in Hh.
    destruct (data !! header) as [v|] eqn:Hv; [|discriminate].
    destruct (new_cell_accepts _ _ data Hh) as (c & Hc & _).
    specialize (IH (S column)
                  (if update setting then dict_set header (length (store m)) rc else rc)
                  (mk_Monitor (store m ++ [c])
                     (mk_Row (<[column := Some (length (store m))]> (items r)) (hidden r) :: rs)
                     (cells m) (sortingEnabled m))
                  (mk_Row (<[column := Some (length (store m))]> (items r)) (hidden r))
                  rs (pre_items ++ [Some (length (store m))])).
    destruct IH as (new & Hnew & Hrun); simpl.
    + reflexivity.
    + rewrite Hitems. simpl. subst column.
      rewrite insert_app_r_alt by lia. rewrite Nat.sub_diag. simpl.
      by rewrite <- app_assoc.
    + rewrite length_app. simpl. lia.
    + done.
    + exists (c :: new). split; [simpl; lia|].
      simpl. unfold bind at 1. unfold lift at 1. unfold getattr. rewrite Hv.
      unfold bind at 1. unfold lift at 1. rewrite Hc.
      unfold bind at 1. unfold alloc at 1.
      unfold bind at 1. unfold setItem at 1, modify at 1.
      unfold set_store, set_rows. simpl. rewrite Hrows. simpl.
      rewrite Hrun. simpl. rewrite length_app. simpl.
      rewrite <- !app_assoc. simpl.
      replace (length (store m) + 1) with (S (length (store m))) by lia.
      done.
Qed.

Lemma failed_insert_state :
  forall (cls : MonitorClass) (event : Event) (m : Monitor)
         (pre post : list (string * Setting)) (h : string) (s : Setting),
    headers cls = pre ++ (h, s) :: post ->
    forallb (renders (ev_data event)) pre = true ->
    renders (ev_data event) (h, s) = false ->
    match key_of cls (ev_data event) with
    | Some k => cells m !! k = None
    | None => has_key cls (ev_data event) = true
    end ->
    exists new,
      length new = length pre /\
      process_event cls event m =
        (mk_Monitor (store m ++ new)
           (mk_Row ((Some <$> seq (length (store m)) (length pre)) ++
                    replicate (S (length post)) None) false :: rows m)
           (cells m)
           (if sorting cls then false else sortingEnabled m),
         Raise AttributeError).
Proof.
  intros cls event m pre post h s Hh Hpre Hbad Hkey.
  destruct (sorting_off_fields cls m) as (Er & Es & Ec).
  destruct (insert_cells_fails (ev_data event) h s post Hbad pre 0 []
              (set_rows (mk_Row (replicate (length (headers cls)) None) false
                         :: rows (sorting_off cls m))
                 (sorting_off cls m))
              (mk_Row (replicate (length (headers cls)) None) false)
              (rows (sorting_off cls m)) [])
    as (new & Hlen & Hrun); try done.
  { simpl. rewrite Hh, length_app. done. }
  exists new. split; [done|].
  assert (insert_new_row cls (ev_data event) (sorting_off cls m) =
          (mk_Monitor (store m ++ new)
             (mk_Row ((Some <$> seq (length (store m)) (length pre)) ++
                      replicate (S (length post)) None) false :: rows m)
             (cells m) (sortingEnabled (sorting_off cls m)),
           Raise AttributeError)) as Hins.
  { unfold insert_new_row. unfold bind at 1. unfold insertRow0, modify.
    unfold bind at 1. rewrite <- Hh in Hrun. rewrite Hrun. simpl.
    by rewrite Es, Er, Ec. }
  assert (sortingEnabled (sorting_off cls m) =
          if sorting cls then false else sortingEnabled m) as Ese.
  { unfold sorting_off. by destruct (sorting cls). }
  rewrite process_event_dispatch. unfold dispatch.
  unfold key_of, has_key in Hkey.
  destruct (String.eqb (data_key cls) "") eqn:Hk.
  - by rewrite Hins, Ese.
  - simpl in Hkey.
    unfold bind at 1. unfold lift, get_key, getattr.
    destruct (ev_data event !! data_key cls) as [[]|]; try discriminate.
    unfold bind at 1. unfold gets. rewrite Ec.
    rewrite bool_decide_eq_false_2 by (rewrite Hkey; by intros [? ?]).
    by rewrite Hins, Ese.
Qed.

(** X2. A record that one of the headers cannot render (the attribute is
    missing, or its value is not one the header's cell class takes) makes
    the insertion raise AttributeError half way: the new row stays in the
    table with the cells of the headers before the failing one and empty
    items from there on, the key is not registered, and a class that sorts
    is left with sorting switched off. *)
Theorem failed_insert_leaves_partial_row :
  forall (cls : MonitorClass) (event : Event) (m : Monitor)
         (pre post : list (string * Setting)) (h : string) (s : Setting),
    headers cls = pre ++ (h, s) :: post ->
    forallb (renders (ev_data event)) pre = true ->
    renders (ev_data event) (h, s) = false ->
    match key_of cls (ev_data event) with
    | Some k => cells m !! k = None
    | None => has_key cls (ev_data event) = true
    end ->
    exists new,
      length new = length pre /\
      process_event cls event m =
        (mk_Monitor (store m ++ new)
           (mk_Row ((Some <$> seq (length (store m)) (length pre)) ++
                    replicate (S (length post)) None) false :: rows m)
           (cells m)
           (if sorting cls then false else sortingEnabled m),
         Raise AttributeError).
Proof.
  intros cls event m pre post h s Hh Hpre Hbad Hkey.
  exact (failed_insert_state cls event m pre post h s Hh Hpre Hbad Hkey).
Qed.


(** The INSERT path needs nothing of the monitor's state. *)
Lemma process_event_inserts cls event m :
  well_typed cls event = true ->
  (forall k, key_of cls (ev_data event) = Some k -> cells m !! k = None) ->
  exists m' new,
    process_event cls event m = (m', Return tt) /\
    length new = length (headers cls) /\
    store m' = store m ++ new /\
    Permutation (rows m')
      (mk_Row (Some <$> seq (length (store m)) (length (headers cls))) false :: rows m) /\
    cells m' =
      match key_of cls (ev_data event) with
      | Some k => <[k := register_live (headers cls) (length (store m)) []]> (cells m)
      | None => cells m
      end.
Proof.
  intros Hty Hnew.
  pose proof (well_typed_renders _ _ Hty) as Hr.
  destruct (sorting_off_fields cls m) as (Er & Es & Ec).
  destruct (insert_new_row_spec cls (ev_data event) (sorting_off cls m) Hr)
    as (new & Hcr & Hun & Hke).
  rewrite Es, Er, Ec in Hun, Hke.
  pose proof (Forall2_created_length _ _ _ Hcr) as Hlen.
  rewrite process_event_dispatch.
  destruct (well_typed_key _ _ Hty) as [[Hk Hko]|(k & Hk & Hd & Hko)].
  - unfold dispatch. rewrite Hk. simpl. rewrite (Hun Hk).
    eexists _, new. split; [reflexivity|].
    match goal with |- _ /\ store (sorting_on _ ?m1) = _ /\ _ =>
      destruct (sorting_on_rows cls m1) as (P1 & P2 & P3 & P4) end.
    simpl in *. rewrite Hko. done.
  - specialize (Hnew k Hko).
    unfold dispatch. apply String.eqb_neq in Hk as Hk'. rewrite Hk'.
    unfold bind at 1. unfold lift, get_key, getattr. rewrite Hd.
    unfold bind at 1. unfold gets. rewrite Ec.
    rewrite bool_decide_eq_false_2 by (rewrite Hnew; by intros [? ?]).
    rewrite (Hke k Hk Hd).
    eexists _, new. split; [reflexivity|].
    match goal with |- _ /\ store (sorting_on _ ?m1) = _ /\ _ =>
      destruct (sorting_on_rows cls m1) as (P1 & P2 & P3 & P4) end.
    simpl in *. rewrite Hko. done.
Qed.

(** X3. After such a failed insertion the key is still unknown to the
    registry, so the next record with that key, however well formed, is
    inserted again: the table then holds two rows for one key, the partial
    one and the new one, and only the new one is registered. *)
Theorem failed_insert_then_duplicate_row :
  forall (cls : MonitorClass) (bad good : Event) (m : Monitor) (k : string)
         (pre post : list (string * Setting)) (h : string) (s : Setting),
    headers cls = pre ++ (h, s) :: post ->
    forallb (renders (ev_data bad)) pre = true ->
    renders (ev_data bad) (h, s) = false ->
    key_of cls (ev_data bad) = Some k ->
    key_of cls (ev_data good) = Some k ->
    well_typed cls good = true ->
    cells m !! k = None ->
    exists m1 m2,
      process_event cls bad m = (m1, Raise AttributeError) /\
      process_event cls good m1 = (m2, Return tt) /\
      rowCount m1 = S (rowCount m) /\
      rowCount m2 = S (S (rowCount m)) /\
      cells m1 = cells m /\
      cells m2 !! k =
        Some (register_live (headers cls) (length (store m) + length pre) []).
Proof.
  intros cls bad good m k pre post h s Hh Hpre Hbad Hkb Hkg Hty Hnone.
  destruct (failed_insert_state cls bad m pre post h s Hh Hpre Hbad)
    as (new & Hlen & Hfail); [by rewrite Hkb|].
  set (m1 := mk_Monitor (store m ++ new)
                (mk_Row ((Some <$> seq (length (store m)) (length pre)) ++
                         replicate (S (length post)) None) false :: rows m)
                (cells m) (if sorting cls then false else sortingEnabled m)) in *.
  destruct (process_event_inserts cls good m1 Hty) as (m2 & new2 & Hrun & _ & _ & Hp & Hc).
  { intros k' Hk'. rewrite Hkg in Hk'. injection Hk' as <-. exact Hnone. }
  exists m1, m2. split; [done|]. split; [done|].
  unfold rowCount. subst m1. simpl in *.
  split; [done|]. split; [by rewrite (Permutation_length Hp)|].
  split; [done|].
  rewrite Hc, Hkg, lookup_insert_eq, length_app, Hlen. done.
Qed.

End FailedInsert.
Section Idempotence.
Context `{RT : Runtime} {HT : Host}.
Local Open Scope monitor_scope.
Local Open Scope nat_scope.
Local Open Scope list_scope.

Lemma set_content_fixed :
  forall (v : Value) (data : Data) (c c1 : Cell),
    set_content v data c = Return c1 ->
    set_content v data c1 = Return c1.
Proof.
  intros v data c c1 H.
  pose proof (set_content_class _ _ _ _ H) as Hcl.
  unfold set_content in *. rewrite Hcl.
  destruct c as [cls t d tx fg al]. simpl in *.
  destruct cls; simpl in *.
  - by injection H as <-.
  - unfold EnumCell_set_content in *.
    destruct (truthy v); [|done].
    destruct (get_value v); [|done]. by injection H as <-.
  - unfold DirectionCell_set_content, EnumCell_set_content in *.
    destruct (truthy v).
    + destruct (get_value v); [|done].
      destruct (is_Direction "SHORT" v); by injection H as <-.
    + destruct (is_Direction "SHORT" v); by injection H as <-.
  - by injection H as <-.
  - by injection H as <-.
  - unfold PnlCell_set_content in *.
    destruct (String.prefix "-" (py_str v)); by injection H as <-.
  - destruct v; simpl in *; try done; by injection H as <-.
  - destruct v; simpl in *; try done; by injection H as <-.
  - by injection H as <-.
Qed.

(** X4. Rendering is idempotent: a cell that has been given a content and a
    record is left exactly as it is by being given the same content and
    record again, whatever its class. *)
Theorem set_content_idempotent :
  forall (v : Value) (data : Data) (c c1 : Cell),
    set_content v data c = Return c1 ->
    set_content v data c1 = Return c1.
Proof.
  intros v data c c1 H. exact (set_content_fixed v data c c1 H).
Qed.

Lemma new_cell_fixed cls v data c :
  new_cell cls v data = Return c -> set_content v data c = Return c.
Proof.
  unfold new_cell.
  destruct (set_content v data (mk_Cell cls "" None "" None AlignCenter)) as [c0|] eqn:E;
    [|discriminate].
  pose proof (set_content_fixed _ _ _ _ E) as Hid.
  pose proof (set_content_class _ _ _ _ E) as Hcl. simpl in Hcl.
  destruct cls; intros [= <-]; try exact Hid.
  - unfold set_content in *. simpl in *. rewrite Hcl in *.
    injection E as <-. reflexivity.
  - unfold set_content in *. simpl in *. rewrite Hcl in *.
    injection E as <-. reflexivity.
  - unfold set_content in *. simpl in *. rewrite Hcl in *.
    injection E as <-. reflexivity.
Qed.

Lemma update_cells_fixed data rc :
  forall m, Forall (rendered data (store m)) rc -> update_cells data rc m = (m, Return tt).
Proof.
  induction rc as [|[h id] rc IH]; intros m Hall; simpl; [done|].
  apply Forall_cons in Hall as [(v & c & Hv & Hs & Hset) Hall]. simpl in *.
  unfold bind at 1. unfold lift, getattr. rewrite Hv.
  unfold bind at 1. unfold cell_set_content. rewrite Hs, Hset.
  rewrite list_insert_id by done.
  replace (set_store (store m) m) with m by by destruct m.
  by apply IH.
Qed.


Lemma step_renders cls event m k :
  Inv cls m ->
  well_formed cls = true ->
  well_typed cls event = true ->
  key_of cls (ev_data event) = Some k ->
  exists m1 rc,
    process_event cls event m = (m1, Return tt) /\
    Inv cls m1 /\
    cells m1 !! k = Some rc /\
    Forall (rendered (ev_data event) (store m1)) rc.
Proof.
  intros HI Hwf Hty Hk.
  apply bool_decide_eq_true in Hwf.
  destruct (cells m !! k) as [rc|] eqn:Hc.
  - destruct (step_update _ _ _ _ _ HI Hty Hk Hc)
      as (m1 & Hrun & HI1 & _ & _ & Hcs & _ & _ & Hupd).
    exists m1, rc. split; [done|]. split; [done|]. split; [by rewrite Hcs|].
    destruct (inv_cells _ _ HI k rc Hc) as (i & _ & Hrc).
    rewrite register_live_fresh in Hrc by done. simpl in Hrc.
    assert (NoDup (snd <$> rc)) as Hnd by (rewrite Hrc; apply live_entries_ids).
    apply Forall_forall. intros [h id] Hin.
    destruct (Hupd Hnd h id Hin) as (v & c & c' & Hv & _ & Hset & Hs').
    exists v, c'. simpl. split; [done|]. split; [done|].
    by eapply set_content_fixed.
  - destruct (step_insert cls event m HI Hty)
      as (m1 & new & Hrun & HI1 & Hnew & Hs & _ & _ & Hcs).
    { intros k' Hk'. congruence. }
    rewrite Hk in Hcs.
    eexists m1, _. split; [done|]. split; [done|].
    split; [by rewrite Hcs, lookup_insert_eq|].
    apply Forall_forall. intros [h id] Hin.
    apply register_live_entries in Hin as [Hin|(j & s & Hj & _ & ->)];
      [by apply elem_of_nil in Hin|].
    destruct (Forall2_lookup_l _ _ _ _ _ Hnew Hj) as (c & Hcj & _ & v & Hv & Hnc).
    simpl in *. exists v, c. simpl. split; [done|]. split.
    + rewrite Hs, lookup_app_r by lia.
      by replace (length (store m) + j - length (store m)) with j by lia.
    + by apply (new_cell_fixed (cell s)).
Qed.

(** X5. An event processed a second time changes no cell: once a record
    has been shown, showing the same record again leaves the store and the
    registry exactly as they are and adds no row. *)
Theorem repeated_event_changes_nothing :
  forall (cls : MonitorClass) (events : list Event) (event : Event) (k : string),
    well_formed cls = true ->
    forallb (well_typed cls) (events ++ [event]) = true ->
    key_of cls (ev_data event) = Some k ->
    exists m1 m2,
      process_events cls (events ++ [event]) (fresh_monitor cls) = (m1, []) /\
      process_event cls event m1 = (m2, Return tt) /\
      store m2 = store m1 /\
      cells m2 = cells m1 /\
      Permutation (rows m2) (rows m1).
Proof.
  intros cls events event k Hwf Hty Hk.
  rewrite forallb_app in Hty. apply andb_true_iff in Hty as [Htys Hty].
  simpl in Hty. rewrite andb_true_r in Hty.
  destruct (process_events_ok cls events (fresh_monitor cls) (Inv_fresh cls) Htys)
    as (m & Hrun & HI).
  destruct (step_renders cls event m k HI Hwf Hty Hk) as (m1 & rc & Hstep & HI1 & Hc & Hfix).
  destruct (sorting_off_fields cls m1) as (Er & Es & Ec).
  assert (process_event cls event m1 = (sorting_on cls (sorting_off cls m1), Return tt))
    as Hagain.
  { rewrite process_event_dispatch. unfold dispatch.
    destruct (well_typed_key _ _ Hty) as [[_ Hn]|(k' & Hne & Hd & Hk')]; [congruence|].
    assert (k' = k) as -> by congruence.
    apply String.eqb_neq in Hne as Hne'. rewrite Hne'.
    unfold bind at 1. unfold lift, get_key, getattr. rewrite Hd.
    unfold bind at 1. unfold gets. rewrite Ec.
    rewrite bool_decide_eq_true_2 by (rewrite Hc; by eexists).
    unfold update_old_row.
    unfold bind at 1. unfold lift, get_key, getattr. rewrite Hd.
    unfold bind at 1. unfold cells_get. rewrite Ec, Hc.
    rewrite update_cells_fixed; [done|]. by rewrite Es. }
  exists m1, (sorting_on cls (sorting_off cls m1)).
  split; [by rewrite process_events_snoc, Hrun, Hstep|].
  split; [done|].
  destruct (sorting_on_rows cls (sorting_off cls m1)) as (P1 & _ & P3 & P4).
  rewrite P3, P4, Es, Ec. rewrite P1, Er. done.
Qed.

End Idempotence.
Section FirstAndLatest.
Context `{RT : Runtime} {HT : Host}.
Local Open Scope monitor_scope.
Local Open Scope nat_scope.
Local Open Scope list_scope.

Lemma same_key_frame cls k rc :
  forall events m,
    Inv cls m ->
    cells m !! k = Some rc ->
    forallb (well_typed cls) events = true ->
    forallb (fun e => bool_decide (key_of cls (ev_data e) = Some k)) events = true ->
    exists m',
      process_events cls events m = (m', []) /\
      Inv cls m' /\
      cells m' = cells m /\
      (forall id, id ∉ snd <$> rc -> store m' !! id = store m !! id).
Proof.
  induction events as [|event events IH]; intros m HI Hk Hty Hkeys; simpl.
  - by exists m.
  - simpl in Hty, Hkeys.
    apply andb_true_iff in Hty as [Hty Htys].
    apply andb_true_iff in Hkeys as [Hkey Hkeys].
    apply bool_decide_eq_true in Hkey.
    destruct (step_update _ _ _ _ _ HI Hty Hkey Hk)
      as (m1 & Hrun & HI1 & _ & _ & Hc & _ & Hframe & _).
    rewrite Hrun.
    destruct (IH m1 HI1) as (m' & Hrun' & HI' & Hc' & Hframe'); try done.
    { by rewrite Hc. }
    exists m'. split; [done|]. split; [done|]. split; [by rewrite Hc', Hc|].
    intros id Hid. by rewrite Hframe', Hframe.
Qed.

(** X6. When a row has received several records with its key, each static
    column still holds the very cell that was created from the first record,
    and each live-updated column holds a cell that was last rendered from
    the latest record.  For columns of class BaseCell this means: a static
    column shows the first record's value and get_data on it returns the
    first record, a live column shows the latest value and returns the
    latest record. *)
Theorem static_first_live_latest :
  forall (cls : MonitorClass) (k : string) (first last : Event) (events : list Event),
    well_formed cls = true ->
    forallb (well_typed cls) (first :: events ++ [last]) = true ->
    forallb (fun e => bool_decide (key_of cls (ev_data e) = Some k))
      (first :: events ++ [last]) = true ->
    exists m',
      process_events cls (first :: events ++ [last]) (fresh_monitor cls) = (m', []) /\
      forall j h s, headers cls !! j = Some (h, s) ->
        exists v c,
          store m' !! j = Some c /\
          (if update s
           then ev_data last !! h = Some v /\
                (exists c0, set_content v (ev_data last) c0 = Return c) /\
                (cell s = BaseCell ->
                 text c = py_str v /\ get_data c = Some (ev_data last))
           else ev_data first !! h = Some v /\
                new_cell (cell s) v (ev_data first) = Return c /\
                (cell s = BaseCell ->
                 text c = py_str v /\ get_data c = Some (ev_data first))).
Proof.
  intros cls k first last events Hwf Hty Hkeys.
  simpl in Hty, Hkeys.
  apply andb_true_iff in Hty as [Hty1 Hty].
  apply andb_true_iff in Hkeys as [Hkey1 Hkeys].
  rewrite forallb_app in Hty, Hkeys.
  apply andb_true_iff in Hty as [Htys Htyl].
  apply andb_true_iff in Hkeys as [Hkeys Hkeyl].
  simpl in Htyl, Hkeyl. rewrite andb_true_r in Htyl, Hkeyl.
  apply bool_decide_eq_true in Hkey1, Hkeyl.
  pose proof Hwf as Hnd. apply bool_decide_eq_true in Hnd.
  destruct (step_insert cls first (fresh_monitor cls) (Inv_fresh cls) Hty1)
    as (m1 & new & Hrun1 & HI1 & Hnew & Hs1 & _ & _ & Hc1).
  { intros k' _. apply lookup_empty. }
  rewrite Hkey1 in Hc1. simpl in Hc1, Hs1.
  rewrite register_live_fresh in Hc1 by done. simpl in Hc1.
  assert (cells m1 !! k = Some (live_entries (headers cls) 0)) as Hk1
    by (by rewrite Hc1, lookup_insert_eq).
  destruct (same_key_frame cls k _ events m1 HI1 Hk1 Htys Hkeys)
    as (m2 & Hrun2 & HI2 & Hc2 & Hframe2).
  assert (cells m2 !! k = Some (live_entries (headers cls) 0)) as Hk2 by (by rewrite Hc2).
  destruct (step_update _ _ _ _ _ HI2 Htyl Hkeyl Hk2)
    as (m3 & Hrun3 & HI3 & _ & _ & _ & _ & Hframe3 & Hupd3).
  exists m3. split.
  { simpl. rewrite Hrun1. by rewrite process_events_snoc, Hrun2, Hrun3. }
  intros j h s Hj.
  destruct (update s) eqn:Hu.
  - destruct (Hupd3 (proj1 (live_entries_ids _ _)) h j)
      as (v & c0 & c & Hv & Hs0 & Hset & Hs3).
    { apply live_entries_spec. by exists j, s. }
    exists v, c. split; [done|]. split; [done|]. split; [by exists c0|].
    intros Hcl.
    destruct (inv_class _ _ HI2 _ _ Hs0) as (h' & Hh' & Hcl0).
    pose proof (lookup_lt_Some _ _ _ Hj) as Hlt.
    rewrite Nat.mod_small in Hh' by done. rewrite Hj in Hh'. injection Hh' as <-.
    simpl in Hcl0. rewrite Hcl in Hcl0.
    unfold set_content in Hset. rewrite Hcl0 in Hset. injection Hset as <-.
    done.
  - destruct (Forall2_lookup_l _ _ _ _ _ Hnew Hj) as (c & Hcj & _ & v & Hv & Hnc).
    simpl in Hv, Hnc.
    assert (j ∉ snd <$> live_entries (headers cls) 0) as Hnot.
    { intros Hin. apply list_elem_of_fmap in Hin as ([h' id] & Hid & Hin).
      simpl in Hid. subst id.
      apply live_entries_spec in Hin as (j' & s' & Hj' & Hu' & Heq).
      assert (j' = j) as -> by lia. congruence. }
    exists v, c. split; [by rewrite Hframe3, Hframe2, Hs1|].
    split; [done|]. split; [done|].
    intros Hcl. rewrite Hcl in Hnc.
    unfold new_cell, set_content in Hnc. simpl in Hnc. by injection Hnc as <-.
Qed.

End FirstAndLatest.
Section ActiveOrderFrame.
Context `{RT : Runtime} {HT : Host}.
Local Open Scope monitor_scope.
Local Open Scope nat_scope.
Local Open Scope list_scope.

Lemma active_step_detail event m k :
  Inv OrderMonitor m ->
  well_typed OrderMonitor event = true ->
  ev_data event !! "vt_orderid"%string = Some (VStr k) ->
  exists m1 i r,
    process_event OrderMonitor event m = (m1, Return tt) /\
    cells m1 !! k = Some (register_live (headers OrderMonitor) (i * 13) []) /\
    row_of (i * 13 + 8) (rows m1) = Some r /\
    ActiveOrderMonitor_process_event event m =
      (set_rows (alter (fun row => mk_Row (items row) (negb (is_active (ev_data event))))
                   r (rows m1)) m1, Return tt).
Proof.
  intros HI Hty Hd.
  destruct (order_step event m k HI Hty Hd) as (m1 & i & cell & Hrun & HI1 & Hi & Hc & Hs & Hdata).
  destruct (Inv_block_row _ _ i HI1 Hi) as (r0 & Hr0 & Hit0).
  change (length (headers OrderMonitor)) with 13 in Hit0.
  assert (Some (i * 13 + 8) ∈ items r0) as Hin0.
  { rewrite Hit0. apply elem_of_block. lia. }
  destruct (row_of_exists _ _ _ Hr0 Hin0) as [r Hr].
  exists m1, i, r. split; [done|]. split; [done|]. split; [done|].
  rewrite OrderMonitor_registry in Hc.
  unfold ActiveOrderMonitor_process_event.
  unfold bind at 1. rewrite Hrun.
  unfold bind at 1. unfold lift, get_key, getattr. rewrite Hd.
  unfold bind at 1. unfold cells_get. rewrite Hc.
  unfold bind at 1. simpl.
  unfold bind at 1. unfold gets. rewrite Hr.
  destruct (is_active (ev_data event)); reflexivity.
Qed.

(** X7. An order event changes the visibility of no other order: every row
    of the table that does not hold the event's order is still in the table
    afterwards, with the same cells and the same hidden flag, and the table
    grows by one row exactly when the order's key was not registered. *)
Theorem other_orders_keep_their_rows :
  forall (events : list Event) (event : Event),
    forallb (well_typed OrderMonitor) (events ++ [event]) = true ->
    exists m m' k rc c,
      ActiveOrderMonitor_process_events events (fresh_monitor OrderMonitor) = (m, []) /\
      ActiveOrderMonitor_process_event event m = (m', Return tt) /\
      ev_data event !! "vt_orderid"%string = Some (VStr k) /\
      cells m' !! k = Some rc /\
      dict_get "volume" rc = Return c /\
      (forall row, row ∈ rows m -> Some c ∉ items row -> row ∈ rows m') /\
      rowCount m' =
        match cells m !! k with
        | Some _ => rowCount m
        | None => S (rowCount m)
        end.
Proof.
  intros events event Hty.
  rewrite forallb_app in Hty. apply andb_true_iff in Hty as [Htys Hty].
  simpl in Hty. rewrite andb_true_r in Hty.
  destruct (active_run events (fresh_monitor OrderMonitor) (Inv_fresh _) Htys)
    as (m & Hrun & HI).
  destruct (well_typed_key _ _ Hty) as [[Hk _]|(k & _ & Hd & Hko)]; [done|].
  destruct (active_step_detail event m k HI Hty Hd) as (m1 & i & r & Hbase & Hc & Hr & Hstep).
  rewrite OrderMonitor_registry in Hc.
  eexists m, _, k, _, (i * 13 + 8).
  split; [done|]. split; [exact Hstep|]. split; [done|].
  split; [exact Hc|]. split; [reflexivity|].
  assert (Permutation (rows m1) (rows m) /\ is_Some (cells m !! k) \/
          Permutation (rows m1)
            (mk_Row (block (length (headers OrderMonitor)) (length (rows m))) false :: rows m) /\
          cells m !! k = None) as Hp.
  { destruct (cells m !! k) as [rc0|] eqn:Hc0.
    - destruct (step_update _ _ _ _ _ HI Hty Hko Hc0) as (m1' & Hrun' & _ & Hp & _).
      rewrite Hbase in Hrun'. injection Hrun' as <-. left. split; [done|by eexists].
    - destruct (step_insert OrderMonitor event m HI Hty)
        as (m1' & new & Hrun' & _ & _ & _ & Hp & _).
      { intros k' Hk'. congruence. }
      rewrite Hbase in Hrun'. injection Hrun' as <-. by right. }
  split.
  - intros row Hin Hnot. simpl.
    assert (row ∈ rows m1) as Hin1.
    { destruct Hp as [[Hp _]|[Hp _]]; rewrite Hp; [done|].
      by apply elem_of_cons; right. }
    apply list_elem_of_lookup in Hin1 as [j Hj].
    apply list_elem_of_lookup. exists j.
    destruct (decide (r = j)) as [->|Hne].
    + destruct (row_of_Some _ _ _ Hr) as (row' & Hrow' & Hin').
      rewrite Hj in Hrow'. injection Hrow' as <-. done.
    + by rewrite list_lookup_alter_ne.
  - unfold rowCount. simpl. rewrite length_alter.
    destruct Hp as [[Hp [rc0 Hs]]|[Hp Hn]].
    + rewrite Hs. by apply Permutation_length.
    + rewrite Hn. by rewrite (Permutation_length Hp).
Qed.

End ActiveOrderFrame.
Section ActiveOrderInvariant.
Context `{RT : Runtime} {HT : Host}.
Local Open Scope monitor_scope.
Local Open Scope nat_scope.
Local Open Scope list_scope.

Lemma block_inj n i j : 0 < n -> block n i = block n j -> i = j.
Proof.
  intros Hn H.
  assert (Some (i * n) ∈ block n j) as Hin.
  { rewrite <- H. apply elem_of_block. lia. }
  assert (Some (j * n) ∈ block n i) as Hin'.
  { rewrite H. apply elem_of_block. lia. }
  apply elem_of_block in Hin, Hin'. nia.
Qed.

Lemma active_step_frame event m k :
  Inv OrderMonitor m ->
  well_typed OrderMonitor event = true ->
  ev_data event !! "vt_orderid"%string = Some (VStr k) ->
  exists m1 i r c,
    Inv OrderMonitor m1 /\
    row_of (i * 13 + 8) (rows m1) = Some r /\
    ActiveOrderMonitor_process_event event m =
      (set_rows (alter (fun row => mk_Row (items row) (negb (is_active (ev_data event))))
                   r (rows m1)) m1, Return tt) /\
    store m1 !! (i * 13 + 8) = Some c /\
    _data c = Some (ev_data event) /\
    (forall id, id < length (store m) -> id < i * 13 \/ i * 13 + 13 <= id ->
       store m1 !! id = store m !! id) /\
    (forall row, row ∈ rows m1 -> row ∈ rows m \/ items row = block 13 i).
Proof.
  intros HI Hty Hd.
  pose proof (proj2 (OrderMonitor_key_of _ _) Hd) as Hko.
  destruct (active_step_detail event m k HI Hty Hd) as (m1 & i & r & Hbase & Hc & Hr & Hstep).
  destruct (order_step event m k HI Hty Hd)
    as (m1' & i' & c & Hbase' & HI1 & Hi & Hc' & Hs & Hdata).
  rewrite Hbase in Hbase'. injection Hbase' as <-.
  rewrite Hc, !OrderMonitor_registry in Hc'.
  injection Hc' as Hii _ _ _. assert (i' = i) as -> by lia.
  exists m1, i, r, c. repeat (split; [done|]).
  destruct (cells m !! k) as [rc0|] eqn:Hc0.
  - destruct (step_update _ _ _ _ _ HI Hty Hko Hc0)
      as (m1' & Hrun' & _ & Hp & _ & Hcs & _ & Hframe & _).
    rewrite Hbase in Hrun'. injection Hrun' as <-.
    rewrite Hcs, Hc0 in Hc. injection Hc as Hc. subst rc0.
    simpl in Hframe.
    split.
    + intros id _ Hout. apply Hframe.
      rewrite !elem_of_cons, elem_of_nil. lia.
    + intros row Hin. left. by rewrite <- Hp.
  - destruct (step_insert OrderMonitor event m HI Hty)
      as (m1' & new & Hrun' & _ & _ & Hst & Hp & _ & Hcs).
    { intros k' Hk'. congruence. }
    rewrite Hbase in Hrun'. injection Hrun' as <-.
    rewrite Hcs, Hko, lookup_insert_eq, !OrderMonitor_registry in Hc.
    injection Hc as Hc _ _ _.
    pose proof (inv_store _ _ HI) as Hlen.
    change (length (headers OrderMonitor)) with 13 in *.
    assert (i = length (rows m)) as -> by lia.
    split.
    + intros id Hlt _. by rewrite Hst, lookup_app_l.
    + intros row Hin. rewrite Hp in Hin.
      apply elem_of_cons in Hin as [->|Hin]; [by right|by left].
Qed.

Lemma hidden_iff_inactive_step event m k :
  Inv OrderMonitor m ->
  hidden_iff_inactive m ->
  well_typed OrderMonitor event = true ->
  ev_data event !! "vt_orderid"%string = Some (VStr k) ->
  exists m',
    ActiveOrderMonitor_process_event event m = (m', Return tt) /\
    Inv OrderMonitor m' /\
    hidden_iff_inactive m'.
Proof.
  intros HI HJ Hty Hd.
  destruct (active_step_frame event m k HI Hty Hd)
    as (m1 & i & r & c & HI1 & Hr & Hstep & Hs & Hdata & Hframe & Hrows).
  eexists. split; [exact Hstep|]. split; [by apply Inv_hidden|].
  destruct (row_of_Some _ _ _ Hr) as (rowr & Hrowr & Hinr).
  intros row i0 Hin Hit. simpl in Hin |- *.
  apply list_elem_of_lookup in Hin as [j Hj].
  destruct (decide (r = j)) as [<-|Hne].
  - rewrite list_lookup_alter_eq, Hrowr in Hj. simpl in Hj. injection Hj as <-.
    simpl in Hit. rewrite Hit in Hinr. apply elem_of_block in Hinr.
    assert (i0 = i) as -> by lia.
    exists c, (ev_data event). done.
  - rewrite list_lookup_alter_ne in Hj by done.
    assert (i0 <> i) as Hi0.
    { intros ->. apply Hne.
      eapply (Inv_row_unique OrderMonitor m1 (i * 13 + 8)); try done.
      rewrite Hit. apply elem_of_block. lia. }
    assert (row ∈ rows m1) as Hin1 by (by eapply list_elem_of_lookup_2).
    destruct (Hrows row Hin1) as [Hold|Hnew].
    + destruct (HJ row i0 Hold Hit) as (c0 & d0 & Hs0 & Hd0 & Hh0).
      exists c0, d0. split; [|done].
      rewrite Hframe; [done| |lia]. by eapply lookup_lt_Some.
    + rewrite Hit in Hnew. apply block_inj in Hnew; [done|lia].
Qed.

Lemma hidden_iff_inactive_run :
  forall events m,
    Inv OrderMonitor m ->
    hidden_iff_inactive m ->
    forallb (well_typed OrderMonitor) events = true ->
    exists m', ActiveOrderMonitor_process_events events m = (m', []) /\
               Inv OrderMonitor m' /\ hidden_iff_inactive m'.
Proof.
  induction events as [|event events IH]; intros m HI HJ Hty; simpl.
  - by exists m.
  - simpl in Hty. apply andb_true_iff in Hty as [Hty Htys].
    destruct (well_typed_key _ _ Hty) as [[Hk _]|(k & _ & Hd & _)]; [done|].
    destruct (hidden_iff_inactive_step event m k HI HJ Hty Hd) as (m1 & Hrun & HI1 & HJ1).
    rewrite Hrun. by apply IH.
Qed.

Lemma active_monitor_rows :
  forall (events : list Event),
    forallb (well_typed OrderMonitor) events = true ->
    exists m,
      ActiveOrderMonitor_process_events events (fresh_monitor OrderMonitor) = (m, []) /\
      forall row, row ∈ rows m ->
        exists i c d,
          items row = block 13 i /\
          store m !! (i * 13 + 8) = Some c /\
          get_data c = Some d /\
          (hidden row = true <-> is_active d = false).
Proof.
  intros events Hty.
  destruct (hidden_iff_inactive_run events (fresh_monitor OrderMonitor) (Inv_fresh _))
    as (m & Hrun & HI & HJ); [|done|].
  { intros row i Hin. by apply elem_of_nil in Hin. }
  exists m. split; [done|].
  intros row Hin.
  destruct (inv_rows _ _ HI) as (bs & _ & Hit).
  assert (items row ∈ items <$> rows m) as Hin'.
  { apply list_elem_of_fmap. by exists row. }
  rewrite Hit in Hin'. apply list_elem_of_fmap in Hin' as (i & Hi & _).
  change (length (headers OrderMonitor)) with 13 in Hi.
  destruct (HJ row i Hin Hi) as (c & d & Hs & Hd & Hh).
  exists i, c, d. repeat (split; [done|]).
  rewrite Hh. by destruct (is_active d).
Qed.

(** X8. After any sequence of order events the active-order monitor shows
    exactly the active orders: each row of the table holds the cells of one
    insertion, carries in its volume cell the order most recently shown in
    it, and is hidden if and only if that order is not active. *)
Theorem active_monitor_hides_exactly_inactive :
  forall (events : list Event),
    forallb (well_typed OrderMonitor) events = true ->
    exists m,
      ActiveOrderMonitor_process_events events (fresh_monitor OrderMonitor) = (m, []) /\
      forall row, row ∈ rows m ->
        exists i c d,
          items row = block 13 i /\
          store m !! (i * 13 + 8) = Some c /\
          get_data c = Some d /\
          (hidden row = true <-> is_active d = false).
Proof.
  intros events Hty. exact (active_monitor_rows events Hty).
Qed.

End ActiveOrderInvariant.
Section ActiveOrderExport.
Context `{RT : Runtime} {HT : Host}.
Local Open Scope monitor_scope.
Local Open Scope nat_scope.
Local Open Scope list_scope.

Lemma filter_ext_in {A} (P Q : A -> Prop) `{DP : !forall x, Decision (P x)}
    `{DQ : !forall x, Decision (Q x)} (l : list A) :
  (forall x, x ∈ l -> P x <-> Q x) -> filter P l = filter Q l.
Proof.
  induction l as [|x l IH]; intros Hpq; [done|].
  rewrite !filter_cons.
  assert (filter P l = filter Q l) as ->.
  { apply IH. intros y Hy. apply Hpq. by apply elem_of_cons; right. }
  pose proof (Hpq x ltac:(by apply elem_of_cons; left)) as Hx.
  destruct (decide (P x)), (decide (Q x)); tauto.
Qed.

(** X9. The CSV export of the active-order monitor holds, after the label
    line, one line for each row whose order is active, in display order, and
    no line for any other row. *)
Theorem active_monitor_exports_active_orders :
  forall (events : list Event) (path : string),
    forallb (well_typed OrderMonitor) events = true ->
    path <> ""%string ->
    exists m,
      ActiveOrderMonitor_process_events events (fresh_monitor OrderMonitor) = (m, []) /\
      save_csv OrderMonitor path m =
        Some (((fun d => display (snd d)) <$> headers OrderMonitor) ::
              (rendered_texts m 13 <$>
                 filter (fun row => row_active m row = true) (rows m))).
Proof.
  intros events path Hty Hpath.
  destruct (active_monitor_rows events Hty) as (m & Hrun & Hrows).
  exists m. split; [done|].
  unfold save_csv. apply String.eqb_neq in Hpath. rewrite Hpath.
  unfold rowCount. rewrite (csv_rows_loop OrderMonitor m (rows m) [] _ eq_refl).
  simpl. do 3 f_equal.
  apply filter_ext_in. intros row Hin.
  destruct (Hrows row Hin) as (i & c & d & Hit & Hs & Hd & Hh).
  unfold row_active, row_order. rewrite Hit.
  assert (block 13 i !! 8 = Some (Some (i * 13 + 8))) as ->.
  { unfold block. rewrite list_lookup_fmap.
    rewrite (lookup_seq_lt _ _ 8) by lia. simpl. repeat f_equal. all: lia. }
  rewrite Hs, Hd. destruct (hidden row), (is_active d); intuition congruence.
Qed.

End ActiveOrderExport.
Section MoreCellProperties.
Context `{RT : Runtime} {HT : Host}.
Local Open Scope monitor_scope.
Local Open Scope nat_scope.
Local Open Scope list_scope.

(** X10. Every line of a CSV export, the label line and each data line,
    has exactly as many fields as the monitor class has headers. *)
Theorem save_csv_lines_have_all_columns :
  forall (cls : MonitorClass) (path : string) (m : Monitor) (lines : list (list string)),
    save_csv cls path m = Some lines ->
    Forall (fun line => length line = length (headers cls)) lines.
Proof.
  intros cls path m lines H. unfold save_csv in H.
  destruct (String.eqb path ""); [discriminate|].
  injection H as <-. unfold rowCount.
  rewrite (csv_rows_loop cls m (rows m) [] _ eq_refl). simpl.
  constructor; [by rewrite length_fmap|].
  apply Forall_fmap, Forall_forall. intros row _. simpl.
  unfold rendered_texts. by rewrite length_fmap, length_seq.
Qed.

Lemma plain_set_contents cls :
  cls = BidCell \/ cls = AskCell \/ cls = MsgCell ->
  forall updates c,
    cell_class c = cls ->
    exists c',
      set_contents updates c = Return c' /\
      cell_class c' = cls /\
      foreground c' = foreground c /\
      textAlignment c' = textAlignment c /\
      text c' = match last updates with
                | Some (v, _) => py_str v
                | None => text c
                end.
Proof.
  intros Hcls. induction updates as [|[v data] updates IH]; intros c Hc; simpl.
  - by exists c.
  - assert (set_content v data c = Return (BaseCell_set_content v data c)) as ->.
    { unfold set_content. rewrite Hc. by destruct Hcls as [->|[->| ->]]. }
    destruct (IH (BaseCell_set_content v data c)) as (c' & Hrun & Hcl & Hfg & Hal & Htx);
      [done|].
    exists c'. split; [done|]. split; [done|]. split; [done|]. split; [done|].
    rewrite Htx. destruct updates as [|u updates]; [done|].
    rewrite last_cons_cons.
    destruct (last (u :: updates)) as [[]|] eqn:E; [done|].
    by apply last_None in E.
Qed.

(** X11. The colour of a bid or an ask cell and the left alignment of a
    message cell are set when the cell is created and survive every later
    update: whatever contents the cell is given, its colour (bid or ask) and
    alignment stay, no update raises, and its text is the string form of the
    latest content. *)
Theorem bid_ask_msg_cells_keep_their_look :
  forall (cls : CellClass) (v : Value) (data : Data) (updates : list (Value * Data)),
    cls = BidCell \/ cls = AskCell \/ cls = MsgCell ->
    exists c c',
      new_cell cls v data = Return c /\
      set_contents updates c = Return c' /\
      text c' = match last updates with
                | Some (v', _) => py_str v'
                | None => py_str v
                end /\
      foreground c' =
        match cls with
        | BidCell => Some COLOR_BID
        | AskCell => Some COLOR_ASK
        | _ => None
        end /\
      textAlignment c' =
        match cls with
        | MsgCell => AlignLeftVCenter
        | _ => AlignCenter
        end.
Proof.
  intros cls v data updates Hcls.
  assert (exists c, new_cell cls v data = Return c /\ cell_class c = cls /\
                    text c = py_str v /\
                    foreground c = match cls with
                                   | BidCell => Some COLOR_BID
                                   | AskCell => Some COLOR_ASK
                                   | _ => None
                                   end /\
                    textAlignment c = match cls with
                                      | MsgCell => AlignLeftVCenter
                                      | _ => AlignCenter
                                      end) as (c & Hnew & Hc & Ht & Hf & Ha).
  { destruct Hcls as [->|[->| ->]]; eexists; (split; [reflexivity|]); done. }
  destruct (plain_set_contents cls Hcls updates c Hc) as (c' & Hrun & _ & Hfg & Hal & Htx).
  exists c, c'. split; [done|]. split; [done|].
  split; [by rewrite Htx, Ht|]. split; [by rewrite Hfg|by rewrite Hal].
Qed.

End MoreCellProperties.
Section MoreOrderEntry.
Context `{RT : Runtime}.
Local Open Scope list_scope.

Lemma Assistant_send_order_cases engine symbol price quantity direction :
  let effects := Assistant_send_order engine symbol price quantity direction in
  (exists body, effects = [MessageBox warning "错误" body]) \/
  (exists gw gws tail,
      get_all_gateway_names engine = gw :: gws /\
      symbol <> ""%string /\ float_le0 price = false /\ (0 < quantity)%Z /\
      Forall (fun e => is_SendOrder e = false) tail /\
      effects =
        SendOrder (mk_OrderRequest symbol (enum_member "Exchange" "SSE") direction
                     (enum_member "OrderType" "LIMIT") (VInt quantity) (VFloat price)
                     (enum_member "Offset" "NONE") "TradingAssistant") gw :: tail).
Proof.
  unfold Assistant_send_order.
  destruct (String.eqb_spec symbol "") as [->|Hs]; simpl; [left; by eexists|].
  destruct (float_le0 price) eqn:Hp; simpl; [left; by eexists|].
  destruct (Z.leb_spec quantity 0) as [Hq|Hq]; simpl; [left; by eexists|].
  destruct (get_all_gateway_names engine) as [|gw gws] eqn:Hg; [left; by eexists|].
  right. eexists gw, gws, _. do 4 (split; [done|]).
  split; [|reflexivity].
  destruct (negb _); repeat constructor.
Qed.

Lemma Assistant_send_order_spec :
  forall (engine : MainEngine) (symbol : string) (price : Float) (quantity : Z)
         (direction : Value),
    let effects := Assistant_send_order engine symbol price quantity direction in
    (existsb is_SendOrder effects = true <->
       symbol <> ""%string /\ float_le0 price = false /\ (0 < quantity)%Z /\
       get_all_gateway_names engine <> []) /\
    (existsb is_SendOrder effects = false ->
       exists body, effects = [MessageBox warning "错误" body]) /\
    (length (filter (fun e => is_SendOrder e = true) effects) <= 1)%nat /\
    (forall req gw, SendOrder req gw ∈ effects ->
       head (get_all_gateway_names engine) = Some gw /\
       req = mk_OrderRequest symbol (enum_member "Exchange" "SSE") direction
               (enum_member "OrderType" "LIMIT") (VInt quantity) (VFloat price)
               (enum_member "Offset" "NONE") "TradingAssistant").
Proof.
  intros engine symbol price quantity direction effects.
  assert (forall tail, Forall (fun e => is_SendOrder e = false) tail ->
            existsb is_SendOrder tail = false /\
            filter (fun e => is_SendOrder e = true) tail = [] /\
            forall req gw, SendOrder req gw ∉ tail) as Htail.
  { induction tail as [|e tail IH]; intros Hall.
    - repeat split. intros req gw H. by apply elem_of_nil in H.
    - apply Forall_cons in Hall as [He Hall]. destruct (IH Hall) as (H1 & H2 & H3).
      simpl. rewrite He, H1. rewrite filter_cons, decide_False by congruence.
      repeat split; try done.
      intros req gw Hin. apply elem_of_cons in Hin as [<-|Hin]; [done|].
      by apply (H3 req gw). }
  destruct (Assistant_send_order_cases engine symbol price quantity direction)
    as [[body Hb]|(gw & gws & tail & Hg & Hs & Hp & Hq & Hall & He)];
    fold effects in Hb || fold effects in He.
  - rewrite Hb. split; [|split; [|split]].
    + simpl. split; [discriminate|]. intros (Hs & Hp & Hq & Hg).
      exfalso. subst effects. unfold Assistant_send_order in Hb.
      apply String.eqb_neq in Hs. rewrite Hs, Hp in Hb. simpl in Hb.
      destruct (Z.leb_spec quantity 0); [lia|].
      destruct (get_all_gateway_names engine); [done|]. discriminate Hb.
    + intros _. by exists body.
    + rewrite filter_cons, decide_False by done. simpl. lia.
    + intros req gw Hin. apply list_elem_of_singleton in Hin. discriminate Hin.
  - destruct (Htail tail Hall) as (H1 & H2 & H3).
    rewrite He. split; [|split; [|split]].
    + simpl. split; [|done]. intros _. rewrite Hg. done.
    + simpl. discriminate.
    + rewrite filter_cons, decide_True by done. rewrite H2. simpl. lia.
    + intros req gw' Hin. apply elem_of_cons in Hin as [[= -> ->]|Hin].
      * rewrite Hg. done.
      * by apply H3 in Hin.
Qed.

(** X12. TradingAssistantWidget.send_order hands an order to the engine
    only when the symbol is not empty, the price is not at or below zero,
    the quantity is positive and the engine has a gateway; then it sends
    exactly one order, a limit order on SSE for that symbol, price, quantity
    and direction, to the first gateway.  In every other case it opens one
    warning box and sends nothing. *)
Theorem assistant_send_order_sends_valid_orders_only :
  forall (engine : MainEngine) (symbol : string) (price : Float) (quantity : Z)
         (direction : Value),
    let effects := Assistant_send_order engine symbol price quantity direction in
    (existsb is_SendOrder effects = true <->
       symbol <> ""%string /\ float_le0 price = false /\ (0 < quantity)%Z /\
       get_all_gateway_names engine <> []) /\
    (existsb is_SendOrder effects = false ->
       exists body, effects = [MessageBox warning "错误" body]) /\
    (length (filter (fun e => is_SendOrder e = true) effects) <= 1)%nat /\
    (forall req gw, SendOrder req gw ∈ effects ->
       head (get_all_gateway_names engine) = Some gw /\
       req = mk_OrderRequest symbol (enum_member "Exchange" "SSE") direction
               (enum_member "OrderType" "LIMIT") (VInt quantity) (VFloat price)
               (enum_member "Offset" "NONE") "TradingAssistant").
Proof.
  intros engine symbol price quantity direction.
  exact (Assistant_send_order_spec engine symbol price quantity direction).
Qed.


Lemma submit_row_orders engine r direction error_text :
  (length (filter (fun e => is_SendOrder e = true)
             (submit_row engine r direction error_text)) <= 1)%nat /\
  forall req gw,
    SendOrder req gw ∈ submit_row engine r direction error_text ->
    exists price quantity,
      py_float (or_0 (price_edit r)) = Return price /\
      py_int (or_0 (qty_edit r)) = Return quantity /\
      float_gt0 price = true /\ (0 < quantity)%Z /\
      str_strip (symbol_edit r) <> ""%string /\
      req = mk_OrderRequest (str_strip (symbol_edit r)) (enum_member "Exchange" "SSE")
              direction (enum_member "OrderType" "LIMIT") (VInt quantity) (VFloat price)
              (enum_member "Offset" "NONE") "TradingAssistant".
Proof.
  unfold submit_row.
  assert (forall body : string,
            (length (filter (fun e => is_SendOrder e = true)
                       [MessageBox warning "错误" body]) <= 1)%nat /\
            forall req gw, SendOrder req gw ∉ [MessageBox warning "错误" body]) as Hbox.
  { intros body. split.
    - rewrite filter_cons, decide_False by done. simpl. lia.
    - intros req gw H. apply list_elem_of_singleton in H. discriminate H. }
  destruct (py_float (or_0 (price_edit r))) as [price|e] eqn:Hp.
  2:{ destruct (Hbox error_text) as [H1 H2]. split; [done|].
      intros req gw H. by apply H2 in H. }
  destruct (py_int (or_0 (qty_edit r))) as [quantity|e] eqn:Hq.
  2:{ destruct (Hbox error_text) as [H1 H2]. split; [done|].
      intros req gw H. by apply H2 in H. }
  destruct (String.eqb_spec (str_strip (symbol_edit r)) "") as [Hs|Hs]; simpl.
  { split; [simpl; lia|]. intros req gw H. by apply elem_of_nil in H. }
  destruct (float_gt0 price) eqn:Hg; simpl.
  2:{ split; [simpl; lia|]. intros req gw H. by apply elem_of_nil in H. }
  destruct (Z.ltb_spec 0 quantity) as [Hpos|Hneg]; simpl.
  2:{ split; [simpl; lia|]. intros req gw H. by apply elem_of_nil in H. }
  destruct (Assistant_send_order_spec engine
              (str_strip (symbol_edit r)) price quantity direction)
    as (_ & _ & Hcount & Hreq).
  split; [done|]. intros req gw Hin.
  destruct (Hreq req gw Hin) as [_ ->]. by exists price, quantity.
Qed.


Lemma filter_app_length {A} (P : A -> Prop) `{DP : !forall x, Decision (P x)} (l1 l2 : list A) :
  length (filter P (l1 ++ l2)) = (length (filter P l1) + length (filter P l2))%nat.
Proof. by rewrite filter_app, length_app. Qed.

(** X13. Every order the assistant's buy handler sends is a long limit
    order and every order its sell handler sends a short one, each built
    from a form row whose price and quantity parsed to positive numbers and
    whose stripped symbol is not empty.  A handler sends at most one order
    per row, at most two in all, and does nothing at all with the spin box
    below one.  A row that parses but has an empty symbol, a price that is
    not positive or a quantity that is not positive is skipped without any
    message. *)
Theorem assistant_handlers_send_one_sided_orders :
  forall (engine : MainEngine) (f : OrderForm),
    (forall req gw, SendOrder req gw ∈ on_buy_order_clicked engine f ->
       req_direction req = enum_member "Direction" "LONG" /\
       req_type req = enum_member "OrderType" "LIMIT" /\
       exists price quantity, req_price req = VFloat price /\ float_gt0 price = true /\
                              req_volume req = VInt quantity /\ (0 < quantity)%Z) /\
    (forall req gw, SendOrder req gw ∈ on_sell_order_clicked engine f ->
       req_direction req = enum_member "Direction" "SHORT" /\
       req_type req = enum_member "OrderType" "LIMIT" /\
       exists price quantity, req_price req = VFloat price /\ float_gt0 price = true /\
                              req_volume req = VInt quantity /\ (0 < quantity)%Z) /\
    (length (filter (fun e => is_SendOrder e = true) (on_buy_order_clicked engine f)) <= 2)%nat /\
    (length (filter (fun e => is_SendOrder e = true) (on_sell_order_clicked engine f)) <= 2)%nat /\
    ((spinBox f < 1)%Z ->
       on_buy_order_clicked engine f = [] /\ on_sell_order_clicked engine f = []) /\
    (forall r direction error_text price quantity,
       py_float (or_0 (price_edit r)) = Return price ->
       py_int (or_0 (qty_edit r)) = Return quantity ->
       str_strip (symbol_edit r) = ""%string \/ float_gt0 price = false \/ (quantity <= 0)%Z ->
       submit_row engine r direction error_text = []).
Proof.
  intros engine f.
  assert (forall direction e1 e2 req gw,
            SendOrder req gw ∈
              (if (1 <=? spinBox f)%Z then submit_row engine (row_1 f) direction e1 else []) ++
              (if (2 <=? spinBox f)%Z then submit_row engine (row_2 f) direction e2 else []) ->
            req_direction req = direction /\
            req_type req = enum_member "OrderType" "LIMIT" /\
            exists price quantity, req_price req = VFloat price /\ float_gt0 price = true /\
                                   req_volume req = VInt quantity /\ (0 < quantity)%Z) as Hreq.
  { intros direction e1 e2 req gw Hin.
    apply elem_of_app in Hin as [Hin|Hin].
    - destruct (1 <=? spinBox f)%Z; [|by apply elem_of_nil in Hin].
      apply submit_row_orders in Hin as (p & q & _ & _ & Hg & Hq & _ & ->).
      simpl. repeat split. by exists p, q.
    - destruct (2 <=? spinBox f)%Z; [|by apply elem_of_nil in Hin].
      apply submit_row_orders in Hin as (p & q & _ & _ & Hg & Hq & _ & ->).
      simpl. repeat split. by exists p, q. }
  assert (forall direction e1 e2,
            (length (filter (fun e => is_SendOrder e = true)
               ((if (1 <=? spinBox f)%Z then submit_row engine (row_1 f) direction e1 else []) ++
                (if (2 <=? spinBox f)%Z then submit_row engine (row_2 f) direction e2 else [])))
             <= 2)%nat) as Hcount.
  { intros direction e1 e2. rewrite filter_app_length.
    pose proof (proj1 (submit_row_orders engine (row_1 f) direction e1)) as H1.
    pose proof (proj1 (submit_row_orders engine (row_2 f) direction e2)) as H2.
    destruct (1 <=? spinBox f)%Z, (2 <=? spinBox f)%Z; simpl; lia. }
  split; [apply Hreq|]. split; [apply Hreq|].
  split; [apply Hcount|]. split; [apply Hcount|].
  split.
  - intros Hspin. unfold on_buy_order_clicked, on_sell_order_clicked.
    assert ((1 <=? spinBox f)%Z = false) as -> by lia.
    assert ((2 <=? spinBox f)%Z = false) as -> by lia. done.
  - intros r direction error_text price quantity Hp Hq Hskip.
    unfold submit_row. rewrite Hp, Hq.
    destruct Hskip as [->|[->|Hle]]; simpl.
    + done.
    + by rewrite andb_false_r.
    + assert ((0 <? quantity)%Z = false) as -> by lia. by rewrite andb_false_r.
Qed.


Ltac raised :=
  simpl; split; [lia|]; split; [done|]; split; [done|];
  split; [by intros e [= <-]|];
  let H := fresh in intros req gw H; by apply elem_of_nil in H.

Lemma TradingWidget_send_order_bounds :
  forall (w : TradingWidget),
    let effects := fst (TradingWidget_send_order w) in
    let outcome := snd (TradingWidget_send_order w) in
    (length effects <= 1)%nat /\
    (symbol_line w = ""%string ->
       effects = [MessageBox critical "委托失败" "请输入合约代码"] /\ outcome = Return tt) /\
    (symbol_line w <> ""%string -> volume_line w = ""%string ->
       effects = [MessageBox critical "委托失败" "请输入委托数量"] /\ outcome = Return tt) /\
    (forall e, outcome = Raise e -> e = ValueError /\ effects = []) /\
    (forall req gw, SendOrder req gw ∈ effects ->
       outcome = Return tt /\
       gw = gateway_combo w /\
       req_symbol req = symbol_line w /\
       symbol_line w <> ""%string /\
       req_reference req = "ManualTrading"%string /\
       (exists x, py_float (volume_line w) = Return x /\ req_volume req = VFloat x) /\
       (price_line w = ""%string -> req_price req = VInt 0) /\
       (price_line w <> ""%string ->
          exists p, py_float (price_line w) = Return p /\ req_price req = VFloat p)).
Proof.
  intros w effects outcome. subst effects outcome.
  unfold TradingWidget_send_order.
  assert (forall s, py_float s = Raise ValueError \/ exists x, py_float s = Return x) as Hf.
  { intros s. unfold py_float. destruct (float_of_text s); eauto. }
  assert (forall c s, enum_of c s = Raise ValueError \/ exists v, enum_of c s = Return v) as He.
  { intros c s. unfold enum_of. destruct (enum_by_value c s); eauto. }
  destruct (String.eqb_spec (symbol_line w) "") as [Hs|Hs]; simpl.
  { split; [lia|]. split; [done|]. split; [done|]. split; [by intros e [=]|].
    intros req gw H. apply list_elem_of_singleton in H. discriminate H. }
  destruct (String.eqb_spec (volume_line w) "") as [Hv|Hv]; simpl.
  { split; [lia|]. split; [done|]. split; [done|]. split; [by intros e [=]|].
    intros req gw H. apply list_elem_of_singleton in H. discriminate H. }
  destruct (Hf (volume_line w)) as [->|[x ->]]; [raised|].
  destruct (String.eqb_spec (price_line w) "") as [Hp|Hp].
  - destruct (He "Exchange"%string (exchange_combo w)) as [->|[ex ->]]; [raised|].
    destruct (He "Direction"%string (direction_combo w)) as [->|[di ->]]; [raised|].
    destruct (He "OrderType"%string (order_type_combo w)) as [->|[ty ->]]; [raised|].
    destruct (He "Offset"%string (offset_combo w)) as [->|[off ->]]; [raised|].
    simpl. split; [lia|]. split; [done|]. split; [done|]. split; [done|].
    intros req gw H. apply list_elem_of_singleton in H. injection H as Hr Hg.
    subst req gw. simpl. repeat split; try done. by exists x.
  - destruct (Hf (price_line w)) as [->|[p Hfp]]; [raised|]. rewrite Hfp.
    destruct (He "Exchange"%string (exchange_combo w)) as [->|[ex ->]]; [raised|].
    destruct (He "Direction"%string (direction_combo w)) as [->|[di ->]]; [raised|].
    destruct (He "OrderType"%string (order_type_combo w)) as [->|[ty ->]]; [raised|].
    destruct (He "Offset"%string (offset_combo w)) as [->|[off ->]]; [raised|].
    simpl. split; [lia|]. split; [done|]. split; [done|]. split; [done|].
    intros req gw H. apply list_elem_of_singleton in H. injection H as Hr Hg.
    subst req gw. simpl. repeat split; try done. by exists x. intros _. by exists p.
Qed.

Lemma TradingWidget_send_order_sends (w : TradingWidget) (x : Float)
    (price exchange direction type offset : Value) :
  symbol_line w <> ""%string ->
  volume_line w <> ""%string ->
  py_float (volume_line w) = Return x ->
  (price_line w = ""%string /\ price = VInt 0 \/
   price_line w <> ""%string /\
   exists p, py_float (price_line w) = Return p /\ price = VFloat p) ->
  enum_of "Exchange" (exchange_combo w) = Return exchange ->
  enum_of "Direction" (direction_combo w) = Return direction ->
  enum_of "OrderType" (order_type_combo w) = Return type ->
  enum_of "Offset" (offset_combo w) = Return offset ->
  TradingWidget_send_order w =
    ([SendOrder (mk_OrderRequest (symbol_line w) exchange direction type
                   (VFloat x) price offset "ManualTrading") (gateway_combo w)],
     Return tt).
Proof.
  intros Hs Hv Hx Hp Hex Hdi Hty Hoff. unfold TradingWidget_send_order.
  rewrite (proj2 (String.eqb_neq _ _) Hs), (proj2 (String.eqb_neq _ _) Hv), Hx.
  destruct Hp as [[Hp ->]|(Hp & p & Hfp & ->)].
  - rewrite Hp. cbn [String.eqb]. by rewrite Hex, Hdi, Hty, Hoff.
  - rewrite (proj2 (String.eqb_neq _ _) Hp), Hfp. by rewrite Hex, Hdi, Hty, Hoff.
Qed.

Lemma TradingWidget_send_order_raises (w : TradingWidget) :
  symbol_line w <> ""%string ->
  volume_line w <> ""%string ->
  py_float (volume_line w) = Raise ValueError \/
  (price_line w <> ""%string /\ py_float (price_line w) = Raise ValueError) \/
  enum_of "Exchange" (exchange_combo w) = Raise ValueError \/
  enum_of "Direction" (direction_combo w) = Raise ValueError \/
  enum_of "OrderType" (order_type_combo w) = Raise ValueError \/
  enum_of "Offset" (offset_combo w) = Raise ValueError ->
  TradingWidget_send_order w = ([], Raise ValueError).
Proof.
  intros Hs Hv H. unfold TradingWidget_send_order.
  rewrite (proj2 (String.eqb_neq _ _) Hs), (proj2 (String.eqb_neq _ _) Hv).
  assert (forall s, py_float s = Raise ValueError \/ exists x, py_float s = Return x) as Hf.
  { intros s. unfold py_float. destruct (float_of_text s); eauto. }
  assert (forall c s, enum_of c s = Raise ValueError \/ exists v, enum_of c s = Return v) as He.
  { intros c s. unfold enum_of. destruct (enum_by_value c s); eauto. }
  destruct (Hf (volume_line w)) as [->|[x Hx]]; [done|]. rewrite Hx.
  destruct H as [H|H]; [congruence|].
  assert ((if String.eqb (price_line w) ""
           then Return (VInt 0)
           else match py_float (price_line w) with
                | Return x0 => Return (VFloat x0)
                | Raise e => Raise e
                end) = Raise ValueError \/
          (exists price,
             (if String.eqb (price_line w) ""
              then Return (VInt 0)
              else match py_float (price_line w) with
                   | Return x0 => Return (VFloat x0)
                   | Raise e => Raise e
                   end) = Return price) /\
          (enum_of "Exchange" (exchange_combo w) = Raise ValueError \/
           enum_of "Direction" (direction_combo w) = Raise ValueError \/
           enum_of "OrderType" (order_type_combo w) = Raise ValueError \/
           enum_of "Offset" (offset_combo w) = Raise ValueError)) as [->|[[price ->] H']];
    [|done|].
  { destruct (String.eqb_spec (price_line w) "") as [Hp|Hp].
    - right. split; [by eexists|]. destruct H as [[? _]|H]; [done|exact H].
    - destruct (Hf (price_line w)) as [->|[p Hfp]]; [by left|]. rewrite Hfp.
      right. split; [by eexists|]. destruct H as [[_ ?]|H]; [congruence|exact H]. }
  destruct (He "Exchange"%string (exchange_combo w)) as [->|[ex Hex]]; [done|]. rewrite Hex.
  destruct H' as [H'|H']; [congruence|].
  destruct (He "Direction"%string (direction_combo w)) as [->|[di Hdi]]; [done|]. rewrite Hdi.
  destruct H' as [H'|H']; [congruence|].
  destruct (He "OrderType"%string (order_type_combo w)) as [->|[ty Hty]]; [done|]. rewrite Hty.
  destruct H' as [H'|H']; [congruence|].
  by rewrite H'.
Qed.

(** X14. TradingWidget.send_order does exactly one thing.  With an empty
    symbol or an empty volume text it opens the matching critical box and
    returns.  Otherwise, when the volume text, the price text if there is
    one, and the four combo texts all parse, it sends exactly one order, to
    the gateway of the combo box, for the symbol typed, with the parsed
    volume and enum members, with price 0 when the price text is empty and
    the parsed price otherwise, under the reference ManualTrading; and when
    one of them does not parse it ends with a ValueError and no effect.  It
    never has more than one effect, raises nothing but ValueError, and sends
    no order but that one. *)
Theorem trading_widget_send_order_does_one_thing :
  forall (w : TradingWidget),
    let effects := fst (TradingWidget_send_order w) in
    let outcome := snd (TradingWidget_send_order w) in
    (length effects <= 1)%nat /\
    (symbol_line w = ""%string ->
       effects = [MessageBox critical "委托失败" "请输入合约代码"] /\ outcome = Return tt) /\
    (symbol_line w <> ""%string -> volume_line w = ""%string ->
       effects = [MessageBox critical "委托失败" "请输入委托数量"] /\ outcome = Return tt) /\
    (forall e, outcome = Raise e -> e = ValueError /\ effects = []) /\
    (forall req gw, SendOrder req gw ∈ effects ->
       outcome = Return tt /\
       gw = gateway_combo w /\
       req_symbol req = symbol_line w /\
       symbol_line w <> ""%string /\
       req_reference req = "ManualTrading"%string /\
       (exists x, py_float (volume_line w) = Return x /\ req_volume req = VFloat x) /\
       (price_line w = ""%string -> req_price req = VInt 0) /\
       (price_line w <> ""%string ->
          exists p, py_float (price_line w) = Return p /\ req_price req = VFloat p)) /\
    (forall (x : Float) (price exchange direction type offset : Value),
       symbol_line w <> ""%string ->
       volume_line w <> ""%string ->
       py_float (volume_line w) = Return x ->
       (price_line w = ""%string /\ price = VInt 0 \/
        price_line w <> ""%string /\
        exists p, py_float (price_line w) = Return p /\ price = VFloat p) ->
       enum_of "Exchange" (exchange_combo w) = Return exchange ->
       enum_of "Direction" (direction_combo w) = Return direction ->
       enum_of "OrderType" (order_type_combo w) = Return type ->
       enum_of "Offset" (offset_combo w) = Return offset ->
       effects =
         [SendOrder (mk_OrderRequest (symbol_line w) exchange direction type
                       (VFloat x) price offset "ManualTrading") (gateway_combo w)] /\
       outcome = Return tt) /\
    (symbol_line w <> ""%string ->
     volume_line w <> ""%string ->
     py_float (volume_line w) = Raise ValueError \/
     (price_line w <> ""%string /\ py_float (price_line w) = Raise ValueError) \/
     enum_of "Exchange" (exchange_combo w) = Raise ValueError \/
     enum_of "Direction" (direction_combo w) = Raise ValueError \/
     enum_of "OrderType" (order_type_combo w) = Raise ValueError \/
     enum_of "Offset" (offset_combo w) = Raise ValueError ->
     effects = [] /\ outcome = Raise ValueError).
Proof.
  intros w effects outcome. subst effects outcome.
  destruct (TradingWidget_send_order_bounds w) as (H1 & H2 & H3 & H4 & H5).
  split; [exact H1|]. split; [exact H2|]. split; [exact H3|]. split; [exact H4|].
  split; [exact H5|]. split.
  - intros x price exchange direction type offset Hs Hv Hx Hp Hex Hdi Hty Hoff.
    by rewrite (TradingWidget_send_order_sends w x price exchange direction type offset).
  - intros Hs Hv H. by rewrite (TradingWidget_send_order_raises w Hs Hv H).
Qed.

End MoreOrderEntry.
Section DialogProperties.
Context `{RT : Runtime} {CV : Conversions}.
Local Open Scope list_scope.

Lemma convert_type t text v : convert t text = Return v -> type_of v = t.
Proof.
  destruct t; simpl.
  - by intros [= <-].
  - destruct (py_int text); [|discriminate]. by intros [= <-].
  - destruct (py_float text); [|discriminate]. by intros [= <-].
  - by intros [= <-].
Qed.

Lemma default_of_type t : type_of (default_of t) = t.
Proof. by destruct t. Qed.

(** X15. ConnectDialog.connect_gateway never fails on what was typed: it
    saves one value per field, under the field's name and in the order of
    the form, a string for a combo box and for a line edit a value of the
    type the default setting had; a number that does not parse is saved as
    the zero of its type. *)
Theorem connect_gateway_saves_typed_values :
  forall (widgets : list (string * Field)),
    fst <$> connect_gateway widgets = fst <$> widgets /\
    Forall2
      (fun w s =>
         match snd w with
         | ComboField items current => snd s = SStr (currentText items current)
         | LineField text t =>
             type_of (snd s) = t /\
             (forall v, convert t text = Return v -> snd s = v) /\
             (py_int text = Raise ValueError -> t = TInt -> snd s = SInt 0) /\
             (py_float text = Raise ValueError -> t = TFloat -> snd s = SFloat float_zero)
         end)
      widgets (connect_gateway widgets).
Proof.
  induction widgets as [|[name w] widgets [IH1 IH2]]; simpl.
  - split; [done|constructor].
  - split; [by f_equal|]. constructor; [|done]. simpl.
    destruct w as [items current|text t]; simpl; [done|].
    destruct (convert t text) as [v|e] eqn:E.
    + split; [by eapply convert_type|]. split; [by intros v' [= <-]|].
      split; intros Hp ->; simpl in E; rewrite Hp in E; discriminate.
    + split; [apply default_of_type|]. split; [discriminate|].
      split; by intros _ ->.
Qed.

Lemma currentText_findText text items :
  currentText items (findText text items) =
    if bool_decide (text ∈ items) then text else ""%string.
Proof.
  induction items as [|s items IH].
  - rewrite bool_decide_eq_false_2; [reflexivity|]. by inversion 1.
  - cbn [findText]. destruct (String.eqb_spec s text) as [->|Hne].
    + rewrite bool_decide_eq_true_2; [reflexivity|]. by left.
    + assert (currentText (s :: items) (S <$> findText text items) =
              currentText items (findText text items)) as ->.
      { by destruct (findText text items). }
      rewrite IH. destruct (decide (text ∈ items)) as [Hin|Hin].
      * rewrite !bool_decide_eq_true_2; [done|by right|done].
      * rewrite !bool_decide_eq_false_2; [done| |done].
        intros [?|?]%elem_of_cons; congruence.
Qed.

(** X16. Opening the connect dialog and confirming it without an edit
    saves, for every field of the default setting: for a string field the
    value saved last time, or the default when there is none; for a list
    field the value saved last time when it is still one of the choices, an
    empty string when it no longer is, and the first choice when nothing was
    saved; and for a boolean field True whenever the text shown is not
    empty, so that a default or saved False comes back as True. *)
Theorem connect_dialog_reopened :
  forall (default_setting : list (string * Default)) (loaded_setting : gmap string Scalar)
         (widgets : list (string * Field)),
    ConnectDialog_init_ui default_setting loaded_setting = Return widgets ->
    connect_gateway widgets =
      (fun d => (fst d, reopened (snd d) (loaded_setting !! fst d))) <$> default_setting /\
    (forall b saved, reopened (DScalar (SBool b)) (Some (SBool saved)) = SBool true) /\
    (forall b, reopened (DScalar (SBool b)) None = SBool true) /\
    (forall s saved, reopened (DScalar (SStr s)) (Some (SStr saved)) = SStr saved).
Proof.
  intros default_setting loaded_setting.
  split; [|split; [|split]].
  - revert widgets H.
    induction default_setting as [|[name d] defaults IH]; intros widgets H; simpl in *.
    + by injection H as <-.
    + destruct d as [v|choices].
      * destruct (ConnectDialog_init_ui defaults loaded_setting) as [ws|] eqn:E;
          [|by destruct (loaded_setting !! name)].
        assert (widgets =
                (name, LineField (scalar_str (match loaded_setting !! name with
                                              | Some s => s | None => v end))
                         (type_of v)) :: ws) as ->.
        { destruct (loaded_setting !! name); by injection H as <-. }
        simpl. rewrite (IH ws eq_refl). f_equal. f_equal.
        unfold reopened. by destruct (type_of v).
      * destruct (loaded_setting !! name) as [[s|z|x|b]|] eqn:El; try discriminate.
        -- destruct (ConnectDialog_init_ui defaults loaded_setting) as [ws|] eqn:E;
             [|discriminate].
           injection H as <-. simpl. rewrite (IH ws eq_refl). f_equal. f_equal.
           by rewrite currentText_findText.
        -- destruct (ConnectDialog_init_ui defaults loaded_setting) as [ws|] eqn:E;
             [|discriminate].
           injection H as <-. simpl. rewrite (IH ws eq_refl). f_equal. f_equal.
           by destruct choices.
  - intros b saved. unfold reopened. simpl. by destruct saved.
  - intros b. unfold reopened. simpl. by destruct b.
  - done.
Qed.

End DialogProperties.

Section GlobalDialogProperties.
Context `{RT : Runtime} {CV : Conversions}.
Local Open Scope list_scope.

Lemma read_settings_round_trip (settings : list (string * Scalar)) :
  Forall (fun s => reads_back (snd s)) settings ->
  read_settings (GlobalDialog_init_ui settings) = Return settings.
Proof.
  induction 1 as [|[name v] settings Hv _ IH]; [done|].
  cbn [GlobalDialog_init_ui fmap list_fmap read_settings fst snd] in *.
  fold (GlobalDialog_init_ui settings). rewrite IH.
  destruct v as [s|z|x|b]; cbn [type_of convert reads_back] in *.
  - done.
  - unfold py_int. by rewrite Hv.
  - unfold py_float. by rewrite Hv.
  - by destruct b.
Qed.

(** X17. Confirming the global settings dialog without an edit shows the
    note, saves the settings it was opened with, value for value and in
    order, and closes: strings and booleans always come back as they were,
    and a number does when its own text reads back as itself. *)
Theorem global_dialog_unedited_saves_same_settings :
  forall settings : list (string * Scalar),
    Forall (fun s => reads_back (snd s)) settings ->
    update_setting (GlobalDialog_init_ui settings) =
      ([InformationBox "注意" "全局配置的修改需要重启后才会生效！";
        SaveJson settings; Accept], Return tt).
Proof.
  intros settings H. unfold update_setting.
  by rewrite read_settings_round_trip.
Qed.

Lemma read_settings_unreadable widgets :
  Exists unreadable widgets -> read_settings widgets = Raise ValueError.
Proof.
  induction widgets as [|[name [text t]] widgets IH]; intros H.
  - by apply Exists_nil in H.
  - apply Exists_cons in H. cbn [read_settings].
    destruct t; simpl.
    + destruct H as [[]|H]. by rewrite IH.
    + unfold py_int. destruct (int_of_text text) eqn:E; [|done].
      destruct H as [H|H]; [unfold unreadable in H; simpl in H; congruence|].
      by rewrite IH.
    + unfold py_float. destruct (float_of_text text) eqn:E; [|done].
      destruct H as [H|H]; [unfold unreadable in H; simpl in H; congruence|].
      by rewrite IH.
    + destruct H as [[]|H]. by rewrite IH.
Qed.

Lemma read_settings_readable widgets :
  Forall (fun w => ~ unreadable w) widgets ->
  exists settings,
    read_settings widgets = Return settings /\
    fst <$> settings = fst <$> widgets /\
    Forall2 (fun w s =>
               type_of (snd s) = snd (snd w) /\
               (snd (snd w) = TBool ->
                snd s = SBool (String.eqb (fst (snd w)) "True")))
            widgets settings.
Proof.
  induction 1 as [|[name [text t]] widgets Hw _ (settings & IH & Hn & Ht)].
  - exists []. by repeat constructor.
  - cbn [read_settings]. rewrite IH. unfold unreadable in Hw. simpl in Hw.
    destruct t; simpl.
    + eexists. split; [done|]. split; [simpl; by f_equal|].
      constructor; [|done]. by split.
    + unfold py_int. destruct (int_of_text text) as [z|]; [|done].
      eexists. split; [done|]. split; [simpl; by f_equal|].
      constructor; [|done]. by split.
    + unfold py_float. destruct (float_of_text text) as [x|]; [|done].
      eexists. split; [done|]. split; [simpl; by f_equal|].
      constructor; [|done]. by split.
    + eexists. split; [done|]. split; [simpl; by f_equal|].
      constructor; [|done]. by split.
Qed.

(** X18. GlobalDialog.update_setting saves all the fields or nothing: when
    the text of some int or float field does not parse, the ValueError
    leaves the handler before the note is shown, nothing is saved and the
    dialog stays open; otherwise it shows the note, saves one value per
    field, of the field's type and in order, and closes, a boolean field
    being True exactly when its text is the word True. *)
Theorem global_dialog_saves_all_or_nothing :
  forall widgets : list (string * (string * ScalarType)),
    (Exists unreadable widgets ->
     update_setting widgets = ([], Raise ValueError)) /\
    (Forall (fun w => ~ unreadable w) widgets ->
     exists settings,
       update_setting widgets =
         ([InformationBox "注意" "全局配置的修改需要重启后才会生效！";
           SaveJson settings; Accept], Return tt) /\
       fst <$> settings = fst <$> widgets /\
       Forall2 (fun w s =>
                  type_of (snd s) = snd (snd w) /\
                  (snd (snd w) = TBool ->
                   snd s = SBool (String.eqb (fst (snd w)) "True")))
               widgets settings).
Proof.
  intros widgets. split; intros H; unfold update_setting.
  - by rewrite read_settings_unreadable.
  - destruct (read_settings_readable widgets H) as (settings & -> & Hn & Ht).
    by exists settings.
Qed.

End GlobalDialogProperties.
Section ContractProperties.
Context `{RT : Runtime}.
Local Open Scope list_scope.

Lemma append_String a s t : (String a s +:+ t = String a (s +:+ t))%string.
Proof. reflexivity. Qed.

Lemma append_Empty t : (EmptyString +:+ t = t)%string.
Proof. reflexivity. Qed.

Lemma prefix_spec flt s :
  String.prefix flt s = true <-> exists post, s = (flt +:+ post)%string.
Proof.
  revert s. induction flt as [|a flt IH]; intros s.
  - split; [intros _; by exists s|intros _; by destruct s].
  - destruct s as [|b s].
    + split; [done|]. by intros [post ?].
    + cbn [String.prefix]. destruct (ascii_dec a b) as [->|Hne].
      * rewrite IH. split; intros [post E]; exists post;
          rewrite append_String in *; congruence.
      * split; [done|]. intros [post E]. rewrite append_String in E. congruence.
Qed.

Lemma contains_spec flt s :
  contains flt s = true <-> exists pre post, s = (pre +:+ flt +:+ post)%string.
Proof.
  induction s as [|a s IH]; cbn [contains]; rewrite orb_true_iff, prefix_spec.
  - split.
    + intros [[post E]|]; [|done]. by exists EmptyString, post.
    + intros (pre & post & E). left.
      destruct pre; [by exists post|]. by rewrite append_String in E.
  - rewrite IH. split.
    + intros [[post E]|(pre & post & E)].
      * by exists EmptyString, post.
      * exists (String a pre), post. by rewrite append_String, E.
    + intros (pre & post & E). destruct pre as [|b pre].
      * left. by exists post.
      * right. exists pre, post. rewrite append_String in E. congruence.
Qed.

Lemma select_contracts_filter flt all_contracts :
  Forall (fun c => exists s, c !! "vt_symbol" = Some (VStr s)) all_contracts ->
  select_contracts flt all_contracts = Return (List.filter (matches flt) all_contracts).
Proof.
  induction 1 as [|c cs [s Hs] _ IH]; [done|].
  cbn [select_contracts List.filter]. unfold getattr, matches at 1.
  rewrite Hs. cbn [flt_in]. rewrite IH. by destruct (contains flt s).
Qed.

(** The text a contract attribute is shown with. *)
Lemma contract_cell_text value contract :
  exists cell,
    contract_cell value contract = Return cell /\
    _data cell = Some contract /\
    text cell =
      if blanked value then ""%string
      else match value with
           | VEnum _ _ label => label
           | VDatetime d => strftime_date d
           | _ => py_str value
           end.
Proof.
  unfold contract_cell.
  destruct value as [|b|z|x|s|cls name label|d]; cbn [blanked].
  - by eexists.
  - destruct b; by eexists.
  - destruct (z =? 0)%Z; by eexists.
  - destruct (float_bool x); by eexists.
  - by eexists.
  - by eexists.
  - by eexists.
Qed.

Lemma contract_row_texts names contract :
  Forall (fun name => is_Some (contract !! name)) names ->
  exists row,
    contract_row names contract = Return row /\
    Forall2 (fun name cell =>
               exists value,
                 contract !! name = Some value /\
                 _data cell = Some contract /\
                 text cell =
                   if blanked value then ""%string
                   else match value with
                        | VEnum _ _ label => label
                        | VDatetime d => strftime_date d
                        | _ => py_str value
                        end)
            names row.
Proof.
  induction 1 as [|name names [value Hv] _ (row & IH & Hrow)].
  - exists []. by split; [|constructor].
  - destruct (contract_cell_text value contract) as (cell & Hc & Hd & Ht).
    exists (cell :: row). cbn [contract_row]. unfold getattr.
    rewrite Hv, Hc, IH. split; [done|]. constructor; [|done].
    by exists value.
Qed.

Lemma contract_rows_texts names contracts :
  Forall (fun c => Forall (fun name => is_Some (c !! name)) names) contracts ->
  exists table,
    contract_rows names contracts = Return table /\
    Forall2 (fun contract row =>
               Forall2 (fun name cell =>
                          exists value,
                            contract !! name = Some value /\
                            _data cell = Some contract /\
                            text cell =
                              if blanked value then ""%string
                              else match value with
                                   | VEnum _ _ label => label
                                   | VDatetime d => strftime_date d
                                   | _ => py_str value
                                   end)
                       names row)
            contracts table.
Proof.
  induction 1 as [|c cs Hc _ (table & IH & Htable)].
  - exists []. by split; [|constructor].
  - destruct (contract_row_texts names c Hc) as (row & Hr & Hrow).
    exists (row :: table). cbn [contract_rows]. rewrite Hr, IH.
    split; [done|]. by constructor.
Qed.

Lemma Forall_filter_bool {A} (P : A -> Prop) (f : A -> bool) (l : list A) :
  Forall P l -> Forall P (List.filter f l).
Proof.
  induction 1 as [|x l Hx _ IH]; simpl; [constructor|].
  destruct (f x); [by constructor|done].
Qed.

Lemma show_contracts_table names flt all_contracts :
  Forall (complete names) all_contracts ->
  exists table,
    show_contracts names flt all_contracts = Return table /\
    Forall2 (fun contract row =>
               Forall2 (fun name cell =>
                          exists value,
                            contract !! name = Some value /\
                            _data cell = Some contract /\
                            text cell =
                              if blanked value then ""%string
                              else match value with
                                   | VEnum _ _ label => label
                                   | VDatetime d => strftime_date d
                                   | _ => py_str value
                                   end)
                       names row)
            (if String.eqb flt "" then all_contracts
             else List.filter (matches flt) all_contracts)
            table.
Proof.
  intros H. unfold show_contracts.
  assert (Forall (fun c => Forall (fun name => is_Some (c !! name)) names)
                 all_contracts) as Hattrs.
  { eapply Forall_impl; [exact H|]. by intros c [_ ?]. }
  destruct (String.eqb flt ""); cbn [negb].
  - by apply contract_rows_texts.
  - rewrite select_contracts_filter
      by (eapply Forall_impl; [exact H|]; by intros c [? _]).
    apply contract_rows_texts. by apply Forall_filter_bool.
Qed.

(** X19. For contract records that have a string vt_symbol and every
    attribute of the headers, ContractManager.show_contracts raises nothing
    and fills one row per contract, in the engine's order: every contract
    when the filter line is empty, otherwise exactly those whose vt_symbol
    holds the filter text as a substring.  A row has one cell per header,
    carrying the contract; a cell is empty when the attribute is None or
    equals 0 (0, 0.0 and False alike), shows the member's value for an
    enum, the date for a datetime and str(value) for anything else. *)
Theorem show_contracts_rows_and_texts :
  forall (names : list string) (flt : string) (all_contracts : list Data),
    Forall (complete names) all_contracts ->
    exists table,
      show_contracts names flt all_contracts = Return table /\
      Forall2 (fun contract row =>
                 Forall2 (fun name cell =>
                            exists value,
                              contract !! name = Some value /\
                              _data cell = Some contract /\
                              text cell =
                                if blanked value then ""%string
                                else match value with
                                     | VEnum _ _ label => label
                                     | VDatetime d => strftime_date d
                                     | _ => py_str value
                                     end)
                         names row)
              (if String.eqb flt "" then all_contracts
               else List.filter (matches flt) all_contracts)
              table /\
      (forall contract,
         matches flt contract = true <->
         exists pre post,
           contract !! "vt_symbol" = Some (VStr (pre +:+ flt +:+ post)%string)).
Proof.
  intros names flt all_contracts H.
  destruct (show_contracts_table names flt all_contracts H) as (table & Ht & Hrows).
  exists table. split; [done|]. split; [done|].
  intros contract. unfold matches.
  destruct (contract !! "vt_symbol") as [[]|] eqn:E;
    try (split; [done|by intros (? & ? & ?)]).
  rewrite contains_spec. split.
  - intros (pre & post & ->). by exists pre, post.
  - intros (pre & post & [= ->]). by exists pre, post.
Qed.

Lemma contract_rows_sublist names (some all : list Data) table_some table_all :
  sublist some all ->
  contract_rows names all = Return table_all ->
  contract_rows names some = Return table_some ->
  sublist table_some table_all.
Proof.
  intros Hs. revert table_some table_all.
  induction Hs as [|c some all _ IH|c some all _ IH]; intros ts ta; cbn [contract_rows].
  - intros [= <-] [= <-]. constructor.
  - destruct (contract_row names c) as [row|]; [|done].
    destruct (contract_rows names all) as [ta'|]; [|done].
    destruct (contract_rows names some) as [ts'|]; [|done].
    intros [= <-] [= <-]. constructor. by apply IH.
  - destruct (contract_row names c) as [row|]; [|done].
    destruct (contract_rows names all) as [ta'|]; [|done].
    intros [= <-] Hsome. constructor. by apply IH.
Qed.

Lemma select_contracts_sublist flt all some :
  select_contracts flt all = Return some -> sublist some all.
Proof.
  revert some. induction all as [|c all IH]; intros some; cbn [select_contracts].
  - intros [= <-]. constructor.
  - destruct (getattr c "vt_symbol") as [v|]; [|done].
    destruct (flt_in flt v) as [keep|]; [|done].
    destruct (select_contracts flt all) as [cs|]; [|done].
    intros [= <-]. destruct keep; constructor; by apply IH.
Qed.

(** X20. Filtering the contract table only removes rows: whenever
    show_contracts completes with a filter text and with the filter line
    empty, the rows of the filtered table are rows of the full table, in
    the same order. *)
Theorem show_contracts_filter_only_removes_rows :
  forall (names : list string) (flt : string) (all_contracts : list Data)
         (filtered full : list (list Cell)),
    show_contracts names "" all_contracts = Return full ->
    show_contracts names flt all_contracts = Return filtered ->
    sublist filtered full.
Proof.
  intros names flt all_contracts filtered full. unfold show_contracts.
  cbn [String.eqb negb]. intros Hfull.
  destruct (String.eqb flt ""); cbn [negb].
  - intros Hf. rewrite Hfull in Hf. injection Hf as <-. done.
  - destruct (select_contracts flt all_contracts) as [some|] eqn:E; [|done].
    intros Hf. eapply contract_rows_sublist; [|exact Hfull|exact Hf].
    by eapply select_contracts_sublist.
Qed.

End ContractProperties.

Section Level2Properties.
Context `{RT : Runtime}.
Local Open Scope list_scope.

Lemma split_dot_String a s :
  split_dot (String a s) =
    if Ascii.eqb a "." then (EmptyString, fst (split_dot s) :: snd (split_dot s))
    else (String a (fst (split_dot s)), snd (split_dot s)).
Proof. cbn [split_dot]. by destruct (split_dot s), (Ascii.eqb a "."). Qed.

Lemma split_dot_no_dot s : has_dot s = false -> split_dot s = (s, []).
Proof.
  induction s as [|a s IH]; [done|]. cbn [has_dot]. intros H.
  apply orb_false_iff in H as [Ha Hs]. rewrite split_dot_String, Ha, (IH Hs). done.
Qed.




Lemma split_dot_joined symbol value :
  has_dot symbol = false ->
  has_dot (symbol +:+ "." +:+ value) = true /\
  split_dot (symbol +:+ "." +:+ value) =
    (symbol, fst (split_dot value) :: snd (split_dot value)).
Proof.
  induction symbol as [|a symbol IH]; intros H.
  - rewrite append_Empty. split; [done|]. by rewrite append_String, split_dot_String.
  - cbn [has_dot] in H. apply orb_false_iff in H as [Ha Hs].
    destruct (IH Hs) as [IH1 IH2].
    rewrite append_String. split.
    + cbn [has_dot]. by rewrite IH1, orb_true_r.
    + by rewrite split_dot_String, Ha, IH2.
Qed.



(** X22. A vt_symbol put together as TradingWidget does, symbol, dot,
    exchange value, is taken apart again by Level2Widget.set_symbol when
    neither part holds a dot: it subscribes to that symbol on the member of
    Exchange with that value, and on Exchange.SSE when no member has it. *)
Theorem set_symbol_takes_vt_symbol_apart :
  forall (gateway_names : list string) (symbol exchange_value symbol_name : string),
    has_dot symbol = false ->
    has_dot exchange_value = false ->
    exists w,
      set_symbol gateway_names (symbol +:+ "." +:+ exchange_value) symbol_name =
        Some (w,
              (fun gateway =>
                 (mk_SubscribeRequest symbol
                    match enum_by_value "Exchange" exchange_value with
                    | Some name => enum_member "Exchange" name
                    | None => enum_member "Exchange" "SSE"
                    end, gateway)) <$> take 1 gateway_names).
Proof.
  intros gateway_names symbol exchange_value symbol_name Hs He.
  destruct (split_dot_joined symbol exchange_value Hs) as [Hd Hsplit].
  unfold set_symbol. rewrite Hd, Hsplit, (split_dot_no_dot _ He).
  cbn [fst snd lookup list_lookup]. unfold enum_of.
  eexists. destruct (enum_by_value "Exchange" exchange_value);
    by destruct gateway_names.
Qed.

End Level2Properties.

Section AssistantTickProperties.
Context `{RT : Runtime}.
Local Open Scope list_scope.

Lemma update_side_spec tick symbol last_price side :
  tick !! "last_price" = Some last_price ->
  exists side',
    update_side tick (VStr symbol) side = Return side' /\
    spinBox side' = spinBox side /\
    symbol_edit (row_1 side') = symbol_edit (row_1 side) /\
    symbol_edit (row_2 side') = symbol_edit (row_2 side) /\
    qty_edit (row_1 side') = qty_edit (row_1 side) /\
    qty_edit (row_2 side') = qty_edit (row_2 side) /\
    price_edit (row_1 side') =
      (if String.eqb symbol (symbol_edit (row_1 side))
       then py_str last_price else price_edit (row_1 side)) /\
    price_edit (row_2 side') =
      (if String.eqb symbol (symbol_edit (row_1 side)) then price_edit (row_2 side)
       else if String.eqb symbol (symbol_edit (row_2 side))
            then py_str last_price else price_edit (row_2 side)).
Proof.
  intros Hp. unfold update_side, getattr. rewrite Hp. cbn [eq_text].
  destruct (String.eqb symbol (symbol_edit (row_1 side))).
  - by eexists.
  - destruct (String.eqb symbol (symbol_edit (row_2 side))); by eexists.
Qed.

(** X23. A tick with a symbol and a last price updates the assistant's form
    without raising, and only its price fields: on each side the price of
    row 1 becomes str(last_price) when the tick's symbol is that row's
    symbol text, and the price of row 2 does only when row 1 did not match
    and row 2 does; the symbols, the quantities and the spin boxes are
    never touched.  So with one symbol in both rows of a side only row 1
    follows the market. *)
Theorem tick_updates_first_matching_row_of_each_side :
  forall (tick : Data) (f : AssistantForm) (symbol : string) (last_price : Value),
    tick !! "symbol" = Some (VStr symbol) ->
    tick !! "last_price" = Some last_price ->
    exists f',
      Assistant_process_tick_event tick f = Return f' /\
      forall side : AssistantForm -> OrderForm,
        side = buy_side \/ side = sell_side ->
        spinBox (side f') = spinBox (side f) /\
        symbol_edit (row_1 (side f')) = symbol_edit (row_1 (side f)) /\
        symbol_edit (row_2 (side f')) = symbol_edit (row_2 (side f)) /\
        qty_edit (row_1 (side f')) = qty_edit (row_1 (side f)) /\
        qty_edit (row_2 (side f')) = qty_edit (row_2 (side f)) /\
        price_edit (row_1 (side f')) =
          (if String.eqb symbol (symbol_edit (row_1 (side f)))
           then py_str last_price else price_edit (row_1 (side f))) /\
        price_edit (row_2 (side f')) =
          (if String.eqb symbol (symbol_edit (row_1 (side f)))
           then price_edit (row_2 (side f))
           else if String.eqb symbol (symbol_edit (row_2 (side f)))
                then py_str last_price else price_edit (row_2 (side f))).
Proof.
  intros tick f symbol last_price Hs Hp.
  destruct (update_side_spec tick symbol last_price (buy_side f) Hp) as (buy & Hb & Hbuy).
  destruct (update_side_spec tick symbol last_price (sell_side f) Hp) as (sell & Hsl & Hsell).
  exists (mk_AssistantForm buy sell). split.
  - unfold Assistant_process_tick_event, getattr. by rewrite Hs, Hb, Hsl.
  - by intros side [-> | ->].
Qed.


End AssistantTickProperties.

Section StockTradingProperties.
Context `{RT : Runtime} {CV : Conversions}.
Local Open Scope list_scope.

(** X25. StockTradingWidget.on_fraction_selected leaves the volume text
    alone when no position is held; with a position it writes a whole
    number of lots of 100 shares, the largest one not above
    int(position * fraction): the share count is rounded down, never up,
    so less than one lot gives 0. *)
Theorem on_fraction_selected_rounds_down_to_lots :
  forall (position_volume : Z) (fraction : Float) (volume_combo : string),
    ((position_volume <= 0)%Z ->
     on_fraction_selected position_volume fraction volume_combo = Done volume_combo) /\
    (forall x shares,
       (0 < position_volume)%Z ->
       int_times_float position_volume fraction = Some x ->
       int_of_float x = Truncated shares ->
       exists lots : Z,
         on_fraction_selected position_volume fraction volume_combo =
           Done (dec_str (100 * lots)) /\
         (100 * lots <= shares < 100 * lots + 100)%Z /\
         ((0 <= shares < 100)%Z -> lots = 0%Z)).
Proof.
  intros position_volume fraction volume_combo. unfold on_fraction_selected. split.
  - intros H. by rewrite (proj2 (Z.ltb_ge _ _) H).
  - intros x shares Hpos Hx Hs. rewrite (proj2 (Z.ltb_lt _ _) Hpos), Hx, Hs.
    exists (shares / 100)%Z. split; [by rewrite Z.mul_comm|].
    pose proof (Z.mul_div_le shares 100 ltac:(lia)).
    pose proof (Z.mul_succ_div_gt shares 100 ltac:(lia)).
    split; [lia|]. intros Hlt. by apply Z.div_small.
Qed.

Local Ltac count_orders :=
  repeat first [ rewrite filter_nil
               | rewrite filter_cons, decide_False by done
               | rewrite filter_cons, decide_True by done ];
  simpl; lia.

Lemma get_order_volume_cases volume_combo :
  (exists volume, get_order_volume volume_combo = Done volume /\
     (volume = 0%Z \/
      exists x, py_float (str_strip volume_combo) = Return x /\
                int_of_float x = Truncated volume)) \/
  (get_order_volume volume_combo = Escapes OverflowError /\
   exists x, py_float (str_strip volume_combo) = Return x /\ int_of_float x = Infinite).
Proof.
  unfold get_order_volume.
  destruct (String.eqb (str_strip volume_combo) ""); [left; eexists; eauto|].
  destruct (py_float (str_strip volume_combo)) as [x|e]; [|left; eexists; eauto].
  destruct (int_of_float x) eqn:E.
  - left. eexists. split; [done|]. right. by exists x.
  - left. eexists. eauto.
  - right. split; [done|]. by exists x.
Qed.

(** X26. StockTradingWidget.send_order hands at most one order to the
    engine, and only a limit order on SSE, on the first gateway, for the
    first word of the symbol text, with a positive whole volume read from
    the volume text and a price above zero.  A volume text that is empty,
    does not parse or is not a number counts as 0 and gets the warning
    about the quantity; an infinite one ends the handler with an
    OverflowError.  When an exception escapes nothing was sent and no box
    was opened. *)
Theorem stock_send_order_sends_valid_orders_only :
  forall (engine : MainEngine) (f : StockForm) (direction : Value),
    let effects := fst (Stock_send_order engine f direction) in
    let escaped := snd (Stock_send_order engine f direction) in
    (length (filter (fun e => is_SendOrder e = true) effects) <= 1)%nat /\
    (forall req gw, SendOrder req gw ∈ effects ->
       head (get_all_gateway_names engine) = Some gw /\
       str_strip (stock_symbol_edit f) <> ""%string /\
       first_word (str_strip (stock_symbol_edit f)) = Some (req_symbol req) /\
       float_le0 (price_spinbox f) = false /\
       exists x volume,
         py_float (str_strip (stock_volume_combo f)) = Return x /\
         int_of_float x = Truncated volume /\ (0 < volume)%Z /\
         req = mk_OrderRequest (req_symbol req) (enum_member "Exchange" "SSE") direction
                 (enum_member "OrderType" "LIMIT") (VInt volume)
                 (VFloat (price_spinbox f)) (enum_member "Offset" "NONE")
                 "StockTrading") /\
    (forall e, escaped = Some e ->
       effects = [] /\ (e = IndexError \/ e = OverflowError)) /\
    (forall symbol,
       str_strip (stock_symbol_edit f) <> ""%string ->
       first_word (str_strip (stock_symbol_edit f)) = Some symbol ->
       str_strip (stock_volume_combo f) = ""%string \/
       py_float (str_strip (stock_volume_combo f)) = Raise ValueError \/
       (exists x, py_float (str_strip (stock_volume_combo f)) = Return x /\
                  int_of_float x = NotANumber) ->
       effects = [MessageBox warning "错误" "请输入有效的交易数量"] /\ escaped = None).
Proof.
  intros engine f direction effects escaped. subst effects escaped.
  unfold Stock_send_order.
  destruct (String.eqb_spec (str_strip (stock_symbol_edit f)) "") as [Hs|Hs].
  { cbn [fst snd]. split; [count_orders|].
    split; [intros req gw H; apply list_elem_of_singleton in H; discriminate H|].
    split; [by intros e [=]|]. by intros symbol H. }
  destruct (first_word (str_strip (stock_symbol_edit f))) as [symbol|] eqn:Hw.
  2: { cbn [fst snd]. split; [count_orders|].
       split; [intros req gw H; by apply elem_of_nil in H|].
       split; [intros e [= <-]; by split; [|left]|]. by intros symbol _ [=]. }
  destruct (get_order_volume_cases (stock_volume_combo f))
    as [(volume & Hv & Hvol)|[Hv (x & Hx & Hinf)]]; rewrite Hv.
  2: { cbn [fst snd]. split; [count_orders|].
       split; [intros req gw H; by apply elem_of_nil in H|].
       split; [intros e [= <-]; by split; [|right]|].
       intros s _ _ [Hempty|[Hraise|(x' & Hx' & Hnan)]].
       - unfold get_order_volume in Hv.
         by rewrite Hempty in Hv.
       - congruence.
       - rewrite Hx in Hx'. injection Hx' as <-. congruence. }
  assert (str_strip (stock_volume_combo f) = ""%string \/
          py_float (str_strip (stock_volume_combo f)) = Raise ValueError \/
          (exists x, py_float (str_strip (stock_volume_combo f)) = Return x /\
                     int_of_float x = NotANumber) -> volume = 0%Z) as Hzero.
  { unfold get_order_volume in Hv.
    intros [Hempty|[Hraise|(x & Hx & Hnan)]].
    - rewrite Hempty in Hv. cbn in Hv. congruence.
    - destruct (String.eqb _ _); [congruence|]. rewrite Hraise in Hv. congruence.
    - destruct (String.eqb _ _); [congruence|]. rewrite Hx, Hnan in Hv. congruence. }
  destruct (Z.leb_spec volume 0) as [Hle|Hgt].
  { cbn [fst snd]. split; [count_orders|].
    split; [intros req gw H; apply list_elem_of_singleton in H; discriminate H|].
    split; [by intros e [=]|]. by intros s _ _ _. }
  destruct (float_le0 (price_spinbox f)) eqn:Hp.
  { cbn [fst snd]. split; [count_orders|].
    split; [intros req gw H; apply list_elem_of_singleton in H; discriminate H|].
    split; [by intros e [=]|]. intros s _ _ H. apply Hzero in H. lia. }
  destruct Hvol as [->|(x & Hx & Hint)]; [lia|].
  destruct (get_all_gateway_names engine) as [|gateway gateways] eqn:Hg.
  { cbn [fst snd]. split; [count_orders|].
    split; [intros req gw H; apply list_elem_of_singleton in H; discriminate H|].
    split; [by intros e [=]|]. intros s _ _ H. apply Hzero in H. lia. }
  cbn [fst snd]. split; [|split; [|split]].
  - destruct (negb _); count_orders.
  - intros req gw H. apply elem_of_cons in H as [H|H].
    + injection H as -> ->. split; [done|]. split; [done|]. split; [done|].
      split; [done|]. by exists x, volume.
    + destruct (negb _); [apply list_elem_of_singleton in H; discriminate H|].
      by apply elem_of_nil in H.
  - by intros e [=].
  - intros s _ _ H. apply Hzero in H. lia.
Qed.

End StockTradingProperties.


#[local] Existing Instance Demo.conversions.

Lemma rows_are_distinct_keys_witness :
  data_key OrderMonitor <> "" /\
  forallb (well_typed OrderMonitor)
    [Demo.order "1" "NOTTRADED" 5; Demo.order "2" "NOTTRADED" 7;
     Demo.order "1" "ALLTRADED" 5] = true /\
  exists m,
    process_events OrderMonitor
      [Demo.order "1" "NOTTRADED" 5; Demo.order "2" "NOTTRADED" 7;
       Demo.order "1" "ALLTRADED" 5] (fresh_monitor OrderMonitor) = (m, []) /\
    rowCount m =
      size (keys_of OrderMonitor
              [Demo.order "1" "NOTTRADED" 5; Demo.order "2" "NOTTRADED" 7;
               Demo.order "1" "ALLTRADED" 5]).
Proof.
  split; [discriminate|]. split; [vm_compute; reflexivity|].
  destruct (rows_are_distinct_keys OrderMonitor
              [Demo.order "1" "NOTTRADED" 5; Demo.order "2" "NOTTRADED" 7;
               Demo.order "1" "ALLTRADED" 5]) as (m & Hrun & _ & Hrows).
  - discriminate.
  - vm_compute; reflexivity.
  - exists m. split; [exact Hrun | exact Hrows].
Defined.

Lemma failed_insert_leaves_partial_row_witness :
  headers OrderMonitor =
    (take 10 (headers OrderMonitor) ++
     ("status", mk_Setting "状态" EnumCell true) :: drop 11 (headers OrderMonitor))%list /\
  forallb (renders (ev_data (Demo.order_without_status "1")))
    (take 10 (headers OrderMonitor)) = true /\
  renders (ev_data (Demo.order_without_status "1"))
    ("status", mk_Setting "状态" EnumCell true) = false /\
  exists m',
    process_event OrderMonitor (Demo.order_without_status "1")
      (fresh_monitor OrderMonitor) = (m', Raise AttributeError) /\
    rowCount m' = 1%nat /\ cells m' = ∅.
Proof.
  split; [vm_compute; reflexivity|]. split; [vm_compute; reflexivity|].
  split; [vm_compute; reflexivity|].
  destruct (failed_insert_leaves_partial_row OrderMonitor
              (Demo.order_without_status "1") (fresh_monitor OrderMonitor)
              (take 10 (headers OrderMonitor)) (drop 11 (headers OrderMonitor))
              "status" (mk_Setting "状态" EnumCell true))
    as (new & _ & Hrun).
  - vm_compute; reflexivity.
  - vm_compute; reflexivity.
  - vm_compute; reflexivity.
  - vm_compute; reflexivity.
  - eexists. split; [exact Hrun|]. split; reflexivity.
Defined.

Lemma failed_insert_then_duplicate_row_witness :
  key_of OrderMonitor (ev_data (Demo.order_without_status "1")) = Some "CTP.1" /\
  key_of OrderMonitor (ev_data (Demo.order "1" "NOTTRADED" 5)) = Some "CTP.1" /\
  well_typed OrderMonitor (Demo.order "1" "NOTTRADED" 5) = true /\
  exists m1 m2,
    process_event OrderMonitor (Demo.order_without_status "1")
      (fresh_monitor OrderMonitor) = (m1, Raise AttributeError) /\
    process_event OrderMonitor (Demo.order "1" "NOTTRADED" 5) m1 = (m2, Return tt) /\
    rowCount m2 = 2%nat.
Proof.
  split; [vm_compute; reflexivity|]. split; [vm_compute; reflexivity|].
  split; [vm_compute; reflexivity|].
  destruct (failed_insert_then_duplicate_row OrderMonitor
              (Demo.order_without_status "1") (Demo.order "1" "NOTTRADED" 5)
              (fresh_monitor OrderMonitor) "CTP.1"
              (take 10 (headers OrderMonitor)) (drop 11 (headers OrderMonitor))
              "status" (mk_Setting "状态" EnumCell true))
    as (m1 & m2 & Hbad & Hgood & _ & Hrows & _).
  - vm_compute; reflexivity.
  - vm_compute; reflexivity.
  - vm_compute; reflexivity.
  - vm_compute; reflexivity.
  - vm_compute; reflexivity.
  - vm_compute; reflexivity.
  - vm_compute; reflexivity.
  - exists m1, m2. split; [exact Hbad|]. split; [exact Hgood | exact Hrows].
Defined.

Lemma set_content_idempotent_witness :
  set_content (VDatetime (mk_datetime 5400 250000 0)) ∅
    (mk_Cell TimeCell "" None "" None AlignCenter) =
    Return (mk_Cell TimeCell "" (Some ∅) "09:30:00.250" None AlignCenter) /\
  set_content (VDatetime (mk_datetime 5400 250000 0)) ∅
    (mk_Cell TimeCell "" (Some ∅) "09:30:00.250" None AlignCenter) =
    Return (mk_Cell TimeCell "" (Some ∅) "09:30:00.250" None AlignCenter).
Proof.
  split; [reflexivity|].
  apply (set_content_idempotent (VDatetime (mk_datetime 5400 250000 0)) ∅
           (mk_Cell TimeCell "" None "" None AlignCenter)).
  reflexivity.
Defined.

Lemma repeated_event_changes_nothing_witness :
  well_formed AccountMonitor = true /\
  forallb (well_typed AccountMonitor) ([Demo.account 100] ++ [Demo.account 90]) = true /\
  key_of AccountMonitor (ev_data (Demo.account 90)) = Some "CTP.88" /\
  exists m1 m2,
    process_events AccountMonitor ([Demo.account 100] ++ [Demo.account 90])
      (fresh_monitor AccountMonitor) = (m1, []) /\
    process_event AccountMonitor (Demo.account 90) m1 = (m2, Return tt) /\
    store m2 = store m1.
Proof.
  split; [vm_compute; reflexivity|]. split; [vm_compute; reflexivity|].
  split; [vm_compute; reflexivity|].
  destruct (repeated_event_changes_nothing AccountMonitor [Demo.account 100]
              (Demo.account 90) "CTP.88")
    as (m1 & m2 & Hrun & Hstep & Hstore & _).
  - vm_compute; reflexivity.
  - vm_compute; reflexivity.
  - vm_compute; reflexivity.
  - exists m1, m2. split; [exact Hrun|]. split; [exact Hstep | exact Hstore].
Defined.

Lemma static_first_live_latest_witness :
  well_formed AccountMonitor = true /\
  forallb (well_typed AccountMonitor)
    (Demo.account 100 :: [Demo.account 90] ++ [Demo.account 95]) = true /\
  forallb (fun e => bool_decide (key_of AccountMonitor (ev_data e) = Some "CTP.88"))
    (Demo.account 100 :: [Demo.account 90] ++ [Demo.account 95]) = true /\
  exists m',
    process_events AccountMonitor
      (Demo.account 100 :: [Demo.account 90] ++ [Demo.account 95])
      (fresh_monitor AccountMonitor) = (m', []).
Proof.
  split; [vm_compute; reflexivity|]. split; [vm_compute; reflexivity|].
  split; [vm_compute; reflexivity|].
  destruct (static_first_live_latest AccountMonitor "CTP.88" (Demo.account 100)
              (Demo.account 95) [Demo.account 90]) as (m' & Hrun & _).
  - vm_compute; reflexivity.
  - vm_compute; reflexivity.
  - vm_compute; reflexivity.
  - exists m'. exact Hrun.
Defined.

Lemma other_orders_keep_their_rows_witness :
  forallb (well_typed OrderMonitor)
    ([Demo.order "1" "NOTTRADED" 5; Demo.order "2" "NOTTRADED" 7] ++
     [Demo.order "1" "ALLTRADED" 5]) = true /\
  exists m m',
    ActiveOrderMonitor_process_events
      [Demo.order "1" "NOTTRADED" 5; Demo.order "2" "NOTTRADED" 7]
      (fresh_monitor OrderMonitor) = (m, []) /\
    ActiveOrderMonitor_process_event (Demo.order "1" "ALLTRADED" 5) m = (m', Return tt).
Proof.
  split; [vm_compute; reflexivity|].
  destruct (other_orders_keep_their_rows
              [Demo.order "1" "NOTTRADED" 5; Demo.order "2" "NOTTRADED" 7]
              (Demo.order "1" "ALLTRADED" 5))
    as (m & m' & k & rc & c & Hrun & Hstep & _).
  - vm_compute; reflexivity.
  - exists m, m'. split; [exact Hrun | exact Hstep].
Defined.

Lemma active_monitor_hides_exactly_inactive_witness :
  forallb (well_typed OrderMonitor)
    [Demo.order "1" "NOTTRADED" 5; Demo.order "2" "NOTTRADED" 7;
     Demo.order "1" "ALLTRADED" 5] = true /\
  exists m,
    ActiveOrderMonitor_process_events
      [Demo.order "1" "NOTTRADED" 5; Demo.order "2" "NOTTRADED" 7;
       Demo.order "1" "ALLTRADED" 5] (fresh_monitor OrderMonitor) = (m, []).
Proof.
  split; [vm_compute; reflexivity|].
  destruct (active_monitor_hides_exactly_inactive
              [Demo.order "1" "NOTTRADED" 5; Demo.order "2" "NOTTRADED" 7;
               Demo.order "1" "ALLTRADED" 5]) as (m & Hrun & _).
  - vm_compute; reflexivity.
  - exists m. exact Hrun.
Defined.

Lemma active_monitor_exports_active_orders_witness :
  forallb (well_typed OrderMonitor)
    [Demo.order "1" "NOTTRADED" 5; Demo.order "2" "NOTTRADED" 7;
     Demo.order "1" "ALLTRADED" 5] = true /\
  "orders.csv" <> "" /\
  exists m lines,
    ActiveOrderMonitor_process_events
      [Demo.order "1" "NOTTRADED" 5; Demo.order "2" "NOTTRADED" 7;
       Demo.order "1" "ALLTRADED" 5] (fresh_monitor OrderMonitor) = (m, []) /\
    save_csv OrderMonitor "orders.csv" m = Some lines.
Proof.
  split; [vm_compute; reflexivity|]. split; [discriminate|].
  destruct (active_monitor_exports_active_orders
              [Demo.order "1" "NOTTRADED" 5; Demo.order "2" "NOTTRADED" 7;
               Demo.order "1" "ALLTRADED" 5] "orders.csv") as (m & Hrun & Hcsv).
  - vm_compute; reflexivity.
  - discriminate.
  - exists m. eexists. split; [exact Hrun | exact Hcsv].
Defined.

Lemma save_csv_lines_have_all_columns_witness :
  exists lines,
    save_csv LogMonitor "log.csv"
      (fst (process_events LogMonitor [Demo.log_line "connected"]
              (fresh_monitor LogMonitor))) = Some lines /\
    Forall (fun line => length line = length (headers LogMonitor)) lines.
Proof.
  eexists. split; [vm_compute; reflexivity|].
  apply (save_csv_lines_have_all_columns LogMonitor "log.csv"
           (fst (process_events LogMonitor [Demo.log_line "connected"]
                   (fresh_monitor LogMonitor)))).
  vm_compute; reflexivity.
Defined.

Lemma bid_ask_msg_cells_keep_their_look_witness :
  (BidCell = BidCell \/ BidCell = AskCell \/ BidCell = MsgCell) /\
  exists c c',
    new_cell BidCell (VInt 10) ∅ = Return c /\
    set_contents [(VInt 11, ∅); (VInt 12, ∅)] c = Return c' /\
    text c' = "12" /\
    foreground c' = Some COLOR_BID.
Proof.
  split; [left; reflexivity|].
  destruct (bid_ask_msg_cells_keep_their_look BidCell (VInt 10) ∅
              [(VInt 11, ∅); (VInt 12, ∅)])
    as (c & c' & Hnew & Hset & Htext & Hcolor & _).
  - left; reflexivity.
  - exists c, c'. split; [exact Hnew|]. split; [exact Hset|].
    split; [exact Htext | exact Hcolor].
Defined.

Lemma connect_dialog_reopened_witness :
  exists widgets,
    ConnectDialog_init_ui Demo.gateway_default Demo.gateway_loaded = Return widgets /\
    connect_gateway widgets =
      [ ("用户名", SStr "trader"); ("端口", SInt 0);
        ("授权", SBool true); ("环境", SStr "测试") ].
Proof.
  eexists. split; [reflexivity|].
  etransitivity.
  - apply (connect_dialog_reopened Demo.gateway_default Demo.gateway_loaded).
    reflexivity.
  - reflexivity.
Defined.

Lemma global_dialog_unedited_saves_same_settings_witness :
  Forall (fun s => reads_back (snd s)) Demo.global_settings /\
  update_setting (GlobalDialog_init_ui Demo.global_settings) =
    ([InformationBox "注意" "全局配置的修改需要重启后才会生效！";
      SaveJson Demo.global_settings; Accept], Return tt).
Proof.
  split; [repeat constructor|].
  apply (global_dialog_unedited_saves_same_settings Demo.global_settings).
  repeat constructor.
Defined.

Lemma global_dialog_saves_all_or_nothing_witness :
  Exists unreadable [("font.family", ("微软雅黑", TStr)); ("font.size", ("12pt", TInt))] /\
  update_setting [("font.family", ("微软雅黑", TStr)); ("font.size", ("12pt", TInt))] =
    ([], Raise ValueError).
Proof.
  split; [right; left; reflexivity|].
  apply (global_dialog_saves_all_or_nothing
           [("font.family", ("微软雅黑", TStr)); ("font.size", ("12pt", TInt))]).
  right; left; reflexivity.
Defined.

Lemma show_contracts_rows_and_texts_witness :
  Forall (complete ["vt_symbol"; "size"; "option_expiry"])
    [Demo.contract "600000" 1; Demo.contract "510050" 0] /\
  exists table,
    show_contracts ["vt_symbol"; "size"; "option_expiry"] "5100"
      [Demo.contract "600000" 1; Demo.contract "510050" 0] = Return table /\
    length table = 1%nat.
Proof.
  assert (Forall (complete ["vt_symbol"; "size"; "option_expiry"])
            [Demo.contract "600000" 1; Demo.contract "510050" 0]) as H.
  { repeat constructor; by eexists. }
  split; [exact H|].
  destruct (show_contracts_rows_and_texts ["vt_symbol"; "size"; "option_expiry"] "5100"
              [Demo.contract "600000" 1; Demo.contract "510050" 0] H)
    as (table & Hrun & Hrows & _).
  exists table. split; [exact Hrun|].
  symmetry. exact (Forall2_length _ _ _ Hrows).
Defined.

Lemma show_contracts_filter_only_removes_rows_witness :
  exists filtered full,
    show_contracts ["vt_symbol"; "size"] ""
      [Demo.contract "600000" 1; Demo.contract "510050" 0] = Return full /\
    show_contracts ["vt_symbol"; "size"] "5100"
      [Demo.contract "600000" 1; Demo.contract "510050" 0] = Return filtered /\
    length full = 2%nat /\ length filtered = 1%nat /\
    sublist filtered full.
Proof.
  eexists _, _. split; [reflexivity|]. split; [reflexivity|].
  split; [reflexivity|]. split; [reflexivity|].
  apply (show_contracts_filter_only_removes_rows ["vt_symbol"; "size"] "5100"
           [Demo.contract "600000" 1; Demo.contract "510050" 0]); reflexivity.
Defined.

Lemma set_symbol_takes_vt_symbol_apart_witness :
  has_dot "600000" = false /\ has_dot "SZSE" = false /\
  exists w,
    set_symbol ["CTP"; "XTP"] "600000.SZSE" "浦发银行" =
      Some (w, [(mk_SubscribeRequest "600000" (enum_member "Exchange" "SZSE"), "CTP")]).
Proof.
  split; [reflexivity|]. split; [reflexivity|].
  destruct (set_symbol_takes_vt_symbol_apart ["CTP"; "XTP"] "600000" "SZSE" "浦发银行")
    as (w & Hw).
  - reflexivity.
  - reflexivity.
  - exists w. exact Hw.
Defined.

Lemma tick_updates_first_matching_row_of_each_side_witness :
  Demo.tick "600000" 10 !! "symbol" = Some (VStr "600000") /\
  Demo.tick "600000" 10 !! "last_price" = Some (VFloat (10%Z : @Float Demo.runtime)) /\
  exists f',
    Assistant_process_tick_event (Demo.tick "600000" 10) Demo.assistant_form = Return f' /\
    price_edit (row_1 (buy_side f')) = "10.0" /\
    price_edit (row_2 (buy_side f')) = "9".
Proof.
  split; [reflexivity|]. split; [reflexivity|].
  destruct (tick_updates_first_matching_row_of_each_side (Demo.tick "600000" 10)
              Demo.assistant_form "600000" (VFloat (10%Z : @Float Demo.runtime)))
    as (f' & Hrun & Hsides).
  - reflexivity.
  - reflexivity.
  - exists f'. split; [exact Hrun|].
    destruct (Hsides buy_side (or_introl eq_refl)) as (_ & _ & _ & _ & _ & H1 & H2).
    split; [exact H1 | exact H2].
Defined.


Lemma on_fraction_selected_rounds_down_to_lots_witness :
  int_times_float 199 (1%Z : @Float Demo.runtime) = Some 199%Z /\
  int_of_float (199%Z : @Float Demo.runtime) = Truncated 199 /\
  on_fraction_selected 199 (1%Z : @Float Demo.runtime) "" = Done "100" /\
  on_fraction_selected 0 (1%Z : @Float Demo.runtime) "300" = Done "300".
Proof.
  split; [reflexivity|]. split; [reflexivity|].
  destruct (on_fraction_selected_rounds_down_to_lots 199 (1%Z : @Float Demo.runtime) "")
    as [_ Hlots].
  destruct (Hlots 199%Z 199%Z) as (lots & Hrun & Hbounds & _).
  - reflexivity.
  - reflexivity.
  - reflexivity.
  - split.
    + assert (lots = 1%Z) as -> by lia. exact Hrun.
    + apply (on_fraction_selected_rounds_down_to_lots 0 (1%Z : @Float Demo.runtime) "300").
      discriminate.
Defined.

Lemma trading_widget_send_order_does_one_thing_witness :
  symbol_line Demo.valid_widget <> "" /\
  volume_line Demo.valid_widget <> "" /\
  py_float (volume_line Demo.valid_widget) = Return (100%Z : @Float Demo.runtime) /\
  TradingWidget_send_order Demo.valid_widget =
    ([SendOrder
        (mk_OrderRequest "600000" (enum_member "Exchange" "SSE")
           (enum_member "Direction" "LONG") (enum_member "OrderType" "LIMIT")
           (VFloat (100%Z : @Float Demo.runtime)) (VFloat (10%Z : @Float Demo.runtime))
           (enum_member "Offset" "NONE") "ManualTrading") "CTP"],
     Return tt).
Proof.
  split; [discriminate|]. split; [discriminate|]. split; [reflexivity|].
  destruct (trading_widget_send_order_does_one_thing Demo.valid_widget)
    as (_ & _ & _ & _ & _ & Hsends & _).
  destruct (Hsends (100%Z : @Float Demo.runtime) (VFloat (10%Z : @Float Demo.runtime))
              (enum_member "Exchange" "SSE") (enum_member "Direction" "LONG")
              (enum_member "OrderType" "LIMIT") (enum_member "Offset" "NONE"))
    as [Heffects Houtcome].
  - discriminate.
  - discriminate.
  - reflexivity.
  - right. split; [discriminate|]. exists (10%Z : @Float Demo.runtime).
    split; reflexivity.
  - reflexivity.
  - reflexivity.
  - reflexivity.
  - reflexivity.
  - destruct (TradingWidget_send_order Demo.valid_widget) as [effects outcome].
    simpl in Heffects, Houtcome. by rewrite Heffects, Houtcome.
Defined.
